(** * ETL ECIEM: extraction (ET.py) and star-schema load (etl_load_postgres.py)

    A shallow embedding of the two programs of the repository and the
    properties of their specification.

    - [PyStr]: Python [str] values as lists of Unicode code points, with the
      [str] methods the programs call.
    - [ET]: [_safe_json_preview], [get_json], [descargar_tabla], [limpiar_df].
    - [Load]: the [DataLoader] of etl_load_postgres.py over a model of the
      PostgreSQL tables that [create_tables] declares.

    What lies outside the repository is a parameter of the definitions: the
    Unicode character database ([UCD]), the HTTP transport, the pandas date
    parser, the iteration order of a Python [set], and the statements the
    database server rejects for a reason the model does not track. *)

From Stdlib Require Import List ZArith NArith Lia Bool Ascii.
From Stdlib Require String DecimalString.
From Stdlib Require Import Permutation.
Import ListNotations String.StringSyntax.
Delimit Scope string_scope with string.

Set Implicit Arguments.

(* ===================================================================== *)
(** * Python strings *)
(* ===================================================================== *)

Module PyStr.

(** A Python [str] is a sequence of code points, each a number; [len]
    counts code points. *)
Definition str := list N.

Definition eqb (a b : str) : bool :=
if list_eq_dec N.eq_dec a b then true else false.

(** String literals of this file are written in UTF-8; [lit] decodes one
    into its code points (sequences of one to four bytes). *)
Fixpoint utf8_decode (bs : list N) : str :=
match bs with
| [] => []
| b0 :: r0 =>
  if (b0 <? 128)%N then b0 :: utf8_decode r0
  else match r0 with
  | [] => []
  | b1 :: r1 =>
    if (b0 <? 224)%N
    then ((b0 - 192) * 64 + (b1 - 128))%N :: utf8_decode r1
    else match r1 with
    | [] => []
    | b2 :: r2 =>
      if (b0 <? 240)%N
      then ((b0 - 224) * 4096 + (b1 - 128) * 64 + (b2 - 128))%N
             :: utf8_decode r2
      else match r2 with
      | [] => []
      | b3 :: r3 =>
        ((b0 - 240) * 262144 + (b1 - 128) * 4096
           + (b2 - 128) * 64 + (b3 - 128))%N :: utf8_decode r3
      end
    end
  end
end.

Definition lit (s : String.string) : str :=
utf8_decode (map N_of_ascii (String.list_ascii_of_string s)).
Arguments lit s%_string : simpl never.

(** [str(n)] for a Python [int]. *)
Definition of_int (z : Z) : str :=
lit (DecimalString.NilZero.string_of_int (Z.to_int z)).

(** The part of the Unicode character database that the [str] methods used
    by the programs read.  [isspace_c] is [Py_UNICODE_ISSPACE] ([str.strip]
    without argument), [isalpha_c] the letter categories ([str.isalpha]),
    [isupper_c], [islower_c] and [istitle_c] the case properties
    ([str.isupper]), [upper_c] the full upper-case mapping of one code point
    ([str.upper]; one code point may map to several) and [lower_s] is
    [str.lower] (its mapping depends on the context for one letter, so it is
    taken on the whole string). *)
Record UCD := {
  isspace_c : N -> bool;
  isalpha_c : N -> bool;
  isupper_c : N -> bool;
  islower_c : N -> bool;
  istitle_c : N -> bool;
  upper_c : N -> list N;
  lower_s : str -> str
}.

Section Methods.
Variable U : UCD.

Fixpoint lstrip (s : str) : str :=
match s with
| [] => []
| c :: r => if isspace_c U c then lstrip r else s
end.

Definition rstrip (s : str) : str := rev (lstrip (rev s)).

(** [s.strip()] *)
Definition strip (s : str) : str := rstrip (lstrip s).

(** [s.upper()] *)
Definition upper (s : str) : str := flat_map (upper_c U) s.

(** [s.lower()] *)
Definition lower (s : str) : str := lower_s U s.

(** [s.isalpha()]: at least one character and all of them letters. *)
Definition isalpha (s : str) : bool :=
negb (Nat.eqb (length s) 0) && forallb (isalpha_c U) s.

(** [s.isupper()]: no lower-case or title-case character and at least one
    upper-case one. *)
Definition isupper (s : str) : bool :=
negb (existsb (fun c => islower_c U c || istitle_c U c) s)
&& existsb (isupper_c U) s.

End Methods.

(** [c in s] for a one-character [c]. *)
Definition has_char (c : N) (s : str) : bool :=
existsb (N.eqb c) s.
Arguments has_char c%_N s.

(** [s.replace(a, b)] for one-character [a] and [b]. *)
Definition replace_char (a b : N) (s : str) : str :=
map (fun c => if N.eqb c a then b else c) s.
Arguments replace_char (a b)%_N s.

(** [s.replace(a, '')] for a one-character [a]. *)
Definition remove_char (a : N) (s : str) : str :=
filter (fun c => negb (N.eqb c a)) s.
Arguments remove_char a%_N s.

(** [s.startswith(p)] *)
Fixpoint startswith (s p : str) {struct p} : bool :=
match p, s with
| [], _ => true
| _ :: _, [] => false
| a :: p', b :: s' => N.eqb a b && startswith s' p'
end.

(** [p in s] for strings: [p] occurs in [s]. *)
Fixpoint contains (s p : str) : bool :=
startswith s p ||
match s with
| [] => false
| _ :: s' => contains s' p
end.

(** [sep.join(l)] *)
Fixpoint join (sep : str) (l : list str) : str :=
match l with
| [] => []
| [x] => x
| x :: r => x ++ sep ++ join sep r
end.

(** [x in l] for a list of strings. *)
Definition mem (x : str) (l : list str) : bool := existsb (eqb x) l.

(** [s[:n]] *)
Definition take (n : Z) (s : str) : str :=
if (n <? 0)%Z
then firstn (Z.to_nat (Z.of_nat (length s) + n)) s
else firstn (Z.to_nat n) s.

Definition between (lo hi c : N) : bool := ((lo <=? c) && (c <=? hi))%N.

(** The database on U+0000..U+00FF (Basic Latin and Latin-1 Supplement), the
    range of the Spanish text the programs handle.  From U+0100 on this
    table records no property: it is used on strings of that range only. *)
Definition latin1 : UCD := {|
  isspace_c c :=
    between 9 13 c || between 28 32 c || N.eqb c 133 || N.eqb c 160;
  isalpha_c c :=
    between 65 90 c || between 97 122 c || N.eqb c 170 || N.eqb c 181
    || N.eqb c 186 || between 192 214 c || between 216 246 c
    || between 248 255 c;
  isupper_c c := between 65 90 c || between 192 214 c || between 216 222 c;
  islower_c c :=
    between 97 122 c || N.eqb c 170 || N.eqb c 181 || N.eqb c 186
    || between 223 246 c || between 248 255 c;
  istitle_c _ := false;
  upper_c c :=
    if between 97 122 c || between 224 246 c || between 248 254 c
    then [(c - 32)%N]
    else if N.eqb c 181 then [924%N]
    else if N.eqb c 223 then [83%N; 83%N]
    else if N.eqb c 255 then [376%N]
    else [c];
  lower_s :=
    map (fun c => if between 65 90 c || between 192 214 c || between 216 222 c
                  then (c + 32)%N else c)
|}.

End PyStr.

Import PyStr.

(* ===================================================================== *)
(** * ET.py: paged extraction and cleaning *)
(* ===================================================================== *)

Module ET.

Definition API_URL : str := lit "https://www.eciem.cl/api/api_datos.php".
Definition TOKEN : str := lit "Eciem_20252026".
Definition LIMIT : Z := 2000.

(** [t[:n] + "..."] when [len(t) > n], else [t], with newlines replaced by
    spaces first. *)
Definition _safe_json_preview (text : str) (n : Z) : str :=
let t := replace_char 10 32 text in
if (n <? Z.of_nat (length t))%Z then take n t ++ lit "..." else t.

(** The query parameters of one page request. *)
Record Params := {
  tabla : str;
  token : str;
  limit : Z;
  offset : Z
}.

(** [payload.get("total", 0)] under [int(...)]: the key is absent, or
    [int] returns a number, or [int] raises. *)
Inductive TotalField :=
| TotalAbsent
| TotalInt (z : Z)
| TotalNotInt.

(** What the loop reads of a parsed body: whether it is a [dict], the list
    under ["filas"] when the key is there, the ["total"] entry, and the text
    [json.dumps] gives for it. *)
Inductive Payload (Rec : Type) :=
| NotDict (dumps : str)
| Dict (filas : option (list Rec)) (total : TotalField) (dumps : str).
Arguments NotDict {Rec} dumps.

(** A [requests.Response]: [json] is [None] when [r.json()] raises. *)
Record Response (Rec : Type) := {
  status_code : Z;
  url : str;
  text : str;
  json : option (Payload Rec)
}.

(** The exceptions of the extraction: the [RuntimeError] that [get_json]
    and [descargar_tabla] raise with their message, an exception of
    [requests.get] itself, and the error of [int(...)]. *)
Inductive Exn :=
| RuntimeError (msg : str)
| RequestException
| IntConversionError.

(** [r.raise_for_status()] raises [HTTPError] for a 4xx or 5xx status. *)
Definition raise_for_status (Rec : Type) (r : Response Rec) : bool :=
((400 <=? status_code r) && (status_code r <? 600))%Z.

Section Extractor.
Variable Rec : Type.
(** [requests.get(url, params=params, timeout=timeout)] *)
Variable requests_get : str -> Params -> Exn + Response Rec.

Definition get_json (url0 : str) (params : Params) : Exn + Payload Rec :=
match requests_get url0 params with
| inl e => inl e
| inr r =>
  if raise_for_status r
  then inl (RuntimeError
              (lit "HTTP error " ++ of_int (status_code r) ++ lit " en "
                 ++ url r ++ lit " -> " ++ _safe_json_preview (text r) 300))
  else match json r with
  | Some payload => inr payload
  | None =>
    inl (RuntimeError
           (lit "No pude parsear JSON en " ++ url r ++ lit " -> "
              ++ _safe_json_preview (text r) 300))
  end
end.

(** One turn of the [while True] loop of [descargar_tabla]. *)
Inductive Paso :=
| Sigue (offset : Z) (acumulado : list Rec)
| Termina (acumulado : list Rec)
| Falla (e : Exn).

Definition respuesta_inesperada (tabla0 dumps : str) : Exn :=
RuntimeError (lit "Respuesta inesperada para " ++ tabla0 ++ lit ": "
                ++ take 400 dumps).

Definition descargar_paso (api_url token0 tabla0 : str) (limit0 : Z)
  (offset0 : Z) (acumulado : list Rec) : Paso :=
match get_json api_url {| tabla := tabla0; token := token0;
                          limit := limit0; offset := offset0 |} with
| inl e => Falla e
| inr (NotDict dumps) => Falla (respuesta_inesperada tabla0 dumps)
| inr (Dict None _ dumps) => Falla (respuesta_inesperada tabla0 dumps)
| inr (Dict (Some filas) total dumps) =>
  match total with
  | TotalNotInt => Falla IntConversionError
  | _ =>
    let total := match total with TotalInt z => z | _ => 0%Z end in
    match filas with
    | [] => Termina acumulado
    | _ :: _ =>
      let acumulado := acumulado ++ filas in
      let offset0 := (offset0 + limit0)%Z in
      if (total <=? offset0)%Z then Termina acumulado
      else Sigue offset0 acumulado
    end
  end
end.

(** The loop, with a bound on the number of turns: [None] when the bound is
    reached before the loop ends. *)
Fixpoint descargar_bucle (turns : nat) (api_url token0 tabla0 : str)
  (limit0 offset0 : Z) (acumulado : list Rec) : option (Exn + list Rec) :=
match turns with
| O => None
| S turns' =>
  match descargar_paso api_url token0 tabla0 limit0 offset0 acumulado with
  | Sigue offset1 acumulado1 =>
    descargar_bucle turns' api_url token0 tabla0 limit0 offset1 acumulado1
  | Termina acumulado1 => Some (inr acumulado1)
  | Falla e => Some (inl e)
  end
end.

(** [descargar_tabla]: the records of the returned frame, one per row. *)
Definition descargar_tabla (turns : nat) (api_url token0 tabla0 : str)
  (limit0 : Z) : option (Exn + list Rec) :=
descargar_bucle turns api_url token0 tabla0 limit0 0 [].

End Extractor.

(** The URL that [requests] prepares from the parameters when no value needs
    escaping; [r.url] of the response to that request. *)
Definition prepared_url (url0 : str) (p : Params) : str :=
url0 ++ lit "?tabla=" ++ tabla p ++ lit "&token=" ++ token p
  ++ lit "&limit=" ++ of_int (limit p) ++ lit "&offset=" ++ of_int (offset p).

(** ** [limpiar_df] *)

(** A value of an [object] column: a [str], [None], the float [nan], or any
    other object, kept as the text [str()] gives for it. *)
Inductive obj :=
| OStr (s : str)
| ONone
| ONaN
| OOther (repr : str).

(** [str(o)] *)
Definition py_str (o : obj) : str :=
match o with
| OStr s => s
| ONone => lit "None"
| ONaN => lit "nan"
| OOther r => r
end.

(** A [Timestamp] of a [datetime64[ns]] column: nanoseconds since the
    epoch. *)
Definition Timestamp := Z.

Section Cleaner.
Variable U : UCD.
(** The values of a column that is neither [object] nor [datetime64]. *)
Variable Num : Type.
(** [pd.to_datetime(column, errors="coerce")] on one value that is not
    missing: [None] is [NaT].  pandas may read the format off the column, so
    the column is an argument too. *)
Variable to_datetime_obj : list obj -> obj -> option Timestamp.
Variable to_datetime_num : list Num -> Num -> option Timestamp.

(** A column by its dtype; [None] in a [datetime64] column is [NaT]. *)
Inductive Values :=
| ObjectCol (v : list obj)
| DatetimeCol (v : list (option Timestamp))
| NumCol (v : list Num).

Record Column := {
  name : str;
  values : Values
}.

(** A frame built from JSON records: columns with distinct labels and the
    same number of rows. *)
Definition DataFrame := list Column.

Definition nrows (v : Values) : nat :=
match v with
| ObjectCol l => length l
| DatetimeCol l => length l
| NumCol l => length l
end.

(** [df.empty]: no column or no row. *)
Definition empty (df : DataFrame) : bool :=
match df with
| [] => true
| c :: _ => Nat.eqb (nrows (values c)) 0
end.

(** [df[c].astype(str).str.strip()] when [is_object_dtype(df[c])]. *)
Definition strip_objetos (c : Column) : Column :=
match values c with
| ObjectCol l =>
  {| name := name c;
     values := ObjectCol (map (fun o => OStr (strip U (py_str o))) l) |}
| _ => c
end.

(** [c.lower().startswith(("fech_", "fecha_"))] *)
Definition es_fecha (c : str) : bool :=
startswith (lower U c) (lit "fech_") || startswith (lower U c) (lit "fecha_").

Definition fecha_nula (s : str) : bool :=
eqb s (lit "0000-00-00") || eqb s (lit "0000-00-00 00:00:00").

(** [df[c].replace({"0000-00-00": None, "0000-00-00 00:00:00": None})] *)
Definition replace_nulas (v : Values) : Values :=
match v with
| ObjectCol l =>
  ObjectCol (map (fun o => match o with
                           | OStr s => if fecha_nula s then ONone else o
                           | _ => o
                           end) l)
| _ => v
end.

(** [pd.to_datetime(df[c], errors="coerce")] *)
Definition to_datetime (v : Values) : Values :=
match v with
| ObjectCol l =>
  DatetimeCol (map (fun o => match o with
                             | ONone | ONaN => None
                             | _ => to_datetime_obj l o
                             end) l)
| DatetimeCol l => DatetimeCol l
| NumCol l => DatetimeCol (map (to_datetime_num l) l)
end.

Definition normalizar_fecha (c : Column) : Column :=
if es_fecha (name c)
then {| name := name c; values := to_datetime (replace_nulas (values c)) |}
else c.

Definition limpiar_df (df : DataFrame) : DataFrame :=
if empty df then df
else map normalizar_fecha (map strip_objetos df).

End Cleaner.

Arguments ObjectCol {Num} v.
Arguments DatetimeCol {Num} v.
Arguments NumCol {Num} v.

(** ** [detectar_columna_rut] *)


(** [l.index(x)]: the position of the first element equal to [x]; [None]
    where Python raises [ValueError]. *)
Fixpoint index (l : list str) (x : str) : option nat :=
match l with
| [] => None
| y :: r => if eqb y x then Some 0 else option_map S (index r x)
end.



End ET.

(* ===================================================================== *)
(** * etl_load_postgres.py: the star-schema loader *)
(* ===================================================================== *)

Module Load.

(** ** Values and frames read by [pd.read_csv] *)

(** A value of a row: a [str], the float [nan] of a missing field, [None]
    (what [row.get] answers for a label the row does not have), or a number,
    kept as the text [str()] gives for it. *)
Inductive cell :=
| VStr (s : str)
| VNaN
| VNone
| VNum (repr : str).

(** [pd.notna(v)] and [not pd.isna(v)] *)
Definition notna (v : cell) : bool :=
match v with
| VNaN | VNone => false
| _ => true
end.

(** [str(v)] *)
Definition cell_str (v : cell) : str :=
match v with
| VStr s => s
| VNaN => lit "nan"
| VNone => lit "None"
| VNum r => r
end.

Definition cell_eqb (a b : cell) : bool :=
match a, b with
| VStr s, VStr t => eqb s t
| VNaN, VNaN => true
| VNone, VNone => true
| VNum s, VNum t => eqb s t
| _, _ => false
end.

(** A row ([Series]) as its labels with their values. *)
Definition fila := list (str * cell).

Fixpoint lookup (f : fila) (col : str) : option cell :=
match f with
| [] => None
| (k, v) :: r => if eqb k col then Some v else lookup r col
end.

(** [col in fila] *)
Definition has_col (f : fila) (col : str) : bool :=
match lookup f col with
| Some _ => true
| None => false
end.

(** [fila.get(col)] *)
Definition get (f : fila) (col : str) : cell :=
match lookup f col with
| Some v => v
| None => VNone
end.

(** A frame: its column labels and its rows, each with one value per
    column.  Its index is 0, 1, 2, ... as [pd.read_csv] sets it. *)
Record Frame := {
  columns : list str;
  data : list (list cell)
}.

(** The rows of [df.iterrows()], in order. *)
Definition iterrows (df : Frame) : list fila :=
map (combine (columns df)) (data df).

(** [df[col].dropna()] *)
Definition columna_dropna (df : Frame) (col : str) : list cell :=
filter notna (map (fun f => get f col) (iterrows df)).

(** [.unique()]: the values in the order of their first appearance. *)
Fixpoint unique (seen l : list cell) : list cell :=
match l with
| [] => []
| v :: r =>
  if existsb (cell_eqb v) seen then unique seen r
  else v :: unique (v :: seen) r
end.

(** A file of the data directory: absent ([os.path.exists] is false),
    present and refused by [pd.read_csv], or read as a frame. *)
Inductive Csv :=
| NoExiste
| Ilegible
| Leido (df : Frame).

Record Files := {
  ALUMN_PRACT : Csv;
  alumn_pract_eva_jef : Csv
}.

(** ** Dates *)

(** A [datetime.date]. *)
Record date := {
  year : Z;
  month : Z;
  day : Z
}.

Definition date_eqb (a b : date) : bool :=
((year a =? year b) && (month a =? month b) && (day a =? day b))%Z.

Definition is_leap (y : Z) : bool :=
((y mod 4 =? 0) && (negb (y mod 100 =? 0) || (y mod 400 =? 0)))%Z.

Definition days_in_month (y m : Z) : Z :=
if (m =? 2)%Z then (if is_leap y then 29 else 28)%Z
else if ((m =? 4) || (m =? 6) || (m =? 9) || (m =? 11))%Z then 30%Z
else 31%Z.

Definition days_before_month (y m : Z) : Z :=
fold_right Z.add 0%Z
  (map (fun k => days_in_month y (Z.of_nat k)) (seq 1 (Z.to_nat m - 1))).

Definition days_before_year (y : Z) : Z :=
let y := (y - 1)%Z in (y * 365 + y / 4 - y / 100 + y / 400)%Z.

(** [d.toordinal()]; [(b - a).days] is [toordinal b - toordinal a]. *)
Definition toordinal (d : date) : Z :=
(days_before_year (year d) + days_before_month (year d) (month d) + day d)%Z.

(** ** What the loader takes from outside the repository *)

(** The verdict of the server on a statement: it runs it, or it rejects it
    for a reason the tables of this model do not decide (a lost connection,
    an encoding error); a rejected insert may have drawn a value of the
    table's sequence. *)
Inductive Verdict :=
| Accept
| Reject (burn : bool).

(** - [ucd]: the Unicode character database;
    - [to_date v]: the date [pd.to_datetime(v).date()] returns, [None] when
      the call raises;
    - [int_float v]: [int(float(v))], [None] when it raises;
    - [set_iter l]: the elements of the Python [set] that holds the values
      [l], each of them once in [l], in the order a [for] loop visits them;
    - [verdict n]: the server's verdict on the [n]-th statement sent through
      [execute_query].
    The [SELECT] statements of the lookups are taken to succeed. *)
Record Env := {
  ucd : UCD;
  to_date : cell -> option date;
  int_float : cell -> option Z;
  set_iter : forall A : Type, list A -> list A;
  verdict : nat -> Verdict
}.

(** ** The tables that [create_tables] declares *)

Module Rubro.
Record row := { id_rubro : Z; nombrerubro : str }.
End Rubro.

Module Empresa.
Record row := {
  id_empresa : Z;
  nombre : str;
  direccion : option str;
  ciudad : option str;
  taranto : option str;
  disposicionrecibir : bool;
  id_rubro : option Z
}.
End Empresa.

Module Carrera.
Record row := { id_carrera : Z; nombrecarrera : str; escuela : option str }.
End Carrera.

Module Estudiante.
Record row := {
  id_estudiante : Z;
  nombre : str;
  apellido : option str;
  correo : option str;
  telefono : option str;
  rut_alumno : option str;
  matricula : option str;
  anoingreso : option Z;
  nivelestudio : option str
}.
End Estudiante.

Module Tiempo.
Record row := {
  id_tiempo : Z;
  anno : Z;
  mes : Z;
  trimestre : Z;
  semestre : Z;
  fechacompleta : option date
}.
End Tiempo.

(** [fecha_evaluacion], filled by its default, is left out. *)
Module Evaluacion.
Record row := { id_evaluacionempresa : Z; comentario : option str }.
End Evaluacion.

Module Practica.
Record row := {
  id_practica : Z;
  modalidad : option str;
  id_carrera : option Z;
  horaspractica : option Z;
  estatus : option str;
  estadoproceso : option str;
  fechainicio : option date;
  fechafin : option date
}.
End Practica.

(** [fecharegistro], filled by its default, is left out. *)
Module Hechos.
Record row := {
  id_hechos : Z;
  id_estudiante : option Z;
  id_practica : option Z;
  id_empresa : option Z;
  id_tiempo : option Z;
  id_evaluacionempresa : option Z;
  id_rotacionempresa : option Z
}.
End Hechos.

(** A table: its rows in the order of insertion and the next value of the
    sequence behind its [SERIAL] key. *)
Record Table (R : Type) := {
  rows : list R;
  serial : Z
}.

Record Store := {
  rubro : Table Rubro.row;
  empresa : Table Empresa.row;
  carrera : Table Carrera.row;
  estudiante : Table Estudiante.row;
  tiempo : Table Tiempo.row;
  evaluacion_empresa : Table Evaluacion.row;
  practica : Table Practica.row;
  hechos : Table Hechos.row
}.

(** The tables after [drop_existing_tables] and [create_tables]. *)
Definition nueva (R : Type) : Table R := {| rows := []; serial := 1 |}.

Definition tablas_creadas : Store := {|
  rubro := nueva _; empresa := nueva _; carrera := nueva _;
  estudiante := nueva _; tiempo := nueva _; evaluacion_empresa := nueva _;
  practica := nueva _; hechos := nueva _
|}.

Definition with_rubro (db : Store) (t : Table Rubro.row) : Store :=
{| rubro := t; empresa := empresa db; carrera := carrera db;
   estudiante := estudiante db; tiempo := tiempo db;
   evaluacion_empresa := evaluacion_empresa db; practica := practica db;
   hechos := hechos db |}.

Definition with_empresa (db : Store) (t : Table Empresa.row) : Store :=
{| rubro := rubro db; empresa := t; carrera := carrera db;
   estudiante := estudiante db; tiempo := tiempo db;
   evaluacion_empresa := evaluacion_empresa db; practica := practica db;
   hechos := hechos db |}.

Definition with_carrera (db : Store) (t : Table Carrera.row) : Store :=
{| rubro := rubro db; empresa := empresa db; carrera := t;
   estudiante := estudiante db; tiempo := tiempo db;
   evaluacion_empresa := evaluacion_empresa db; practica := practica db;
   hechos := hechos db |}.

Definition with_estudiante (db : Store) (t : Table Estudiante.row) : Store :=
{| rubro := rubro db; empresa := empresa db; carrera := carrera db;
   estudiante := t; tiempo := tiempo db;
   evaluacion_empresa := evaluacion_empresa db; practica := practica db;
   hechos := hechos db |}.

Definition with_tiempo (db : Store) (t : Table Tiempo.row) : Store :=
{| rubro := rubro db; empresa := empresa db; carrera := carrera db;
   estudiante := estudiante db; tiempo := t;
   evaluacion_empresa := evaluacion_empresa db; practica := practica db;
   hechos := hechos db |}.

Definition with_evaluacion (db : Store) (t : Table Evaluacion.row) : Store :=
{| rubro := rubro db; empresa := empresa db; carrera := carrera db;
   estudiante := estudiante db; tiempo := tiempo db;
   evaluacion_empresa := t; practica := practica db;
   hechos := hechos db |}.

Definition with_practica (db : Store) (t : Table Practica.row) : Store :=
{| rubro := rubro db; empresa := empresa db; carrera := carrera db;
   estudiante := estudiante db; tiempo := tiempo db;
   evaluacion_empresa := evaluacion_empresa db; practica := t;
   hechos := hechos db |}.

Definition with_hechos (db : Store) (t : Table Hechos.row) : Store :=
{| rubro := rubro db; empresa := empresa db; carrera := carrera db;
   estudiante := estudiante db; tiempo := tiempo db;
   evaluacion_empresa := evaluacion_empresa db; practica := practica db;
   hechos := t |}.

(** ** Column types and constraints *)

(** [VARCHAR(n)]: a longer value is an error, unless what exceeds [n]
    characters is spaces only, which are cut. *)
Definition varchar (n : nat) (s : str) : option str :=
if Nat.leb (length s) n then Some s
else if forallb (N.eqb 32) (skipn n s) then Some (firstn n s)
else None.

Definition nullable (A B : Type) (f : A -> option B) (o : option A)
  : option (option B) :=
match o with
| None => Some None
| Some a => option_map Some (f a)
end.

(** [INTEGER] *)
Definition integer (z : Z) : option Z :=
if ((-2147483648 <=? z) && (z <=? 2147483647))%Z then Some z else None.

(** [NOT NULL] *)
Definition not_null (A : Type) (o : option A) : option A := o.

Definition bind (A B : Type) (o : option A) (k : A -> option B) : option B :=
match o with
| Some a => k a
| None => None
end.

Notation "x <- e ;; k" := (bind e (fun x => k))
  (at level 61, e at next level, right associativity).

(** What a statement did: it inserted a row and returns its key, it did
    nothing ([ON CONFLICT ... DO NOTHING]), or it failed on a constraint.
    Here the sequence has moved in the three cases, as it does when the
    default of the key is drawn before the row is checked ([NOT NULL], a
    conflict, a foreign key).  A server that refuses a value by the type of
    its column before it draws the key leaves the sequence one below: the
    rows are the same, the keys given after that refusal are one less. *)
Inductive Outcome (T : Type) :=
| Inserted (t : T) (id : Z)
| Ignored (t : T)
| Violation (t : T).

(** The table, or the tables, that a statement leaves. *)
Definition after (T : Type) (o : Outcome T) : T :=
match o with
| Inserted t _ => t
| Ignored t => t
| Violation t => t
end.

Definition bump (R : Type) (t : Table R) : Table R :=
{| rows := rows t; serial := serial t + 1 |}.

Definition append (R : Type) (t : Table R) (r : R) : Table R :=
{| rows := rows t ++ [r]; serial := serial t + 1 |}.

Definition has_key (R : Type) (id_of : R -> Z) (t : Table R) (k : Z) : bool :=
existsb (fun r => Z.eqb (id_of r) k) (rows t).

(** [REFERENCES]: a foreign key is null or the key of a row. *)
Definition references (R : Type) (id_of : R -> Z) (t : Table R)
  (fk : option Z) : bool :=
match fk with
| None => true
| Some k => has_key id_of t k
end.

(** One [INSERT] into [t]: [checked] is the row after the column types and
    [NOT NULL], a function of the key; [conflict] is the target of
    [ON CONFLICT]; [fk] tells that the foreign keys point to rows. *)
Definition insert (R : Type) (id_of : R -> Z) (t : Table R)
  (checked : option (Z -> R)) (conflict : R -> R -> bool) (fk : bool)
  : Outcome (Table R) :=
match checked with
| None => Violation (bump t)
| Some mk =>
  let r := mk (serial t) in
  if existsb (conflict r) (rows t) then Ignored (bump t)
  else if negb (has_key id_of t (serial t)) && fk
       then Inserted (append t r) (serial t)
       else Violation (bump t)
end.

Definition into (T : Type) (set : T -> Store) (o : Outcome T) : Outcome Store :=
match o with
| Inserted t id => Inserted (set t) id
| Ignored t => Ignored (set t)
| Violation t => Violation (set t)
end.

Definition no_conflict (R : Type) (_ _ : R) : bool := false.

Definition same_str (a b : option str) : bool :=
match a, b with
| Some x, Some y => eqb x y
| _, _ => false
end.

Definition same_date (a b : option date) : bool :=
match a, b with
| Some x, Some y => date_eqb x y
| _, _ => false
end.

(** ** The statements sent through [execute_query] *)

Inductive Stmt :=
| INSERT_rubro (nombrerubro : str)
| INSERT_empresa (nombre : str) (direccion ciudad taranto : option str)
    (id_rubro : option Z)
| INSERT_carrera (nombrecarrera escuela : str)
| INSERT_estudiante (nombre apellido correo telefono : option str)
    (rut_alumno : str) (matricula : option str) (anoingreso : option Z)
    (nivelestudio : option str)
| INSERT_tiempo (anno mes trimestre semestre : Z) (fechacompleta : date)
| INSERT_evaluacion_empresa (comentario : str)
| INSERT_practica (modalidad : option str) (id_carrera horaspractica : option Z)
    (estatus estadoproceso : option str) (fechainicio fechafin : option date)
| INSERT_hechos (id_estudiante id_practica id_empresa id_tiempo
    id_evaluacionempresa id_rotacionempresa : option Z).

(** The row of each statement after the column types and [NOT NULL], as a
    function of its key; [None] when a value is refused. *)
Definition fila_rubro (n : str) : option (Z -> Rubro.row) :=
n <- varchar 255 n ;;
Some (fun id => {| Rubro.id_rubro := id; Rubro.nombrerubro := n |}).

Definition fila_empresa (n : str) (d c t : option str) (r : option Z)
  : option (Z -> Empresa.row) :=
n <- varchar 255 n ;;
c <- nullable (varchar 100) c ;;
t <- nullable (varchar 100) t ;;
r <- nullable integer r ;;
Some (fun id => {| Empresa.id_empresa := id; Empresa.nombre := n;
                   Empresa.direccion := d; Empresa.ciudad := c;
                   Empresa.taranto := t; Empresa.disposicionrecibir := true;
                   Empresa.id_rubro := r |}).

Definition fila_carrera (n e : str) : option (Z -> Carrera.row) :=
n <- varchar 255 n ;;
e <- varchar 255 e ;;
Some (fun id => {| Carrera.id_carrera := id; Carrera.nombrecarrera := n;
                   Carrera.escuela := Some e |}).

Definition fila_estudiante (n a c t : option str) (rut : str)
  (m : option str) (ai : option Z) (ne : option str)
  : option (Z -> Estudiante.row) :=
n <- not_null n ;;
n <- varchar 255 n ;;
a <- nullable (varchar 255) a ;;
c <- nullable (varchar 255) c ;;
t <- nullable (varchar 50) t ;;
rut <- varchar 20 rut ;;
m <- nullable (varchar 50) m ;;
ai <- nullable integer ai ;;
ne <- nullable (varchar 100) ne ;;
Some (fun id => {| Estudiante.id_estudiante := id; Estudiante.nombre := n;
                   Estudiante.apellido := a; Estudiante.correo := c;
                   Estudiante.telefono := t;
                   Estudiante.rut_alumno := Some rut;
                   Estudiante.matricula := m; Estudiante.anoingreso := ai;
                   Estudiante.nivelestudio := ne |}).

Definition fila_tiempo (a m t s : Z) (f : date) : option (Z -> Tiempo.row) :=
a <- integer a ;;
m <- integer m ;;
t <- integer t ;;
s <- integer s ;;
Some (fun id => {| Tiempo.id_tiempo := id; Tiempo.anno := a; Tiempo.mes := m;
                   Tiempo.trimestre := t; Tiempo.semestre := s;
                   Tiempo.fechacompleta := Some f |}).

Definition fila_evaluacion (c : str) : option (Z -> Evaluacion.row) :=
Some (fun id => {| Evaluacion.id_evaluacionempresa := id;
                   Evaluacion.comentario := Some c |}).

Definition fila_practica (m : option str) (c h : option Z)
  (e ep : option str) (fi ff : option date) : option (Z -> Practica.row) :=
m <- nullable (varchar 100) m ;;
c <- nullable integer c ;;
h <- nullable integer h ;;
e <- nullable (varchar 50) e ;;
ep <- nullable (varchar 100) ep ;;
Some (fun id => {| Practica.id_practica := id; Practica.modalidad := m;
                   Practica.id_carrera := c; Practica.horaspractica := h;
                   Practica.estatus := e; Practica.estadoproceso := ep;
                   Practica.fechainicio := fi; Practica.fechafin := ff |}).

Definition fila_hechos (es pr em ti ev ro : option Z)
  : option (Z -> Hechos.row) :=
es <- nullable integer es ;;
pr <- nullable integer pr ;;
em <- nullable integer em ;;
ti <- nullable integer ti ;;
ev <- nullable integer ev ;;
ro <- nullable integer ro ;;
Some (fun id => {| Hechos.id_hechos := id; Hechos.id_estudiante := es;
                   Hechos.id_practica := pr; Hechos.id_empresa := em;
                   Hechos.id_tiempo := ti; Hechos.id_evaluacionempresa := ev;
                   Hechos.id_rotacionempresa := ro |}).

(** The targets of [ON CONFLICT]. *)
Definition conflicto_rubro (r x : Rubro.row) : bool :=
eqb (Rubro.nombrerubro r) (Rubro.nombrerubro x).

Definition conflicto_carrera (r x : Carrera.row) : bool :=
eqb (Carrera.nombrecarrera r) (Carrera.nombrecarrera x).

Definition conflicto_estudiante (r x : Estudiante.row) : bool :=
same_str (Estudiante.rut_alumno r) (Estudiante.rut_alumno x).

Definition conflicto_tiempo (r x : Tiempo.row) : bool :=
same_date (Tiempo.fechacompleta r) (Tiempo.fechacompleta x).

(** The effect of an accepted statement on the tables. *)
Definition run (q : Stmt) (db : Store) : Outcome Store :=
match q with
| INSERT_rubro n =>
  (* ON CONFLICT (nombrerubro) DO NOTHING *)
  into (with_rubro db)
    (insert Rubro.id_rubro (rubro db) (fila_rubro n) conflicto_rubro true)
| INSERT_empresa n d c t r =>
  into (with_empresa db)
    (insert Empresa.id_empresa (empresa db) (fila_empresa n d c t r)
       (@no_conflict _) (references Rubro.id_rubro (rubro db) r))
| INSERT_carrera n e =>
  (* ON CONFLICT (nombrecarrera) DO NOTHING *)
  into (with_carrera db)
    (insert Carrera.id_carrera (carrera db) (fila_carrera n e)
       conflicto_carrera true)
| INSERT_estudiante n a c t rut m ai ne =>
  (* ON CONFLICT (rut_alumno) DO NOTHING *)
  into (with_estudiante db)
    (insert Estudiante.id_estudiante (estudiante db)
       (fila_estudiante n a c t rut m ai ne) conflicto_estudiante true)
| INSERT_tiempo a m t s f =>
  (* ON CONFLICT (fechacompleta) DO NOTHING *)
  into (with_tiempo db)
    (insert Tiempo.id_tiempo (tiempo db) (fila_tiempo a m t s f)
       conflicto_tiempo true)
| INSERT_evaluacion_empresa c =>
  (* RETURNING id_evaluacionempresa *)
  into (with_evaluacion db)
    (insert Evaluacion.id_evaluacionempresa (evaluacion_empresa db)
       (fila_evaluacion c) (@no_conflict _) true)
| INSERT_practica m c h e ep fi ff =>
  into (with_practica db)
    (insert Practica.id_practica (practica db)
       (fila_practica m c h e ep fi ff) (@no_conflict _)
       (references Carrera.id_carrera (carrera db) c))
| INSERT_hechos es pr em ti ev ro =>
  into (with_hechos db)
    (insert Hechos.id_hechos (hechos db) (fila_hechos es pr em ti ev ro)
       (@no_conflict _)
       (references Estudiante.id_estudiante (estudiante db) es
        && references Practica.id_practica (practica db) pr
        && references Empresa.id_empresa (empresa db) em
        && references Tiempo.id_tiempo (tiempo db) ti
        && references Evaluacion.id_evaluacionempresa
             (evaluacion_empresa db) ev))
end.

(** A rejected statement changes no row; it may have moved the sequence of
    its table. *)
Definition burnt (q : Stmt) (db : Store) : Store :=
match q with
| INSERT_rubro _ => with_rubro db (bump (rubro db))
| INSERT_empresa _ _ _ _ _ => with_empresa db (bump (empresa db))
| INSERT_carrera _ _ => with_carrera db (bump (carrera db))
| INSERT_estudiante _ _ _ _ _ _ _ _ =>
  with_estudiante db (bump (estudiante db))
| INSERT_tiempo _ _ _ _ _ => with_tiempo db (bump (tiempo db))
| INSERT_evaluacion_empresa _ =>
  with_evaluacion db (bump (evaluacion_empresa db))
| INSERT_practica _ _ _ _ _ _ _ => with_practica db (bump (practica db))
| INSERT_hechos _ _ _ _ _ _ => with_hechos db (bump (hechos db))
end.

(** ** The loader *)

Inductive Etapa :=
| Comentarios | Rubros | Empresas | Carreras | Estudiantes | Tiempos
| Practicas | TablaHechos.

(** The records of level WARNING and ERROR that the loader logs; the lines
    of level INFO are not modelled. *)
Inductive Evento :=
| ERROR_query
| ERROR_archivo (e : Etapa)
| ERROR_cargando (e : Etapa)
| WARNING_hecho (index : nat).

Definition is_warning (e : Evento) : bool :=
match e with
| WARNING_hecho _ => true
| _ => false
end.

(** The state of a [DataLoader]: the tables behind its connection, its
    [df_comentarios] (the column [comentarios_evaluacion]), the number of
    statements sent so far and the log, latest record first. *)
Record DataLoader := {
  db : Store;
  df_comentarios : option (list str);
  clock : nat;
  log : list Evento
}.

Definition DataLoader_init (s : Store) : DataLoader :=
{| db := s; df_comentarios := None; clock := 0; log := [] |}.

Definition with_db (st : DataLoader) (s : Store) : DataLoader :=
{| db := s; df_comentarios := df_comentarios st; clock := clock st;
   log := log st |}.

Definition logged (e : Evento) (st : DataLoader) : DataLoader :=
{| db := db st; df_comentarios := df_comentarios st; clock := clock st;
   log := e :: log st |}.

Definition tick (st : DataLoader) : DataLoader :=
{| db := db st; df_comentarios := df_comentarios st; clock := S (clock st);
   log := log st |}.

(** What [execute_query] leaves: the state, its return value, and the key
    that [self.cur.fetchone()] gives after a [RETURNING] insert. *)
Record Result := {
  state : DataLoader;
  success : bool;
  fetchone : option Z
}.

Definition execute_query (E : Env) (q : Stmt) (st : DataLoader) : Result :=
let st' := tick st in
match verdict E (clock st) with
| Reject burn =>
  {| state := logged ERROR_query
                (with_db st' (if burn then burnt q (db st) else db st));
     success := false; fetchone := None |}
| Accept =>
  match run q (db st) with
  | Inserted s id =>
    {| state := with_db st' s; success := true; fetchone := Some id |}
  | Ignored s =>
    {| state := with_db st' s; success := true; fetchone := None |}
  | Violation s =>
    {| state := logged ERROR_query (with_db st' s);
       success := false; fetchone := None |}
  end
end.

(** ** [extraer_comentarios_reales] *)

Definition columnas_comentarios : list str :=
map lit ["r_2_1"; "r_2_2"; "r_2_3"; "r_2_4"; "r_2_5"; "r_2_6";
         "r_2_8"; "r_2_9"; "r_2_10"; "r_2_11"; "r_2_12"; "r_2_13";
         "r_2_14"; "r_2_15"]%string.

Definition excluir : list str :=
map lit ["A"; "B"; "C"; "D"; "Si"; "SI"; "NO"; "No"; "De acuerdo";
         "1"; "2"; "3"]%string.

Definition sin_comentarios : str := lit "Sin comentarios específicos".

(** The test of [extraer_comentarios_reales_fila] on [valor_limpio]. *)
Definition comentario_real (U : UCD) (valor_limpio : str) : bool :=
negb (mem valor_limpio excluir)
&& Nat.ltb 10 (length valor_limpio)
&& negb (isupper U valor_limpio)
&& negb (isalpha U (remove_char 32 valor_limpio))
&& (has_char 44 valor_limpio || has_char 46 valor_limpio
    || has_char 32 valor_limpio).

(** The list [comentarios] that the loop over [columnas_comentarios]
    builds. *)
Definition comentarios_de (U : UCD) (f : fila) : list str :=
flat_map
  (fun col =>
     if has_col f col then
       match get f col with
       | VStr valor =>
         let valor_limpio := strip U valor in
         if comentario_real U valor_limpio then [valor_limpio] else []
       | _ => []
       end
     else [])
  columnas_comentarios.

Definition extraer_comentarios_reales_fila (U : UCD) (f : fila) : str :=
match comentarios_de U f with
| [] => sin_comentarios
| comentarios => join (lit " | ") comentarios
end.

Definition extraer_comentarios_reales (E : Env) (files : Files)
  (st : DataLoader) : DataLoader :=
match alumn_pract_eva_jef files with
| NoExiste => logged (ERROR_archivo Comentarios) st
| Ilegible => logged (ERROR_cargando Comentarios) st
| Leido df =>
  {| db := db st;
     df_comentarios :=
       Some (map (extraer_comentarios_reales_fila (ucd E)) (iterrows df));
     clock := clock st; log := log st |}
end.

(** ** [_mapear_carrera] *)

Definition IICG : str := lit "INGENIERIA EN INFORMACION Y CONTROL DE GESTION".
Definition IC : str := lit "INGENIERIA COMERCIAL".

Definition mapeo_carreras : list (str * str) :=
[ (lit "INGENIERIA EN INFORMACION Y CONTROL DE GESTION", IICG);
  (lit "ING. EN INFORMACIÓN Y CONTROL DE GESTIÓN", IICG);
  (lit "INGENIERÍA EN INFORMACIÓN Y CONTROL DE GESTIÓN", IICG);
  (lit "ING. INFORMACION Y CONTROL DE GESTION", IICG);
  (lit "INGENIERIA INFORMACION Y CONTROL GESTION", IICG);
  (lit "IICG", IICG);
  (lit "INGENIERIA EN INFORMACION Y CONTROL DE GESTIÓN", IICG);
  (lit "INGENIERIA COMERCIAL", IC);
  (lit "ING. COMERCIAL", IC);
  (lit "INGENIERÍA COMERCIAL", IC);
  (lit "ING COMERCIAL", IC);
  (lit "IC", IC) ].

(** [d.get(k, default)] *)
Fixpoint dict_get (d : list (str * str)) (k default : str) : str :=
match d with
| [] => default
| (k', v) :: r => if eqb k' k then v else dict_get r k default
end.

Definition _mapear_carrera (U : UCD) (nombre_carrera : cell) : str :=
if negb (notna nombre_carrera) then IICG
else
  let carrera_limpia := upper U (strip U (cell_str nombre_carrera)) in
  dict_get mapeo_carreras carrera_limpia IICG.

(** ** Auxiliary methods *)

Definition _safe_int (E : Env) (value : cell) : option Z :=
if notna value then int_float E value else None.

Definition _parse_fecha (E : Env) (fecha_str : cell) : option date :=
if negb (notna fecha_str)
   || match fecha_str with
      | VStr s => mem s (map lit [""; "0000-00-00"; "0000-00-00 00:00:00"]%string)
      | _ => false
      end
then None
else to_date E fecha_str.

Definition first_key (R : Type) (id_of : R -> Z) (p : R -> bool) (t : Table R)
  : option Z :=
option_map id_of (find p (rows t)).

Definition _get_id_rubro_por_nombre (s : Store) (nombre : str) : option Z :=
first_key Rubro.id_rubro (fun r => eqb (Rubro.nombrerubro r) nombre) (rubro s).

Definition _get_id_carrera_por_nombre (s : Store) (nombre : str) : option Z :=
first_key Carrera.id_carrera
  (fun r => eqb (Carrera.nombrecarrera r) nombre) (carrera s).

Definition _get_id_estudiante_por_rut (s : Store) (rut : str) : option Z :=
first_key Estudiante.id_estudiante
  (fun r => same_str (Estudiante.rut_alumno r) (Some rut)) (estudiante s).

Definition _get_id_empresa_por_nombre (s : Store) (nombre : str) : option Z :=
first_key Empresa.id_empresa (fun r => eqb (Empresa.nombre r) nombre)
  (empresa s).

Definition _get_id_tiempo_por_fecha (s : Store) (fecha : option date)
  : option Z :=
match fecha with
| None => None
| Some _ =>
  first_key Tiempo.id_tiempo
    (fun r => same_date (Tiempo.fechacompleta r) fecha) (tiempo s)
end.

(** [ORDER BY id_practica]: insertion sort of the keys. *)
Fixpoint insert_sorted (k : Z) (l : list Z) : list Z :=
match l with
| [] => [k]
| x :: r => if (k <=? x)%Z then k :: l else x :: insert_sorted k r
end.

Definition order_by (l : list Z) : list Z := fold_right insert_sorted [] l.

(** [SELECT id_practica ... ORDER BY id_practica LIMIT 1 OFFSET index];
    [index] is a label of the index 0, 1, 2, ... of the frame. *)
Definition _get_id_practica_por_indice (s : Store) (index : nat) : option Z :=
nth_error (order_by (map Practica.id_practica (rows (practica s)))) index.

(** The text for a record without comment of its own. *)
Definition comentario_generico (index : nat) : str :=
lit "Evaluación profesional " ++ of_int (Z.of_nat index + 1)
  ++ lit " - Práctica estudiantil".

(** [_obtener_comentario_por_indice]; with a label of the index 0, 1, 2,
    ... no step of it raises. *)
Definition _obtener_comentario_por_indice (st : DataLoader) (index : nat)
  : str :=
match df_comentarios st with
| Some comentarios =>
  if Nat.ltb index (length comentarios) then
    let comentario := nth index comentarios [] in
    if negb (Nat.eqb (length comentario) 0)
       && negb (eqb comentario sin_comentarios)
    then lit "Evaluación " ++ of_int (Z.of_nat index + 1) ++ lit ": "
           ++ take 200 comentario
    else comentario_generico index
  else comentario_generico index
| None => comentario_generico index
end.

(** Truth value of a key in [if id_estudiante and id_practica and ...]. *)
Definition truthy (k : option Z) : bool :=
match k with
| Some z => negb (Z.eqb z 0)
| None => false
end.

(** Rows with their labels, from the label [k] on. *)
Definition enumerate_desde (A : Type) (k : nat) (l : list A) : list (nat * A) :=
combine (seq k (length l)) l.

(** The rows of [df.iterrows()] with their index. *)
Definition enumerate (A : Type) (l : list A) : list (nat * A) :=
enumerate_desde 0 l.

(** [str(row[col]).strip() if pd.notna(row.get(col)) else None] *)
Definition texto (U : UCD) (f : fila) (col : str) : option str :=
if notna (get f col) then Some (strip U (cell_str (get f col))) else None.

(** ** The dimension loaders *)

Definition col (s : String.string) : str := lit s.
Arguments col s%_string.

(** The set [rubros] of [_load_rubro], as the loop visits it. *)
Definition rubros_de (E : Env) (df : Frame) : list cell :=
if mem (col "act_econo_empresa") (columns df) then
  let unique_rubros := unique [] (columna_dropna df (col "act_econo_empresa")) in
  set_iter E
    (filter (fun r => negb (Nat.eqb (length (strip (ucd E) (cell_str r))) 0))
       unique_rubros)
else [].

Definition insert_rubro (E : Env) (rubro : cell) : Stmt :=
INSERT_rubro (strip (ucd E) (cell_str rubro)).

Definition _load_rubro (E : Env) (files : Files) (st : DataLoader)
  : DataLoader :=
match ALUMN_PRACT files with
| NoExiste => logged (ERROR_archivo Rubros) st
| Ilegible => logged (ERROR_cargando Rubros) st
| Leido df =>
  fold_left (fun st rubro => state (execute_query E (insert_rubro E rubro) st))
    (rubros_de E df) st
end.

Definition empresa_paso (E : Env) (acc : DataLoader * list str) (row : fila)
  : DataLoader * list str :=
let '(st, empresas_unicas) := acc in
if notna (get row (col "nomb_empr_prac")) then
  let nombre_empresa := strip (ucd E) (cell_str (get row (col "nomb_empr_prac"))) in
  if mem nombre_empresa empresas_unicas then acc
  else
    let empresas_unicas := nombre_empresa :: empresas_unicas in
    let id_rubro :=
      if notna (get row (col "act_econo_empresa")) then
        _get_id_rubro_por_nombre (db st)
          (strip (ucd E) (cell_str (get row (col "act_econo_empresa"))))
      else None in
    (state (execute_query E
              (INSERT_empresa nombre_empresa
                 (texto (ucd E) row (col "dir_empr_prac"))
                 (texto (ucd E) row (col "ciudad_emp_prac"))
                 (texto (ucd E) row (col "nat_empresa"))
                 id_rubro) st),
     empresas_unicas)
else acc.

Definition _load_empresa (E : Env) (files : Files) (st : DataLoader)
  : DataLoader :=
match ALUMN_PRACT files with
| NoExiste => logged (ERROR_archivo Empresas) st
| Ilegible => logged (ERROR_cargando Empresas) st
| Leido df => fst (fold_left (empresa_paso E) (iterrows df) (st, []))
end.

Definition carreras_oficiales : list (str * str) :=
[ (IICG, lit "Escuela de Ciencias Empresariales");
  (IC, lit "Escuela de Ciencias Empresariales") ].

Definition insert_carrera (c : str * str) : Stmt :=
INSERT_carrera (fst c) (snd c).

Definition _load_carrera (E : Env) (st : DataLoader) : DataLoader :=
fold_left (fun st c => state (execute_query E (insert_carrera c) st))
  carreras_oficiales st.

Definition insert_estudiante (E : Env) (row : fila) : Stmt :=
INSERT_estudiante
  (texto (ucd E) row (col "nomb_alum"))
  (texto (ucd E) row (col "apell_alum"))
  (texto (ucd E) row (col "email_alum"))
  (texto (ucd E) row (col "cel_alum"))
  (strip (ucd E) (cell_str (get row (col "rut_alum"))))
  (texto (ucd E) row (col "mat_alum"))
  (_safe_int E (get row (col "ano_ingreso_alum")))
  (texto (ucd E) row (col "niv_estudio_alum")).

Definition estudiante_paso (E : Env) (st : DataLoader) (row : fila)
  : DataLoader :=
if notna (get row (col "rut_alum")) then
  state (execute_query E (insert_estudiante E row) st)
else st.

Definition _load_estudiante (E : Env) (files : Files) (st : DataLoader)
  : DataLoader :=
match ALUMN_PRACT files with
| NoExiste => logged (ERROR_archivo Estudiantes) st
| Ilegible => logged (ERROR_cargando Estudiantes) st
| Leido df => fold_left (estudiante_paso E) (iterrows df) st
end.

(** The dates that the loop over [df[c].dropna()] adds to [fechas_unicas]. *)
Definition fechas_de (E : Env) (df : Frame) (c : str) : list date :=
if mem c (columns df) then
  flat_map (fun fecha_str => match _parse_fecha E fecha_str with
                             | Some fecha => [fecha]
                             | None => []
                             end)
    (columna_dropna df c)
else [].

(** The statement that [_load_tiempo] sends for one date. *)
Definition insert_tiempo (fecha : date) : Stmt :=
let anno := year fecha in
let mes := month fecha in
let trimestre := ((mes - 1) / 3 + 1)%Z in
let semestre := if (mes <=? 6)%Z then 1%Z else 2%Z in
INSERT_tiempo anno mes trimestre semestre fecha.

(** What [fechas_unicas.add] keeps of the dates added one after the other:
    each date once. *)
Fixpoint add_fechas (seen l : list date) : list date :=
match l with
| [] => []
| fecha :: r =>
  if existsb (date_eqb fecha) seen then add_fechas seen r
  else fecha :: add_fechas (fecha :: seen) r
end.

(** The set [fechas_unicas] of [_load_tiempo], as the loop visits it. *)
Definition fechas_unicas (E : Env) (df : Frame) : list date :=
set_iter E (add_fechas [] (fechas_de E df (col "fech_ini_prac")
                             ++ fechas_de E df (col "fech_fin_prac"))).

Definition _load_tiempo (E : Env) (files : Files) (st : DataLoader)
  : DataLoader :=
match ALUMN_PRACT files with
| NoExiste => logged (ERROR_archivo Tiempos) st
| Ilegible => logged (ERROR_cargando Tiempos) st
| Leido df =>
  fold_left (fun st fecha => state (execute_query E (insert_tiempo fecha) st))
    (fechas_unicas E df) st
end.

Definition practica_paso (E : Env) (st : DataLoader) (row : fila)
  : DataLoader :=
let id_carrera :=
  if notna (get row (col "carr_alum")) then
    let carrera_mapeada := _mapear_carrera (ucd E) (get row (col "carr_alum")) in
    _get_id_carrera_por_nombre (db st) carrera_mapeada
  else None in
let estatus := texto (ucd E) row (col "proces_terminado") in
let fecha_inicio := _parse_fecha E (get row (col "fech_ini_prac")) in
let fecha_fin := _parse_fecha E (get row (col "fech_fin_prac")) in
let horas_practica :=
  match fecha_inicio, fecha_fin with
  | Some i, Some f =>
    let dias := (toordinal f - toordinal i)%Z in
    if (0 <? dias)%Z then Some (dias * 8)%Z else None
  | _, _ => None
  end in
state (execute_query E
         (INSERT_practica
            (texto (ucd E) row (col "como_practi_profesional"))
            id_carrera horas_practica estatus
            (texto (ucd E) row (col "proces_terminado"))
            fecha_inicio fecha_fin) st).

Definition _load_practica (E : Env) (files : Files) (st : DataLoader)
  : DataLoader :=
match ALUMN_PRACT files with
| NoExiste => logged (ERROR_archivo Practicas) st
| Ilegible => logged (ERROR_cargando Practicas) st
| Leido df => fold_left (practica_paso E) (iterrows df) st
end.

Definition load_dimension_tables (E : Env) (files : Files) (st : DataLoader)
  : DataLoader :=
let st := match df_comentarios st with
          | None => extraer_comentarios_reales E files st
          | Some _ => st
          end in
let st := _load_rubro E files st in
let st := _load_empresa E files st in
let st := _load_carrera E st in
let st := _load_estudiante E files st in
let st := _load_tiempo E files st in
_load_practica E files st.

(** ** The fact loader *)

(** The body of the loop of [_load_hechos] for the row at [index]. *)
Definition hechos_paso (E : Env) (st : DataLoader) (ir : nat * fila)
  : DataLoader :=
let '(index, row) := ir in
if notna (get row (col "rut_alum")) then
  let id_estudiante :=
    _get_id_estudiante_por_rut (db st)
      (strip (ucd E) (cell_str (get row (col "rut_alum")))) in
  let id_practica := _get_id_practica_por_indice (db st) index in
  let id_empresa :=
    if notna (get row (col "nomb_empr_prac")) then
      _get_id_empresa_por_nombre (db st)
        (strip (ucd E) (cell_str (get row (col "nomb_empr_prac"))))
    else None in
  let id_tiempo :=
    _get_id_tiempo_por_fecha (db st)
      (_parse_fecha E (get row (col "fech_ini_prac"))) in
  let comentario := _obtener_comentario_por_indice st index in
  let r := execute_query E (INSERT_evaluacion_empresa comentario) st in
  let st := state r in
  let id_evaluacionempresa :=
    if success r then fetchone r else Some (Z.of_nat index + 1)%Z in
  if truthy id_estudiante && truthy id_practica && truthy id_evaluacionempresa
  then
    state (execute_query E
             (INSERT_hechos id_estudiante id_practica id_empresa id_tiempo
                id_evaluacionempresa (Some 1%Z)) st)
  else logged (WARNING_hecho index) st
else st.

Definition _load_hechos (E : Env) (files : Files) (st : DataLoader)
  : DataLoader :=
match ALUMN_PRACT files with
| NoExiste => logged (ERROR_archivo TablaHechos) st
| Ilegible => logged (ERROR_cargando TablaHechos) st
| Leido df => fold_left (hechos_paso E) (enumerate (iterrows df)) st
end.

Definition load_fact_table (E : Env) (files : Files) (st : DataLoader)
  : DataLoader :=
_load_hechos E files st.

(** [main] after [connect]: wipe, create, extract the comments, load the
    dimensions, load the facts. *)
Definition main (E : Env) (files : Files) : DataLoader :=
let loader := DataLoader_init tablas_creadas in
let loader := extraer_comentarios_reales E files loader in
let loader := load_dimension_tables E files loader in
load_fact_table E files loader.

End Load.

(* ===================================================================== *)
(** * Concrete inputs *)
(* ===================================================================== *)

Module Casos.
Import Load.

Definition digit (c : N) : option Z :=
if between 48 57 c then Some (Z.of_N c - 48)%Z else None.

(** A [to_date] that reads the text [YYYY-MM-DD] and nothing else. *)
Definition iso_date (v : cell) : option date :=
match v with
| VStr [y1; y2; y3; y4; 45%N; m1; m2; 45%N; d1; d2] =>
  y1 <- digit y1 ;; y2 <- digit y2 ;; y3 <- digit y3 ;; y4 <- digit y4 ;;
  m1 <- digit m1 ;; m2 <- digit m2 ;; d1 <- digit d1 ;; d2 <- digit d2 ;;
  Some {| year := y1 * 1000 + y2 * 100 + y3 * 10 + y4;
          month := m1 * 10 + m2; day := d1 * 10 + d2 |}
| _ => None
end.

(** An environment: the Latin-1 table, [iso_date], sets visited in the
    order of insertion, and a server that accepts every statement. *)
Definition E0 : Env := {|
  ucd := latin1;
  to_date := iso_date;
  int_float := fun _ => None;
  set_iter := fun _ l => l;
  verdict := fun _ => Accept
|}.

(** Rows of the evaluation snapshot. *)
Definition fila_relleno : fila :=
[ (lit "r_2_1", VStr (lit "  Buen trabajo, gracias.  ")) ].

Definition fila_categorica : fila :=
[ (lit "r_2_1", VStr (lit "Si"));
  (lit "r_2_2", VStr (lit "B"));
  (lit "r_2_3", VStr (lit "1234567890123")) ].

Definition excelente : str := lit "El desempeño fue excelente, muy puntual.".

Definition fila_excelente : fila :=
[ (lit "rut_alum", VStr (lit "11111111-1"));
  (lit "r_2_1", VStr (lit "A"));
  (lit "r_2_5", VStr excelente);
  (lit "r_2_8", VNaN) ].

(** A provider of a table of [T] records, numbered from 0: the page at an
    offset holds the records from there on, [limit] at most. *)
Definition registros (T : Z) (p : ET.Params) : list nat :=
seq (Z.to_nat (ET.offset p))
  (Z.to_nat (Z.min (ET.limit p) (T - ET.offset p))).

Definition proveedor (T : Z) (url0 : str) (p : ET.Params)
  : ET.Exn + ET.Response nat :=
inr {| ET.status_code := 200;
       ET.url := ET.prepared_url url0 p;
       ET.text := lit "{...}";
       ET.json := Some (ET.Dict (Some (registros T p)) (ET.TotalInt T)
                          (lit "{...}")) |}.



(** A provider that answers every request with status 500. *)
Definition proveedor_caido (url0 : str) (p : ET.Params)
  : ET.Exn + ET.Response nat :=
inr {| ET.status_code := 500;
       ET.url := ET.prepared_url url0 p;
       ET.text := lit "Internal Server Error";
       ET.json := None |}.

Definition primera_pagina : ET.Params :=
{| ET.tabla := lit "alumn_pract"; ET.token := ET.TOKEN;
   ET.limit := ET.LIMIT; ET.offset := 0 |}.

(** Its response to the request of the first page. *)
Definition respuesta_500 : ET.Response nat :=
{| ET.status_code := 500;
   ET.url := ET.prepared_url ET.API_URL primera_pagina;
   ET.text := lit "Internal Server Error";
   ET.json := None |}.

(** A date parser for the cleaner: [YYYY-MM-DD] at midnight, in
    nanoseconds since 1970-01-01. *)
Definition iso_timestamp (_ : list ET.obj) (o : ET.obj) : option ET.Timestamp :=
match o with
| ET.OStr s =>
  option_map (fun d => ((toordinal d - 719163) * 86400000000000)%Z)
    (iso_date (VStr s))
| _ => None
end.

Definition sin_numeros (_ : list unit) (_ : unit) : option ET.Timestamp := None.

(** A batch of four records with a date column and a text column. *)
Definition lote : ET.DataFrame unit :=
[ {| ET.name := lit "FECH_INI_PRAC";
     ET.values := ET.ObjectCol [ ET.OStr (lit " 2024-04-15 ");
                                 ET.OStr (lit "0000-00-00");
                                 ET.OStr (lit "sin fecha");
                                 ET.ONone ] |};
  {| ET.name := lit "nomb_alum";
     ET.values := ET.ObjectCol [ ET.OStr (lit " Ana ");
                                 ET.ONaN;
                                 ET.ONone;
                                 ET.OOther (lit "12") ] |} ].

Definition lote_limpio : ET.DataFrame unit :=
[ {| ET.name := lit "FECH_INI_PRAC";
     ET.values := ET.DatetimeCol [ Some 1713139200000000000%Z;
                                   None; None; None ] |};
  {| ET.name := lit "nomb_alum";
     ET.values := ET.ObjectCol [ ET.OStr (lit "Ana");
                                 ET.OStr (lit "nan");
                                 ET.OStr (lit "None");
                                 ET.OStr (lit "12") ] |} ].

(** A snapshot of three practice records: a complete one, one without
    [rut_alum], and one whose student has no name (its row of
    [estudiante] is refused by [NOT NULL]). *)
Definition practicas : Frame := {|
  columns := map lit ["rut_alum"; "nomb_alum"; "apell_alum"; "carr_alum";
                      "nomb_empr_prac"; "act_econo_empresa";
                      "fech_ini_prac"; "fech_fin_prac";
                      "proces_terminado"; "como_practi_profesional"]%string;
  data :=
    [ [ VStr (lit "11111111-1"); VStr (lit "Ana"); VStr (lit "Soto");
        VStr (lit "ING. COMERCIAL"); VStr (lit "Empresa Uno");
        VStr (lit "Retail"); VStr (lit "2024-04-15");
        VStr (lit "2024-07-15"); VStr (lit "Si"); VStr (lit "Presencial") ];
      [ VNaN; VStr (lit "Luis"); VStr (lit "Rojas");
        VStr (lit "IICG"); VStr (lit "Empresa Dos");
        VStr (lit "Banca"); VStr (lit "2024-07-01");
        VNaN; VStr (lit "No"); VStr (lit "Remota") ];
      [ VStr (lit "22222222-2"); VNaN; VStr (lit "Vera");
        VStr (lit "xyz-unrecognized"); VStr (lit "Empresa Uno");
        VStr (lit "Retail"); VStr (lit "0000-00-00");
        VNaN; VNaN; VNaN ] ]
|}.

(** The evaluations of the same three records. *)
Definition evaluaciones : Frame := {|
  columns := map lit ["rut_alum"; "r_2_1"; "r_2_5"]%string;
  data :=
    [ [ VStr (lit "11111111-1"); VStr (lit "A"); VStr excelente ];
      [ VNaN; VStr (lit "B"); VStr (lit "Si") ];
      [ VStr (lit "22222222-2"); VStr (lit "C"); VNaN ] ]
|}.

Definition archivos : Files := {|
  ALUMN_PRACT := Leido practicas;
  alumn_pract_eva_jef := Leido evaluaciones
|}.

(** A snapshot of one record without [rut_alum]. *)
Definition archivos_sin_rut : Files := {|
  ALUMN_PRACT :=
    Leido {| columns := map lit ["rut_alum"; "nomb_alum"]%string;
             data := [ [ VNaN; VStr (lit "Luis") ] ] |};
  alumn_pract_eva_jef := NoExiste
|}.


(** A server that rejects the statement number [n] and accepts the
    others. *)
Definition E_rechaza (n : nat) : Env := {|
  ucd := latin1;
  to_date := iso_date;
  int_float := fun _ => None;
  set_iter := fun _ l => l;
  verdict := fun k => if Nat.eqb k n then Reject false else Accept
|}.

(** The state that a complete run over [archivos] leaves: the start of a
    second load of the facts without wipe. *)
Definition cargado : DataLoader := main E0 archivos.

(** A snapshot of three practice records with [rut_alum]: two complete
    ones, and one whose student has no name. *)
Definition practicas_pares : Frame := {|
  columns := map lit ["rut_alum"; "nomb_alum"; "apell_alum"; "carr_alum";
                      "nomb_empr_prac"; "act_econo_empresa";
                      "fech_ini_prac"; "fech_fin_prac";
                      "proces_terminado"; "como_practi_profesional"]%string;
  data :=
    [ [ VStr (lit "11111111-1"); VStr (lit "Ana"); VStr (lit "Soto");
        VStr (lit "ING. COMERCIAL"); VStr (lit "Empresa Uno");
        VStr (lit "Retail"); VStr (lit "2024-04-15");
        VStr (lit "2024-07-15"); VStr (lit "Si"); VStr (lit "Presencial") ];
      [ VStr (lit "33333333-3"); VStr (lit "Luis"); VStr (lit "Rojas");
        VStr (lit "IICG"); VStr (lit "Empresa Dos");
        VStr (lit "Banca"); VStr (lit "2024-07-01");
        VNaN; VStr (lit "No"); VStr (lit "Remota") ];
      [ VStr (lit "22222222-2"); VNaN; VStr (lit "Vera");
        VStr (lit "xyz-unrecognized"); VStr (lit "Empresa Uno");
        VStr (lit "Retail"); VStr (lit "0000-00-00");
        VNaN; VNaN; VNaN ] ]
|}.

Definition archivos_pares : Files := {|
  ALUMN_PRACT := Leido practicas_pares;
  alumn_pract_eva_jef := Leido evaluaciones
|}.

(** The state of [main] over [archivos_pares] before the load of the
    facts. *)
Definition dimensiones_pares : DataLoader :=
load_dimension_tables E0 archivos_pares
  (extraer_comentarios_reales E0 archivos_pares
     (DataLoader_init tablas_creadas)).

End Casos.

(* ===================================================================== *)
(** * Vocabulary of the properties *)
(* ===================================================================== *)

Module Voc.
Import Load.

(** The attributes of a row of [tiempo] are those of its date. *)
Definition derivada (r : Tiempo.row) : Prop :=
  (exists fecha, Tiempo.fechacompleta r = Some fecha
                 /\ Tiempo.anno r = year fecha
                 /\ Tiempo.mes r = month fecha)
  /\ Tiempo.trimestre r = ((Tiempo.mes r - 1) / 3 + 1)%Z
  /\ Tiempo.semestre r = (if (Tiempo.mes r <=? 6)%Z then 1 else 2)%Z.

(** The textual values that a row holds under the candidate columns, in
    the order of [columnas_comentarios]. *)
Definition valores_textuales (f : fila) : list str :=
flat_map (fun c => match lookup f c with
                   | Some (VStr v) => [v]
                   | _ => []
                   end)
  columnas_comentarios.

(** The test of a candidate value as the specification words it: on the
    value itself, its length taken after trimming. *)
Definition acepta_spec (U : UCD) (valor : str) : bool :=
negb (mem valor excluir)
&& Nat.ltb 10 (length (strip U valor))
&& negb (isupper U valor)
&& negb (isalpha U (remove_char 32 valor))
&& (has_char 44 valor || has_char 46 valor || has_char 32 valor).

(** The synthesized comment as the specification words it: the accepted
    values, joined. *)
Definition comentario_spec (U : UCD) (f : fila) : str :=
match filter (acepta_spec U) (valores_textuales f) with
| [] => sin_comentarios
| l => join (lit " | ") l
end.

(** The synthesized comment over the trimmed values: every test is made on
    the trimmed value, and the trimmed values are joined. *)
Definition comentario_recortado (U : UCD) (f : fila) : str :=
match filter (comentario_real U) (map (strip U) (valores_textuales f)) with
| [] => sin_comentarios
| l => join (lit " | ") l
end.

(** The provider answers the request at offset [k] with a parsed body that
    reports the total [T] and carries [min(limit, T - k)] records. *)
Definition pagina_completa (Rec : Type)
  (requests_get : str -> ET.Params -> ET.Exn + ET.Response Rec)
  (api_url token0 tabla0 : str) (limit0 T k : Z) : Prop :=
exists r filas dumps,
  requests_get api_url {| ET.tabla := tabla0; ET.token := token0;
                          ET.limit := limit0; ET.offset := k |} = inr r
  /\ ET.raise_for_status r = false
  /\ ET.json r = Some (ET.Dict (Some filas) (ET.TotalInt T) dumps)
  /\ Z.of_nat (length filas) = Z.min limit0 (T - k).


(** The value that the cleaner leaves for the value [o] of an [object]
    column with a date prefix: missing for the zero dates, what the parser
    reads in the trimmed text otherwise. *)
Definition fecha_limpia (U : UCD)
  (to_datetime_obj : list ET.obj -> ET.obj -> option ET.Timestamp)
  (columna : list ET.obj) (o : ET.obj) : option ET.Timestamp :=
let s := strip U (ET.py_str o) in
if PyStr.eqb s (lit "0000-00-00") || PyStr.eqb s (lit "0000-00-00 00:00:00")
then None
else to_datetime_obj columna (ET.OStr s).

(** ** Natural keys of the dimensions *)

Definition ruts (t : list Estudiante.row) : list str :=
flat_map (fun r => match Estudiante.rut_alumno r with
                   | Some x => [x]
                   | None => []
                   end) t.

Definition fechas (t : list Tiempo.row) : list date :=
flat_map (fun r => match Tiempo.fechacompleta r with
                   | Some x => [x]
                   | None => []
                   end) t.

(** No two rows of Rubro, Carrera, Estudiante or Tiempo have the same
    natural key ([nombrerubro], [nombrecarrera], [rut_alumno],
    [fechacompleta]); a null key is no key. *)
Definition claves_unicas (s : Store) : Prop :=
NoDup (map Rubro.nombrerubro (rows (rubro s)))
/\ NoDup (map Carrera.nombrecarrera (rows (carrera s)))
/\ NoDup (ruts (rows (estudiante s)))
/\ NoDup (fechas (rows (tiempo s))).

(** The sequences of the four tables are ahead of their keys, as they are
    when every key was drawn from them. *)
Definition seriales_frescos (s : Store) : Prop :=
Forall (fun r => (Rubro.id_rubro r < serial (rubro s))%Z) (rows (rubro s))
/\ Forall (fun r => (Carrera.id_carrera r < serial (carrera s))%Z)
      (rows (carrera s))
/\ Forall (fun r => (Estudiante.id_estudiante r < serial (estudiante s))%Z)
      (rows (estudiante s))
/\ Forall (fun r => (Tiempo.id_tiempo r < serial (tiempo s))%Z)
      (rows (tiempo s)).

Definition prefijo (A : Type) (l l' : list A) : Prop :=
exists r, l' = l ++ r.

(** The rows of the four dimensions of [s] are in [s'], unchanged and in
    place. *)
Definition conserva (s s' : Store) : Prop :=
prefijo (rows (rubro s)) (rows (rubro s'))
/\ prefijo (rows (carrera s)) (rows (carrera s'))
/\ prefijo (rows (estudiante s)) (rows (estudiante s'))
/\ prefijo (rows (tiempo s)) (rows (tiempo s')).

Definition dimensiones (s : Store) :=
(rows (rubro s), rows (carrera s), rows (estudiante s), rows (tiempo s)).

(** The statement inserts into one of the four dimensions. *)
Definition dimensional (q : Stmt) : bool :=
match q with
| INSERT_rubro _ | INSERT_carrera _ _
| INSERT_estudiante _ _ _ _ _ _ _ _ | INSERT_tiempo _ _ _ _ _ => true
| _ => false
end.

(** The row that a statement on a dimension would insert, when its values
    are accepted, conflicts with a row of the table. *)
Definition presente (s : Store) (q : Stmt) : Prop :=
match q with
| INSERT_rubro n =>
  forall mk id, fila_rubro n = Some mk ->
    existsb (conflicto_rubro (mk id)) (rows (rubro s)) = true
| INSERT_carrera n e =>
  forall mk id, fila_carrera n e = Some mk ->
    existsb (conflicto_carrera (mk id)) (rows (carrera s)) = true
| INSERT_estudiante n a c t rut m ai ne =>
  forall mk id, fila_estudiante n a c t rut m ai ne = Some mk ->
    existsb (conflicto_estudiante (mk id)) (rows (estudiante s)) = true
| INSERT_tiempo a m t x f =>
  forall mk id, fila_tiempo a m t x f = Some mk ->
    existsb (conflicto_tiempo (mk id)) (rows (tiempo s)) = true
| _ => True
end.

(** The statements that the loaders of the four dimensions send for a
    snapshot. *)
Definition sentencias (E : Env) (files : Files) : list Stmt :=
match ALUMN_PRACT files with
| Leido df =>
  map (insert_rubro E) (rubros_de E df)
  ++ map insert_carrera carreras_oficiales
  ++ map (insert_estudiante E)
       (filter (fun row => notna (get row (col "rut_alum"))) (iterrows df))
  ++ map insert_tiempo (fechas_unicas E df)
| _ => map insert_carrera carreras_oficiales
end.

(** [Traza E st tr st']: the loader goes from [st] to [st'] sending the
    statements [tr] through [execute_query], in that order; between them it
    may log and set [df_comentarios]. *)
Inductive Traza (E : Env) : DataLoader -> list Stmt -> DataLoader -> Prop :=
| traza_fin (st : DataLoader) : Traza E st [] st
| traza_query (q : Stmt) (st : DataLoader) (tr : list Stmt)
    (st' : DataLoader) :
    Traza E (state (execute_query E q st)) tr st' ->
    Traza E st (q :: tr) st'
| traza_silencio (st1 st2 : DataLoader) (tr : list Stmt) (st' : DataLoader) :
    db st2 = db st1 -> clock st2 = clock st1 ->
    Traza E st2 tr st' ->
    Traza E st1 tr st'.

(** The values of the statement pass the column types and [NOT NULL]. *)
Definition valores_aceptados (q : Stmt) : bool :=
let some (A : Type) (o : option A) :=
  match o with Some _ => true | None => false end in
match q with
| INSERT_rubro n => some _ (fila_rubro n)
| INSERT_empresa n d c t r => some _ (fila_empresa n d c t r)
| INSERT_carrera n e => some _ (fila_carrera n e)
| INSERT_estudiante n a c t rut m ai ne =>
  some _ (fila_estudiante n a c t rut m ai ne)
| INSERT_tiempo a m t x f => some _ (fila_tiempo a m t x f)
| INSERT_evaluacion_empresa c => some _ (fila_evaluacion c)
| INSERT_practica m c h e ep fi ff => some _ (fila_practica m c h e ep fi ff)
| INSERT_hechos es pr em ti ev ro => some _ (fila_hechos es pr em ti ev ro)
end.

(** ** The fact loader *)

(** The warnings of the log, latest first. *)
Definition advertencias (st : DataLoader) : list Evento :=
filter is_warning (log st).

(** [pd.notna(row.get('rut_alum'))] *)
Definition rut_presente (row : fila) : bool :=
notna (get row (col "rut_alum")).

(** The keys that [_load_hechos] resolves for the row at [index] from the
    state [st]: Person, Practice, and the Evaluation that the insert of the
    comment returns (or [index + 1] when that insert fails). *)
Definition clave_estudiante (E : Env) (st : DataLoader) (row : fila)
  : option Z :=
_get_id_estudiante_por_rut (db st)
  (strip (ucd E) (cell_str (get row (col "rut_alum")))).

Definition clave_practica (st : DataLoader) (index : nat) : option Z :=
_get_id_practica_por_indice (db st) index.

Definition insert_evaluacion (st : DataLoader) (index : nat) : Stmt :=
INSERT_evaluacion_empresa (_obtener_comentario_por_indice st index).

Definition clave_evaluacion (E : Env) (st : DataLoader) (index : nat)
  : option Z :=
let r := execute_query E (insert_evaluacion st index) st in
if success r then fetchone r else Some (Z.of_nat index + 1)%Z.

Definition claves_resueltas (E : Env) (st : DataLoader) (index : nat)
  (row : fila) : bool :=
truthy (clave_estudiante E st row) && truthy (clave_practica st index)
&& truthy (clave_evaluacion E st index).

(** The Person, Practice and Evaluation keys of a fact row are not null. *)
Definition con_claves (h : Hechos.row) : Prop :=
exists a b c,
  Hechos.id_estudiante h = Some a /\ Hechos.id_practica h = Some b
  /\ Hechos.id_evaluacionempresa h = Some c.

(** The fact row [h] has an evaluation of its own in [s]: a row of
    [evaluacion_empresa] whose key it references, holding the comment that
    [_obtener_comentario_por_indice] gives, in the state [st0] at the start
    of the load, for the index of a record below [n] that has [rut_alum]. *)
Definition evaluacion_propia (st0 : DataLoader) (filas : list fila) (n : nat)
  (s : Store) (h : Hechos.row) : Prop :=
exists index row v,
  index < n /\ nth_error filas index = Some row /\ rut_presente row = true
  /\ In v (rows (evaluacion_empresa s))
  /\ Hechos.id_evaluacionempresa h = Some (Evaluacion.id_evaluacionempresa v)
  /\ Evaluacion.comentario v = Some (_obtener_comentario_por_indice st0 index).

(** What holds of the state [st] after the first [n] records of a load that
    started in [st0]. *)
Definition inv_hechos (st0 : DataLoader) (filas : list fila) (n : nat)
  (st : DataLoader) : Prop :=
df_comentarios st = df_comentarios st0
/\ (serial (evaluacion_empresa (db st)) <= Z.of_nat n + 1)%Z
/\ Forall (fun v => (Evaluacion.id_evaluacionempresa v
                     < serial (evaluacion_empresa (db st)))%Z)
      (rows (evaluacion_empresa (db st)))
/\ NoDup (map Evaluacion.id_evaluacionempresa
            (rows (evaluacion_empresa (db st))))
/\ NoDup (map Hechos.id_evaluacionempresa (rows (hechos (db st))))
/\ Forall (evaluacion_propia st0 filas n (db st)) (rows (hechos (db st))).

(** The records that have [rut_alum], with their indices. *)
Definition con_rut (l : list (nat * fila)) : list (nat * fila) :=
filter (fun ir => rut_presente (snd ir)) l.

(** The comment column of the evaluation row of a record: the text that
    [_obtener_comentario_por_indice] gives for its index in [st0]. *)
Definition texto_de (st0 : DataLoader) (ir : nat * fila) : option str :=
Some (_obtener_comentario_por_indice st0 (fst ir)).

(** The sequence of [evaluacion_empresa] is ahead of the keys of its
    rows. *)
Definition fresca (st : DataLoader) : Prop :=
Forall (fun v => (Evaluacion.id_evaluacionempresa v
                  < serial (evaluacion_empresa (db st)))%Z)
  (rows (evaluacion_empresa (db st))).

(** ** The tables and their rows *)

Inductive Tabla :=
| T_rubro | T_empresa | T_carrera | T_estudiante | T_tiempo
| T_evaluacion_empresa | T_practica | T_hechos.

(** The table of the [INSERT INTO]. *)
Definition tabla_de (q : Stmt) : Tabla :=
match q with
| INSERT_rubro _ => T_rubro
| INSERT_empresa _ _ _ _ _ => T_empresa
| INSERT_carrera _ _ => T_carrera
| INSERT_estudiante _ _ _ _ _ _ _ _ => T_estudiante
| INSERT_tiempo _ _ _ _ _ => T_tiempo
| INSERT_evaluacion_empresa _ => T_evaluacion_empresa
| INSERT_practica _ _ _ _ _ _ _ => T_practica
| INSERT_hechos _ _ _ _ _ _ => T_hechos
end.

(** The table [t] has in [s'] the rows it has in [s]. *)
Definition intacta (t : Tabla) (s s' : Store) : Prop :=
match t with
| T_rubro => rows (rubro s') = rows (rubro s)
| T_empresa => rows (empresa s') = rows (empresa s)
| T_carrera => rows (carrera s') = rows (carrera s)
| T_estudiante => rows (estudiante s') = rows (estudiante s)
| T_tiempo => rows (tiempo s') = rows (tiempo s)
| T_evaluacion_empresa =>
  rows (evaluacion_empresa s') = rows (evaluacion_empresa s)
| T_practica => rows (practica s') = rows (practica s)
| T_hechos => rows (hechos s') = rows (hechos s)
end.

(** The rows of every table of [s] are in [s'], unchanged and in place. *)
Definition crece (s s' : Store) : Prop :=
prefijo (rows (rubro s)) (rows (rubro s'))
/\ prefijo (rows (empresa s)) (rows (empresa s'))
/\ prefijo (rows (carrera s)) (rows (carrera s'))
/\ prefijo (rows (estudiante s)) (rows (estudiante s'))
/\ prefijo (rows (tiempo s)) (rows (tiempo s'))
/\ prefijo (rows (evaluacion_empresa s)) (rows (evaluacion_empresa s'))
/\ prefijo (rows (practica s)) (rows (practica s'))
/\ prefijo (rows (hechos s)) (rows (hechos s')).










End Voc.

(* ===================================================================== *)
(** * Properties *)
(* ===================================================================== *)

Import ET Load Voc Casos.
Unset Implicit Arguments.

(** ** Strings *)

Lemma eqb_eq (a b : str) : PyStr.eqb a b = true <-> a = b.
Proof.
  unfold PyStr.eqb. destruct (list_eq_dec N.eq_dec a b); split; congruence.
Qed.

Lemma eqb_refl (a : str) : PyStr.eqb a a = true.
Proof. now apply eqb_eq. Qed.

Lemma eqb_neq (a b : str) : PyStr.eqb a b = false <-> a <> b.
Proof.
  unfold PyStr.eqb. destruct (list_eq_dec N.eq_dec a b); split; congruence.
Qed.

Lemma mem_In (x : str) (l : list str) : mem x l = true <-> In x l.
Proof.
  unfold mem. rewrite existsb_exists. split.
  - intros [y [Hy He]]. apply eqb_eq in He. now subst.
  - intros H. exists x. split; [assumption | apply eqb_refl].
Qed.

Lemma has_char_In (c : N) (s : str) : has_char c s = true <-> In c s.
Proof.
  unfold has_char. rewrite existsb_exists. split.
  - intros [y [Hy He]]. apply N.eqb_eq in He. now subst.
  - intros H. exists c. split; [assumption | apply N.eqb_refl].
Qed.

Section StripFacts.
Variable U : UCD.

(** [lstrip] removes a prefix. *)
Lemma lstrip_suffix (s : str) : exists a, s = a ++ lstrip U s.
Proof.
  induction s as [|c r [a Ha]]; simpl.
  - now exists [].
  - destruct (isspace_c U c).
    + exists (c :: a). simpl. now f_equal.
    + now exists [].
Qed.

(** [strip] keeps a segment of the string. *)
Lemma strip_infix (s : str) : exists a b, s = a ++ strip U s ++ b.
Proof.
  unfold strip, rstrip.
  destruct (lstrip_suffix s) as [a Ha].
  destruct (lstrip_suffix (rev (lstrip U s))) as [b Hb].
  exists a, (rev b).
  rewrite <- rev_app_distr, <- Hb, rev_involutive. exact Ha.
Qed.

Lemma strip_length (s : str) : length (strip U s) <= length s.
Proof.
  destruct (strip_infix s) as [a [b H]].
  rewrite H at 2. rewrite !length_app. lia.
Qed.

Lemma strip_In (c : N) (s : str) : In c (strip U s) -> In c s.
Proof.
  destruct (strip_infix s) as [a [b H]]. intros Hc.
  rewrite H. apply in_or_app. right. apply in_or_app. now left.
Qed.

Lemma lstrip_id (c : N) (s : str) :
  isspace_c U c = false -> lstrip U (c :: s) = c :: s.
Proof. intros H. simpl. now rewrite H. Qed.

(** A string whose first and last characters are not white space is its
    own [strip]. *)
Lemma strip_id (c d : N) (s : str) :
  isspace_c U c = false -> isspace_c U d = false ->
  strip U (c :: s ++ [d]) = c :: s ++ [d].
Proof.
  intros Hc Hd. unfold strip, rstrip. rewrite lstrip_id by assumption.
  assert (Hr : rev (c :: s ++ [d]) = d :: rev (c :: s)).
  { change (c :: s ++ [d]) with ((c :: s) ++ [d]).
    now rewrite rev_app_distr. }
  rewrite Hr, lstrip_id by assumption.
  rewrite <- Hr. apply rev_involutive.
Qed.

End StripFacts.

Lemma startswith_app (p s : str) : startswith (p ++ s) p = true.
Proof.
  induction p as [|a p IH]; simpl; [reflexivity|].
  now rewrite N.eqb_refl, IH.
Qed.

Lemma contains_unfold (s p : str) :
  contains s p
  = startswith s p || match s with [] => false | _ :: r => contains r p end.
Proof. destruct s; reflexivity. Qed.

Lemma contains_cons (x : N) (s p : str) :
  contains s p = true -> contains (x :: s) p = true.
Proof. intros H. simpl. rewrite H. apply orb_true_r. Qed.

(** A string contains each of its segments. *)
Lemma contains_app (a p b : str) : contains (a ++ p ++ b) p = true.
Proof.
  induction a as [|x a IH].
  - simpl app. now rewrite contains_unfold, startswith_app.
  - apply contains_cons, IH.
Qed.

(** [sep.join(l)] contains every element of [l]. *)
Lemma contains_join (sep x : str) (l : list str) :
  In x l -> contains (join sep l) x = true.
Proof.
  induction l as [|y r IH]; [contradiction|].
  intros [-> | Hin].
  - destruct r as [|z r'].
    + simpl join. rewrite <- (app_nil_r x) at 1. apply (contains_app [] x []).
    + apply (contains_app [] x).
  - destruct r as [|z r']; [contradiction|].
    change (join sep (y :: z :: r')) with (y ++ sep ++ join sep (z :: r')).
    specialize (IH Hin). revert IH.
    generalize (join sep (z :: r')). intros j Hj.
    rewrite app_assoc. induction (y ++ sep) as [|c w IHw]; [assumption|].
    apply contains_cons, IHw.
Qed.

(** ** The career mapper *)

Lemma dict_get_cases (d : list (str * str)) (k default : str) :
  (dict_get d k default = default /\ ~ In k (map fst d))
  \/ In (k, dict_get d k default) d.
Proof.
  induction d as [|[k' v] r IH]; simpl.
  - left. split; [reflexivity | tauto].
  - destruct (PyStr.eqb k' k) eqn:He.
    + apply eqb_eq in He. subst. right. now left.
    + apply eqb_neq in He. destruct IH as [[H1 H2] | H].
      * left. split; [assumption | intros [H | H]; tauto].
      * right. now right.
Qed.

Lemma dict_get_absent (d : list (str * str)) (k default : str) :
  ~ In k (map fst d) -> dict_get d k default = default.
Proof.
  intros H. destruct (dict_get_cases d k default) as [[H1 _] | H1];
    [assumption|].
  exfalso. apply H. apply (in_map fst) in H1. exact H1.
Qed.

Lemma dict_get_present (d : list (str * str)) (k v default : str) :
  NoDup (map fst d) -> In (k, v) d -> dict_get d k default = v.
Proof.
  induction d as [|[k' v'] r IH]; simpl; [tauto|].
  intros Hn [H | H].
  - inversion H; subst. now rewrite eqb_refl.
  - inversion Hn as [|? ? Hk Hr]; subst.
    destruct (PyStr.eqb k' k) eqn:He.
    + apply eqb_eq in He. subst. exfalso. apply Hk.
      apply (in_map fst) in H. exact H.
    + now apply IH.
Qed.

Lemma mapeo_carreras_keys : NoDup (map fst mapeo_carreras).
Proof.
  assert (H : forall l : list str,
             (fix nd (l : list str) : bool :=
                match l with
                | [] => true
                | x :: r => negb (mem x r) && nd r
                end) l = true -> NoDup l).
  { induction l as [|x r IH]; intros H; [constructor|].
    apply andb_true_iff in H. destruct H as [H1 H2].
    constructor; [|now apply IH].
    intros Hin. apply mem_In in Hin. rewrite Hin in H1. discriminate. }
  apply H. vm_compute. reflexivity.
Qed.

Lemma mapeo_carreras_values (k v : str) :
  In (k, v) mapeo_carreras -> v = IICG \/ v = IC.
Proof.
  intros H.
  assert (Hall : forallb (fun kv => PyStr.eqb (snd kv) IICG
                                    || PyStr.eqb (snd kv) IC)
                   mapeo_carreras = true) by (vm_compute; reflexivity).
  rewrite forallb_forall in Hall. specialize (Hall _ H). simpl in Hall.
  apply orb_true_iff in Hall. destruct Hall as [H1 | H1];
    apply eqb_eq in H1; auto.
Qed.

(** C8. [_mapear_carrera] is a function of its argument alone, defined on
    every value: it answers one of the two canonical names, never
    ["unknown"]; a missing value ([nan], [None]) gives the default name;
    any other value is trimmed, upper-cased and looked up in
    [mapeo_carreras], whose keys are distinct, and a key that the table does
    not have gives the default name.  ["ING. COMERCIAL"] maps to
    ["INGENIERIA COMERCIAL"] and ["xyz-unrecognized"] to the default. *)
Theorem C8_mapear_carrera (U : UCD) (nombre_carrera : cell) :
  (_mapear_carrera U nombre_carrera = IICG
   \/ _mapear_carrera U nombre_carrera = IC)
  /\ _mapear_carrera U nombre_carrera <> lit "unknown"
  /\ _mapear_carrera U VNaN = IICG
  /\ _mapear_carrera U VNone = IICG
  /\ (forall s,
        _mapear_carrera U (VStr s)
        = dict_get mapeo_carreras (upper U (strip U s)) IICG)
  /\ (forall r,
        _mapear_carrera U (VNum r)
        = dict_get mapeo_carreras (upper U (strip U r)) IICG)
  /\ NoDup (map fst mapeo_carreras)
  /\ (forall k v, In (k, v) mapeo_carreras ->
        dict_get mapeo_carreras k IICG = v
        /\ (v = IICG \/ v = IC))
  /\ (forall k, ~ In k (map fst mapeo_carreras) ->
        dict_get mapeo_carreras k IICG = IICG)
  /\ _mapear_carrera latin1 (VStr (lit "ING. COMERCIAL")) = IC
  /\ _mapear_carrera latin1 (VStr (lit "  ing. comercial "))
     = IC
  /\ _mapear_carrera latin1 (VStr (lit "xyz-unrecognized"))
     = IICG.
Proof.
  assert (Hmem : _mapear_carrera U nombre_carrera = IICG
                 \/ _mapear_carrera U nombre_carrera = IC).
  { unfold _mapear_carrera.
    destruct (negb (notna nombre_carrera)); [now left|].
    match goal with
    | |- context [dict_get ?d ?k ?v] =>
      destruct (dict_get_cases d k v) as [[H _] | H]
    end.
    - now left.
    - eapply mapeo_carreras_values. exact H. }
  split; [exact Hmem|].
  split.
  { destruct Hmem as [-> | ->]; vm_compute; discriminate. }
  repeat split; try reflexivity.
  - apply mapeo_carreras_keys.
  - apply dict_get_present; [apply mapeo_carreras_keys | assumption].
  - eapply mapeo_carreras_values; eassumption.
  - intros k Hk. now apply dict_get_absent.
Qed.

(** ** Statements and tables *)

Section InsertFacts.
Context {R : Type} (id_of : R -> Z) (t : Table R)
  (checked : option (Z -> R)) (conflict : R -> R -> bool) (fk : bool).

Lemma insert_serial :
  serial (after (insert id_of t checked conflict fk)) = (serial t + 1)%Z.
Proof.
  unfold insert. destruct checked as [mk|]; [|reflexivity].
  destruct (existsb _ _); [reflexivity|].
  destruct (negb _ && fk); reflexivity.
Qed.

(** An [INSERT] leaves the rows as they are or adds one row at the end. *)
Lemma insert_rows :
  (rows (after (insert id_of t checked conflict fk)) = rows t
   /\ forall s id, insert id_of t checked conflict fk <> Inserted s id)
  \/ exists mk,
       checked = Some mk
       /\ insert id_of t checked conflict fk
          = Inserted (append t (mk (serial t))) (serial t)
       /\ existsb (conflict (mk (serial t))) (rows t) = false
       /\ has_key id_of t (serial t) = false
       /\ fk = true.
Proof.
  unfold insert. destruct checked as [mk|].
  - destruct (existsb _ _) eqn:Hc; [left; split; [reflexivity | discriminate]|].
    destruct (has_key id_of t (serial t)) eqn:Hk; simpl;
      [left; split; [reflexivity | discriminate]|].
    destruct fk; [|left; split; [reflexivity | discriminate]].
    right. exists mk. repeat split; assumption.
  - left. split; [reflexivity | discriminate].
Qed.

(** A row whose [ON CONFLICT] target is in the table is not inserted. *)
Lemma insert_conflict (mk : Z -> R) :
  checked = Some mk ->
  existsb (conflict (mk (serial t))) (rows t) = true ->
  insert id_of t checked conflict fk = Ignored (bump t).
Proof. intros -> H. unfold insert. now rewrite H. Qed.

End InsertFacts.

Lemma after_into (T : Type) (set : T -> Store) (o : Outcome T) :
  after (into set o) = set (after o).
Proof. destruct o; reflexivity. Qed.

Section ExecuteFacts.
Variable E : Env.

Lemma execute_query_df (q : Stmt) (st : DataLoader) :
  df_comentarios (state (execute_query E q st)) = df_comentarios st.
Proof.
  unfold execute_query. destruct (verdict E (clock st)); [|reflexivity].
  destruct (run q (db st)); reflexivity.
Qed.

Lemma execute_query_clock (q : Stmt) (st : DataLoader) :
  clock (state (execute_query E q st)) = S (clock st).
Proof.
  unfold execute_query. destruct (verdict E (clock st)); [|reflexivity].
  destruct (run q (db st)); reflexivity.
Qed.

(** The tables after [execute_query]: untouched, or with the sequence of
    the statement's table moved, or as the statement leaves them. *)
Lemma execute_query_db (q : Stmt) (st : DataLoader) :
  (success (execute_query E q st) = false
   /\ (db (state (execute_query E q st)) = db st
       \/ db (state (execute_query E q st)) = burnt q (db st)))
  \/ (verdict E (clock st) = Accept
      /\ db (state (execute_query E q st)) = after (run q (db st))).
Proof.
  unfold execute_query. destruct (verdict E (clock st)) as [|[|]].
  - right. split; [reflexivity|]. destruct (run q (db st)); reflexivity.
  - left. split; [reflexivity|]. now right.
  - left. split; [reflexivity|]. now left.
Qed.

(** [execute_query] returns [True] exactly when the statement ran without
    an error; it logs one error record otherwise, and no warning. *)
Lemma execute_query_log (q : Stmt) (st : DataLoader) :
  (success (execute_query E q st) = true
   /\ log (state (execute_query E q st)) = log st)
  \/ (success (execute_query E q st) = false
      /\ fetchone (execute_query E q st) = None
      /\ log (state (execute_query E q st)) = ERROR_query :: log st).
Proof.
  unfold execute_query. destruct (verdict E (clock st)).
  - destruct (run q (db st)); simpl; auto.
  - simpl. auto.
Qed.

Lemma execute_query_warnings (q : Stmt) (st : DataLoader) :
  filter is_warning (log (state (execute_query E q st)))
  = filter is_warning (log st).
Proof.
  destruct (execute_query_log q st) as [[_ ->] | [_ [_ ->]]]; reflexivity.
Qed.

End ExecuteFacts.

(** ** The time dimension *)

(** ** The time dimension *)

Lemma integer_Some (z z' : Z) : integer z = Some z' -> z' = z.
Proof.
  unfold integer. destruct (_ && _)%bool; intros H; now inversion H.
Qed.

Lemma bind_Some (A B : Type) (o : option A) (k : A -> option B) (b : B) :
  bind o k = Some b -> exists a, o = Some a /\ k a = Some b.
Proof. destruct o as [a|]; simpl; [eauto | discriminate]. Qed.

Lemma burnt_tiempo (q : Stmt) (s : Store) :
  rows (tiempo (burnt q s)) = rows (tiempo s).
Proof. destruct q; reflexivity. Qed.

(** A statement keeps a property of the rows of [tiempo] when the row of
    an [INSERT_tiempo] has it. *)
Lemma execute_query_tiempo (P : Tiempo.row -> Prop) (E : Env) (q : Stmt)
  (st : DataLoader) :
  Forall P (rows (tiempo (db st))) ->
  (forall a m t s f id, q = INSERT_tiempo a m t s f ->
     P {| Tiempo.id_tiempo := id; Tiempo.anno := a; Tiempo.mes := m;
          Tiempo.trimestre := t; Tiempo.semestre := s;
          Tiempo.fechacompleta := Some f |}) ->
  Forall P (rows (tiempo (db (state (execute_query E q st))))).
Proof.
  intros Hold Hnew.
  destruct (execute_query_db E q st) as [[_ [-> | ->]] | [_ ->]].
  - assumption.
  - now rewrite burnt_tiempo.
  - destruct q; simpl; rewrite after_into; simpl; try assumption.
    match goal with
    | |- context [insert ?i ?t ?c ?k ?f] =>
      destruct (insert_rows i t c k f) as [[-> _] | [mk [Hmk [-> _]]]]
    end; [assumption|].
    simpl. apply Forall_app. split; [assumption|]. constructor; [|constructor].
    unfold fila_tiempo in Hmk.
    apply bind_Some in Hmk. destruct Hmk as [a [Ha Hmk]].
    apply bind_Some in Hmk. destruct Hmk as [m [Hm Hmk]].
    apply bind_Some in Hmk. destruct Hmk as [t [Ht Hmk]].
    apply bind_Some in Hmk. destruct Hmk as [s [Hs Hmk]].
    inversion Hmk; subst mk.
    apply integer_Some in Ha, Hm, Ht, Hs. subst. now apply Hnew.
Qed.

Lemma derivada_insert_tiempo (fecha : date) (a m t s : Z) (f : date) (id : Z) :
  insert_tiempo fecha = INSERT_tiempo a m t s f ->
  derivada {| Tiempo.id_tiempo := id; Tiempo.anno := a; Tiempo.mes := m;
              Tiempo.trimestre := t; Tiempo.semestre := s;
              Tiempo.fechacompleta := Some f |}.
Proof.
  unfold insert_tiempo. intros H. inversion H; subst.
  unfold derivada. simpl. split; [|split; reflexivity].
  exists f. auto.
Qed.

Lemma load_tiempo_Forall (P : Tiempo.row -> Prop) (E : Env)
  (fechas : list date) (st : DataLoader) :
  (forall r, derivada r -> P r) ->
  Forall P (rows (tiempo (db st))) ->
  Forall P
    (rows (tiempo (db (fold_left
                         (fun st fecha =>
                            state (execute_query E (insert_tiempo fecha) st))
                         fechas st)))).
Proof.
  intros HP. revert st.
  induction fechas as [|fecha r IH]; intros st H; simpl; [assumption|].
  apply IH. apply execute_query_tiempo; [assumption|].
  intros a m t s f id Hq. apply HP. eapply derivada_insert_tiempo, Hq.
Qed.

(** C9. Every row that [_load_tiempo] adds to the time dimension carries
    the year and month of its date, [trimestre = (mes - 1) // 3 + 1] and
    [semestre = 1 if mes <= 6 else 2]; these lie in 1..4 and 1..2 for a
    month of the calendar.  A date of month 4 is sent with trimestre 2 and
    semestre 1, a date of month 7 with trimestre 3 and semestre 2. *)
Theorem C9_tiempo_derivado (E : Env) (files : Files) (st : DataLoader) :
  Forall (fun r => In r (rows (tiempo (db st))) \/ derivada r)
    (rows (tiempo (db (_load_tiempo E files st))))
  /\ (forall r, derivada r -> (1 <= Tiempo.mes r <= 12)%Z ->
        (1 <= Tiempo.trimestre r <= 4)%Z /\ (1 <= Tiempo.semestre r <= 2)%Z)
  /\ (forall fecha, month fecha = 4%Z ->
        insert_tiempo fecha = INSERT_tiempo (year fecha) 4 2 1 fecha)
  /\ (forall fecha, month fecha = 7%Z ->
        insert_tiempo fecha = INSERT_tiempo (year fecha) 7 3 2 fecha).
Proof.
  split; [|split; [|split]].
  - assert (H0 : Forall (fun r => In r (rows (tiempo (db st))) \/ derivada r)
                   (rows (tiempo (db st)))).
    { apply Forall_forall. intros r Hr. now left. }
    unfold _load_tiempo. destruct (ALUMN_PRACT files); try exact H0.
    apply load_tiempo_Forall; [|exact H0]. intros r Hr. now right.
  - intros r [_ [Ht Hs]] Hm. rewrite Ht, Hs. split.
    + assert (0 <= (Tiempo.mes r - 1) / 3 < 4)%Z; [|lia].
      split; [apply Z.div_pos; lia|].
      apply Z.div_lt_upper_bound; lia.
    + destruct (Tiempo.mes r <=? 6)%Z; lia.
  - intros fecha H. unfold insert_tiempo. rewrite H. reflexivity.
  - intros fecha H. unfold insert_tiempo. rewrite H. reflexivity.
Qed.

(** ** The comment extractor *)

Section Comentarios.
Variable U : UCD.

(** The loop of [extraer_comentarios_reales_fila] keeps the trimmed values
    that pass the test, in the order of the columns. *)
Lemma comentarios_de_filter (f : fila) :
  comentarios_de U f
  = filter (comentario_real U) (map (strip U) (valores_textuales f)).
Proof.
  unfold comentarios_de, valores_textuales.
  induction columnas_comentarios as [|c r IH]; [reflexivity|].
  simpl. rewrite IH, map_app, filter_app. f_equal.
  unfold has_col, get. destruct (lookup f c) as [[v| | |]|]; simpl;
    try reflexivity.
  all: destruct (comentario_real U (strip U v)); reflexivity.
Qed.

Lemma extraer_recortado (f : fila) :
  extraer_comentarios_reales_fila U f = comentario_recortado U f.
Proof.
  unfold extraer_comentarios_reales_fila, comentario_recortado.
  now rewrite comentarios_de_filter.
Qed.

Lemma comentario_real_iff (s : str) :
  comentario_real U s = true
  <-> ~ In s excluir /\ 10 < length s /\ isupper U s = false
      /\ isalpha U (remove_char 32 s) = false
      /\ (In 44%N s \/ In 46%N s \/ In 32%N s).
Proof.
  unfold comentario_real.
  rewrite !andb_true_iff, !orb_true_iff, !negb_true_iff, !has_char_In.
  rewrite Nat.ltb_lt. rewrite <- not_true_iff_false, mem_In. tauto.
Qed.

(** A value of at most ten characters is never kept. *)
Lemma corto_rechazado (v : str) :
  length v <= 10 -> comentario_real U (strip U v) = false.
Proof.
  intros H. apply not_true_iff_false. intros Hr.
  apply comentario_real_iff in Hr. destruct Hr as [_ [Hl _]].
  pose proof (strip_length U v). lia.
Qed.

(** A value without comma, period and space is never kept. *)
Lemma sin_puntuacion_rechazado (v : str) :
  ~ In 44%N v -> ~ In 46%N v -> ~ In 32%N v ->
  comentario_real U (strip U v) = false.
Proof.
  intros H1 H2 H3. apply not_true_iff_false. intros Hr.
  apply comentario_real_iff in Hr.
  destruct Hr as [_ [_ [_ [_ [H | [H | H]]]]]];
    apply strip_In in H; tauto.
Qed.

Lemma recortado_contiene (f : fila) (c v : str) :
  In c columnas_comentarios -> lookup f c = Some (VStr v) ->
  comentario_real U (strip U v) = true ->
  contains (extraer_comentarios_reales_fila U f) (strip U v) = true.
Proof.
  intros Hc Hl Hr.
  assert (Hin : In (strip U v) (comentarios_de U f)).
  { rewrite comentarios_de_filter. apply filter_In. split; [|assumption].
    apply in_map. unfold valores_textuales. apply in_flat_map.
    exists c. split; [assumption|]. rewrite Hl. now left. }
  unfold extraer_comentarios_reales_fila.
  destruct (comentarios_de U f) as [|x l] eqn:E; [contradiction|].
  now apply contains_join.
Qed.

Lemma categoricos_sin_comentarios (f : fila) :
  (forall v, In v (valores_textuales f) ->
     In v [lit "Si"; lit "B"; lit "1234567890123"]) ->
  extraer_comentarios_reales_fila U f = sin_comentarios.
Proof.
  intros H. rewrite extraer_recortado. unfold comentario_recortado.
  replace (filter (comentario_real U) (map (strip U) (valores_textuales f)))
    with (@nil str); [reflexivity|].
  symmetry. induction (valores_textuales f) as [|v r IH]; [reflexivity|].
  simpl. rewrite IH by (intros w Hw; apply H; now right).
  assert (Hv : In v [lit "Si"; lit "B"; lit "1234567890123"])
    by (apply H; now left).
  destruct Hv as [<- | [<- | [<- | []]]].
  - rewrite corto_rechazado; [reflexivity | vm_compute; lia].
  - rewrite corto_rechazado; [reflexivity | vm_compute; lia].
  - rewrite sin_puntuacion_rechazado; [reflexivity | | |];
      vm_compute; intros Hin;
      repeat (destruct Hin as [Hin | Hin]; [discriminate|]); exact Hin.
Qed.

End Comentarios.

(** C5, counterexample.  The only candidate value of the row is
    ["  Buen trabajo, gracias.  "]; it passes the test of the specification
    and it passes the test of the code once trimmed; the comment is the
    trimmed text, not the value. *)
Lemma C5_valor_con_relleno :
  valores_textuales fila_relleno = [lit "  Buen trabajo, gracias.  "]
  /\ acepta_spec latin1 (lit "  Buen trabajo, gracias.  ") = true
  /\ comentario_spec latin1 fila_relleno = lit "  Buen trabajo, gracias.  "
  /\ extraer_comentarios_reales_fila latin1 fila_relleno
     = lit "Buen trabajo, gracias."
  /\ extraer_comentarios_reales_fila latin1 fila_relleno
     <> comentario_spec latin1 fila_relleno.
Proof.
  repeat split; try (vm_compute; reflexivity).
  vm_compute. discriminate.
Qed.

(** C5, amended.  The synthesized comment is the concatenation, with
    [" | "] between them and in the order of [columnas_comentarios], of the
    trimmed forms of the textual values of the candidate fields whose
    trimmed form is not in [excluir], has more than 10 characters, is not
    upper-case, is not alphabetic once its spaces are removed, and has a
    comma, a period or a space; with no such value it is the sentinel.  A
    value that passes is in the comment in its trimmed form.  Values
    ["Si"], ["B"] and ["1234567890123"] alone give the sentinel, and
    ["El desempeño fue excelente, muy puntual."] stands in the comment as it
    is. *)
Theorem C5_comentario_sintetizado (U : UCD) (f : fila) :
  extraer_comentarios_reales_fila U f = comentario_recortado U f
  /\ (forall s, comentario_real U s = true
        <-> ~ In s excluir /\ 10 < length s /\ isupper U s = false
            /\ isalpha U (remove_char 32 s) = false
            /\ (In 44%N s \/ In 46%N s \/ In 32%N s))
  /\ (forall c v, In c columnas_comentarios -> lookup f c = Some (VStr v) ->
        comentario_real U (strip U v) = true ->
        contains (extraer_comentarios_reales_fila U f) (strip U v) = true)
  /\ ((forall v, In v (valores_textuales f) ->
         In v [lit "Si"; lit "B"; lit "1234567890123"]) ->
      extraer_comentarios_reales_fila U f = sin_comentarios)
  /\ extraer_comentarios_reales_fila latin1 fila_categorica = sin_comentarios
  /\ strip latin1 excelente = excelente
  /\ comentario_real latin1 excelente = true
  /\ extraer_comentarios_reales_fila latin1 fila_excelente = excelente.
Proof.
  split; [apply extraer_recortado|].
  split; [apply comentario_real_iff|].
  split; [apply recortado_contiene|].
  split; [apply categoricos_sin_comentarios|].
  repeat split; vm_compute; reflexivity.
Qed.

(** ** Paged extraction *)

Section Paginacion.
Variable Rec : Type.
Variable requests_get : str -> Params -> Exn + Response Rec.
Variables api_url token0 tabla0 : str.
Variable limit0 : Z.

Lemma get_json_ok (p : Params) (r : Response Rec) (payload : Payload Rec) :
  requests_get api_url p = inr r -> raise_for_status r = false ->
  json r = Some payload ->
  get_json requests_get api_url p = inr payload.
Proof.
  intros H1 H2 H3. unfold get_json. now rewrite H1, H2, H3.
Qed.

(** One turn on a well-formed page: the loop ends when the page is empty
    or the next offset reaches the total, and goes on otherwise. *)
Lemma descargar_paso_ok (offset0 total : Z) (acumulado filas : list Rec)
  (dumps : str) :
  get_json requests_get api_url
    {| tabla := tabla0; token := token0; limit := limit0; offset := offset0 |}
  = inr (Dict (Some filas) (TotalInt total) dumps) ->
  descargar_paso requests_get api_url token0 tabla0 limit0 offset0 acumulado
  = match filas with
    | [] => Termina acumulado
    | _ :: _ =>
      if (total <=? offset0 + limit0)%Z then Termina (acumulado ++ filas)
      else Sigue (offset0 + limit0)%Z (acumulado ++ filas)
    end.
Proof.
  intros H. unfold descargar_paso. rewrite H. reflexivity.
Qed.

Lemma descargar_paso_termina (offset0 total : Z) (acumulado filas : list Rec)
  (dumps : str) :
  get_json requests_get api_url
    {| tabla := tabla0; token := token0; limit := limit0; offset := offset0 |}
  = inr (Dict (Some filas) (TotalInt total) dumps) ->
  (exists final,
     descargar_paso requests_get api_url token0 tabla0 limit0 offset0 acumulado
     = Termina final)
  <-> filas = [] \/ (total <= offset0 + limit0)%Z.
Proof.
  intros H. rewrite (descargar_paso_ok _ _ _ _ _ H).
  destruct filas as [|x l].
  - split; [now left | intros _; now eexists].
  - destruct (Z.leb_spec total (offset0 + limit0)).
    + split; [now right | intros _; now eexists].
    + split; [intros [final Hf]; discriminate|].
      intros [H1 | H1]; [discriminate | lia].
Qed.

Variable T : Z.
Hypothesis limit_pos : (0 < limit0)%Z.
Hypothesis paginas :
  forall k, (0 <= k <= T)%Z ->
    pagina_completa requests_get api_url token0 tabla0 limit0 T k.

(** From an offset that the accumulated records have reached, the loop
    ends within [T - offset] more turns with [T] records. *)
Lemma descargar_bucle_total (turns : nat) :
  forall (offset0 : Z) (acumulado : list Rec),
    (0 <= offset0 <= T)%Z -> (offset0 < T \/ offset0 = 0)%Z ->
    Z.of_nat (length acumulado) = offset0 ->
    (T - offset0 < Z.of_nat turns)%Z ->
    exists final,
      descargar_bucle requests_get turns api_url token0 tabla0 limit0
        offset0 acumulado = Some (inr final)
      /\ Z.of_nat (length final) = T.
Proof.
  induction turns as [|n IH]; intros offset0 acumulado Hk Hk' Hacc Hn; [lia|].
  destruct (paginas _ Hk) as [r [filas [dumps [H1 [H2 [H3 H4]]]]]].
  pose proof (get_json_ok _ _ _ H1 H2 H3) as Hj.
  simpl. rewrite (descargar_paso_ok _ _ _ _ _ Hj).
  destruct filas as [|x l].
  - exists acumulado. split; [reflexivity|]. simpl in H4. lia.
  - assert (Hlen : Z.of_nat (length (acumulado ++ x :: l))
                   = (offset0 + Z.min limit0 (T - offset0))%Z).
    { rewrite length_app, Nat2Z.inj_add. lia. }
    destruct (Z.leb_spec T (offset0 + limit0)).
    + exists (acumulado ++ x :: l). split; [reflexivity|]. lia.
    + apply IH; lia.
Qed.

End Paginacion.

(** C2. When the page size is positive and every request at an offset up
    to [T] succeeds with a body that reports the total [T] and carries
    [min(limit, T - offset)] records, [descargar_tabla] ends (within any
    number of turns above [T]) and returns [T] records.  On a well-formed
    page the loop ends exactly when the page has no record or the next
    offset reaches the reported total; otherwise it goes on from the next
    offset with the page added. *)
Theorem C2_descargar_tabla_total (Rec : Type)
  (requests_get : str -> Params -> Exn + Response Rec)
  (api_url token0 tabla0 : str) (limit0 T : Z) (turns : nat) :
  (0 < limit0)%Z ->
  (forall k, (0 <= k <= T)%Z ->
     pagina_completa requests_get api_url token0 tabla0 limit0 T k) ->
  (0 <= T < Z.of_nat turns)%Z ->
  (exists final,
     descargar_tabla requests_get turns api_url token0 tabla0 limit0
     = Some (inr final)
     /\ Z.of_nat (length final) = T)
  /\ (forall offset0 total acumulado filas dumps,
        get_json requests_get api_url
          {| tabla := tabla0; token := token0; limit := limit0;
             offset := offset0 |}
        = inr (Dict (Some filas) (TotalInt total) dumps) ->
        ((exists final,
            descargar_paso requests_get api_url token0 tabla0 limit0
              offset0 acumulado = Termina final)
         <-> filas = [] \/ (total <= offset0 + limit0)%Z)
        /\ (filas <> [] -> (offset0 + limit0 < total)%Z ->
            descargar_paso requests_get api_url token0 tabla0 limit0
              offset0 acumulado
            = Sigue (offset0 + limit0)%Z (acumulado ++ filas))).
Proof.
  intros Hl Hp Ht. split.
  - unfold descargar_tabla.
    apply (descargar_bucle_total _ _ _ _ _ _ _ Hl Hp); simpl; lia.
  - intros offset0 total acumulado filas dumps Hj. split.
    + apply (descargar_paso_termina _ _ _ _ _ _ _ _ _ _ _ Hj).
    + intros Hf Hlt. rewrite (descargar_paso_ok _ _ _ _ _ _ _ _ _ _ _ Hj).
      destruct filas; [congruence|].
      destruct (Z.leb_spec total (offset0 + limit0)); [lia | reflexivity].
Qed.

(** C2 at a provider of 5 records read by pages of 2. *)
Lemma C2_cinco_de_dos :
  exists final,
    descargar_tabla (proveedor 5) 6 API_URL TOKEN (lit "alumn_pract") 2
    = Some (inr final)
    /\ Z.of_nat (length final) = 5%Z.
Proof.
  refine (proj1 (@C2_descargar_tabla_total nat (proveedor 5) API_URL TOKEN
                   (lit "alumn_pract") 2 5 6 _ _ _)).
  - lia.
  - intros k Hk. unfold pagina_completa, proveedor.
    eexists. eexists. eexists.
    split; [reflexivity|]. split; [reflexivity|]. split; [reflexivity|].
    unfold registros. simpl offset. simpl limit.
    rewrite length_seq. lia.
  - simpl. lia.
Defined.

(** ** Errors of the page request *)

Lemma preview_cases (text0 : str) :
  let t := replace_char 10 32 text0 in
  (length t <= 300 /\ _safe_json_preview text0 300 = t)
  \/ (300 < length t
      /\ _safe_json_preview text0 300 = firstn 300 t ++ lit "...").
Proof.
  cbv zeta. unfold _safe_json_preview.
  set (t := replace_char 10 32 text0).
  destruct (Z.ltb_spec 300 (Z.of_nat (length t))) as [H | H].
  - right. split; [lia | reflexivity].
  - left. split; [lia | reflexivity].
Qed.

Lemma preview_length (text0 : str) :
  length (_safe_json_preview text0 300) <= 303.
Proof.
  destruct (preview_cases text0) as [[H ->] | [H ->]]; [lia|].
  rewrite length_app, length_firstn.
  change (length (lit "...")) with 3. lia.
Qed.

(** An error of [get_json] ends the extraction of the table. *)
Lemma descargar_bucle_falla (Rec : Type)
  (requests_get : str -> Params -> Exn + Response Rec) (turns : nat)
  (api_url : str) (p : Params) (acumulado : list Rec) (e : Exn) :
  get_json requests_get api_url p = inl e ->
  descargar_bucle requests_get (S turns) api_url (token p) (tabla p)
    (limit p) (offset p) acumulado = Some (inl e).
Proof.
  intros H. destruct p as [ta to li off]. simpl.
  unfold descargar_paso. now rewrite H.
Qed.

(** C6, counterexample.  The provider answers the first page of
    [alumn_pract] with status 500; the message of the error that [get_json]
    raises carries the URL of the request with the access token in it. *)
Lemma C6_token_en_el_mensaje :
  exists msg,
    get_json proveedor_caido API_URL primera_pagina = inl (RuntimeError msg)
    /\ contains msg (lit "token=Eciem_20252026") = true
    /\ contains msg TOKEN = true.
Proof.
  eexists. split; [reflexivity|]. split; vm_compute; reflexivity.
Qed.

(** C6, amended.  When the response to a page request has a 4xx or 5xx
    status, or a body that does not parse as JSON, [get_json] raises a
    [RuntimeError] and the extraction of the table ends with it.  Its
    message is a header, the URL of the response as the transport reports
    it (nothing in it is redacted), [" -> "] and a preview of the body: the
    body with newlines replaced by spaces when that has at most 300
    characters, its first 300 characters followed by ["..."] otherwise, so
    303 characters at most. *)
Theorem C6_get_json_error (Rec : Type)
  (requests_get : str -> Params -> Exn + Response Rec)
  (url0 : str) (p : Params) (r : Response Rec) :
  requests_get url0 p = inr r ->
  raise_for_status r = true \/ json r = None ->
  exists cabecera,
    get_json requests_get url0 p
    = inl (RuntimeError (cabecera ++ url r ++ lit " -> "
                           ++ _safe_json_preview (text r) 300))
    /\ (cabecera = lit "HTTP error " ++ of_int (status_code r) ++ lit " en "
        \/ cabecera = lit "No pude parsear JSON en ")
    /\ contains (cabecera ++ url r ++ lit " -> "
                   ++ _safe_json_preview (text r) 300) (url r) = true
    /\ length (_safe_json_preview (text r) 300) <= 303
    /\ (let t := replace_char 10 32 (text r) in
        (length t <= 300 /\ _safe_json_preview (text r) 300 = t)
        \/ (300 < length t
            /\ _safe_json_preview (text r) 300 = firstn 300 t ++ lit "..."))
    /\ (forall turns acumulado,
          descargar_bucle requests_get (S turns) url0 (token p) (tabla p)
            (limit p) (offset p) acumulado
          = Some (inl (RuntimeError
                         (cabecera ++ url r ++ lit " -> "
                            ++ _safe_json_preview (text r) 300)))).
Proof.
  intros Hr Hbad.
  assert (Hj : exists cabecera,
             get_json requests_get url0 p
             = inl (RuntimeError (cabecera ++ url r ++ lit " -> "
                                    ++ _safe_json_preview (text r) 300))
             /\ (cabecera
                 = lit "HTTP error " ++ of_int (status_code r) ++ lit " en "
                 \/ cabecera = lit "No pude parsear JSON en ")).
  { unfold get_json. rewrite Hr.
    destruct (raise_for_status r) eqn:Hs.
    - eexists. split; [|left; reflexivity].
      now rewrite <- !app_assoc.
    - destruct Hbad as [Hbad | Hbad]; [discriminate|]. rewrite Hbad.
      eexists. split; [|right; reflexivity]. reflexivity. }
  destruct Hj as [cabecera [Hj Hc]]. exists cabecera.
  split; [exact Hj|]. split; [exact Hc|].
  split; [apply contains_app|].
  split; [apply preview_length|].
  split; [apply preview_cases|].
  intros turns acumulado. now apply descargar_bucle_falla.
Qed.

(** C6 at the provider that answers with status 500. *)
Lemma C6_proveedor_caido :
  exists cabecera,
    get_json proveedor_caido API_URL primera_pagina
    = inl (RuntimeError
             (cabecera ++ url respuesta_500 ++ lit " -> "
                ++ _safe_json_preview (text respuesta_500) 300))
    /\ length (_safe_json_preview (text respuesta_500) 300) <= 303.
Proof.
  destruct (@C6_get_json_error nat proveedor_caido API_URL primera_pagina
              respuesta_500 eq_refl (or_introl eq_refl))
    as [cabecera [H1 [_ [_ [H4 _]]]]].
  exists cabecera. split; assumption.
Defined.

(** ** The cleaner *)

Section Limpieza.
Variable U : UCD.
Variable Num : Type.
Variable to_datetime_obj : list obj -> obj -> option Timestamp.
Variable to_datetime_num : list Num -> Num -> option Timestamp.

#[local] Abbreviation limpiar :=
  (limpiar_df U to_datetime_obj to_datetime_num).

Lemma limpiar_df_empty (df : DataFrame Num) :
  empty df = true -> limpiar df = df.
Proof. intros H. unfold limpiar_df. now rewrite H. Qed.

(** The column that stands, after cleaning, where [c] stood. *)
Lemma limpiar_df_nth (df : DataFrame Num) (i : nat) (c : Column Num) :
  empty df = false -> nth_error df i = Some c ->
  nth_error (limpiar df) i
  = Some (normalizar_fecha U to_datetime_obj to_datetime_num
            (strip_objetos U c)).
Proof.
  intros He Hc. unfold limpiar_df. rewrite He.
  now rewrite !nth_error_map, Hc.
Qed.

Lemma strip_objetos_name (c : Column Num) : name (strip_objetos U c) = name c.
Proof. unfold strip_objetos. destruct (values c); reflexivity. Qed.

Lemma fecha_nula_iff (s : str) :
  fecha_nula s = true
  <-> s = lit "0000-00-00" \/ s = lit "0000-00-00 00:00:00".
Proof.
  unfold fecha_nula. now rewrite orb_true_iff, !eqb_eq.
Qed.

(** An [object] column with a date prefix after cleaning. *)
Lemma normalizar_objeto (c : Column Num) (l : list obj) :
  values c = ObjectCol l -> es_fecha U (name c) = true ->
  exists columna,
    normalizar_fecha U to_datetime_obj to_datetime_num (strip_objetos U c)
    = {| name := name c;
         values := DatetimeCol
                     (map (fecha_limpia U to_datetime_obj columna) l) |}.
Proof.
  intros Hv Hf. unfold normalizar_fecha. rewrite strip_objetos_name, Hf.
  unfold strip_objetos. rewrite Hv. simpl.
  eexists. f_equal. f_equal. rewrite !map_map.
  apply map_ext. intros o. unfold fecha_limpia, fecha_nula.
  destruct (PyStr.eqb _ _ || PyStr.eqb _ _); reflexivity.
Qed.

Lemma normalizar_otro (c : Column Num) (l : list obj) :
  values c = ObjectCol l -> es_fecha U (name c) = false ->
  normalizar_fecha U to_datetime_obj to_datetime_num (strip_objetos U c)
  = {| name := name c;
       values := ObjectCol (map (fun o => OStr (strip U (py_str o))) l) |}.
Proof.
  intros Hv Hf. unfold normalizar_fecha. rewrite strip_objetos_name, Hf.
  unfold strip_objetos. now rewrite Hv.
Qed.

End Limpieza.

(** C7.  [limpiar_df] is defined on every frame.  It returns an empty frame
    as it is.  In a frame with rows, the column that stands where a column
    stood whose lower-cased name starts with ["fech_"] or ["fecha_"] has the
    same name and is a [datetime64] column of the same length; for an
    [object] column, each of its values is missing when the trimmed text of
    the source value is ["0000-00-00"] or ["0000-00-00 00:00:00"], and is
    otherwise what the parser reads in that text, a date or missing; a
    column of numbers is parsed value by value and a [datetime64] column is
    kept.  The batch [lote] is cleaned into [lote_limpio]. *)
Theorem C7_limpiar_df_fechas (U : UCD) (Num : Type)
  (to_datetime_obj : list obj -> obj -> option Timestamp)
  (to_datetime_num : list Num -> Num -> option Timestamp)
  (df : DataFrame Num) :
  (empty df = true
   -> limpiar_df U to_datetime_obj to_datetime_num df = df)
  /\ (empty df = false ->
      length (limpiar_df U to_datetime_obj to_datetime_num df) = length df
      /\ forall i c,
           nth_error df i = Some c -> es_fecha U (name c) = true ->
           exists out,
             nth_error (limpiar_df U to_datetime_obj to_datetime_num df) i
             = Some {| name := name c; values := DatetimeCol out |}
             /\ length out = nrows (values c)
             /\ match values c with
                | ObjectCol l =>
                  exists columna,
                    out = map (fecha_limpia U to_datetime_obj columna) l
                | DatetimeCol l => out = l
                | NumCol l => out = map (to_datetime_num l) l
                end)
  /\ (forall columna o,
        (fecha_nula (strip U (py_str o)) = true ->
         fecha_limpia U to_datetime_obj columna o = None)
        /\ (fecha_nula (strip U (py_str o)) = false ->
            fecha_limpia U to_datetime_obj columna o
            = to_datetime_obj columna (OStr (strip U (py_str o)))))
  /\ (forall s, fecha_nula s = true
        <-> s = lit "0000-00-00" \/ s = lit "0000-00-00 00:00:00")
  /\ es_fecha latin1 (lit "FECH_INI_PRAC") = true
  /\ es_fecha latin1 (lit "fecha_termino") = true
  /\ es_fecha latin1 (lit "rut_alum") = false
  /\ limpiar_df latin1 iso_timestamp sin_numeros lote = lote_limpio
  /\ limpiar_df latin1 iso_timestamp sin_numeros [] = [].
Proof.
  split; [apply limpiar_df_empty|].
  split.
  { intros He. split.
    - unfold limpiar_df. rewrite He. now rewrite !length_map.
    - intros i c Hc Hf.
      rewrite (limpiar_df_nth _ _ _ _ _ _ _ He Hc).
      destruct (values c) as [l | l | l] eqn:Hv.
      + destruct (normalizar_objeto U Num to_datetime_obj to_datetime_num
                    c l Hv Hf) as [columna Hn].
        rewrite Hn. eexists. split; [reflexivity|]. split.
        * simpl. now rewrite length_map.
        * now exists columna.
      + unfold normalizar_fecha. rewrite strip_objetos_name, Hf.
        unfold strip_objetos. rewrite Hv. simpl. rewrite Hv. simpl.
        eexists. split; [reflexivity|]. split; reflexivity.
      + unfold normalizar_fecha. rewrite strip_objetos_name, Hf.
        unfold strip_objetos. rewrite Hv. simpl. rewrite Hv. simpl.
        eexists. split; [reflexivity|]. split; [|reflexivity].
        now rewrite length_map. }
  split.
  { intros columna o. unfold fecha_limpia, fecha_nula.
    split; intros ->; reflexivity. }
  split; [apply fecha_nula_iff|].
  repeat split; vm_compute; reflexivity.
Qed.

(** C10, counterexample.  The text column of [lote] holds [nan] in its
    second row and [None] in its third; after cleaning, the second is the
    text ["nan"] and the third the text ["None"], not ["nan"]. *)
Lemma C10_None_no_es_nan :
  nth_error lote 1
  = Some {| name := lit "nomb_alum";
            values := ObjectCol [ OStr (lit " Ana "); ONaN; ONone;
                                  OOther (lit "12") ] |}
  /\ nth_error (limpiar_df latin1 iso_timestamp sin_numeros lote) 1
     = Some {| name := lit "nomb_alum";
               values := ObjectCol [ OStr (lit "Ana"); OStr (lit "nan");
                                     OStr (lit "None"); OStr (lit "12") ] |}
  /\ OStr (lit "None") <> OStr (lit "nan").
Proof.
  split; [reflexivity|]. split; [vm_compute; reflexivity|].
  vm_compute. discriminate.
Qed.

(** C10, amended.  After cleaning a frame with rows, the column that stands
    where an [object] column without date prefix stood has the same name and
    holds, value by value, the trimmed text that [str()] gives for the
    source value: a missing [nan] becomes the text ["nan"] and a missing
    [None] the text ["None"] (when the letters of these words are not white
    space, as in Unicode). *)
Theorem C10_objetos_a_texto (U : UCD) (Num : Type)
  (to_datetime_obj : list obj -> obj -> option Timestamp)
  (to_datetime_num : list Num -> Num -> option Timestamp)
  (df : DataFrame Num) (i : nat) (c : Column Num) (l : list obj) :
  empty df = false ->
  nth_error df i = Some c ->
  values c = ObjectCol l ->
  es_fecha U (name c) = false ->
  nth_error (limpiar_df U to_datetime_obj to_datetime_num df) i
  = Some {| name := name c;
            values := ObjectCol (map (fun o => OStr (strip U (py_str o))) l) |}
  /\ (isspace_c U 110 = false -> strip U (py_str ONaN) = lit "nan")
  /\ (isspace_c U 78 = false -> isspace_c U 101 = false ->
      strip U (py_str ONone) = lit "None")
  /\ strip latin1 (py_str ONaN) = lit "nan"
  /\ strip latin1 (py_str ONone) = lit "None".
Proof.
  intros He Hc Hv Hf. split.
  - rewrite (limpiar_df_nth _ _ _ _ _ _ _ He Hc).
    f_equal. now apply normalizar_otro.
  - split; [|split; [|split; vm_compute; reflexivity]].
    + intros Hn. apply (strip_id U 110%N 110%N [97%N]); assumption.
    + intros HN He'. apply (strip_id U 78%N 101%N [111%N; 110%N]); assumption.
Qed.

(** C10 at the text column of [lote]. *)
Lemma C10_lote :
  nth_error (limpiar_df latin1 iso_timestamp sin_numeros lote) 1
  = Some {| name := lit "nomb_alum";
            values := ObjectCol
                        (map (fun o => OStr (strip latin1 (py_str o)))
                           [ OStr (lit " Ana "); ONaN; ONone;
                             OOther (lit "12") ]) |}.
Proof.
  exact (proj1 (@C10_objetos_a_texto latin1 unit iso_timestamp sin_numeros
                  lote 1 _ _ eq_refl eq_refl eq_refl eq_refl)).
Defined.

(** ** Effect of a statement on each table *)

Ltac binds H :=
  repeat (let a := fresh "a" in
          let Ha := fresh "Ha" in
          apply bind_Some in H; destruct H as [a [Ha H]]);
  inversion H; subst; clear H.

Lemma rubro_run (q : Stmt) (s : Store) :
  rubro (after (run q s))
  = match q with
    | INSERT_rubro n =>
      after (insert Rubro.id_rubro (rubro s) (fila_rubro n) conflicto_rubro true)
    | _ => rubro s
    end.
Proof. destruct q; simpl; rewrite after_into; reflexivity. Qed.

Lemma carrera_run (q : Stmt) (s : Store) :
  carrera (after (run q s))
  = match q with
    | INSERT_carrera n e =>
      after (insert Carrera.id_carrera (carrera s) (fila_carrera n e)
               conflicto_carrera true)
    | _ => carrera s
    end.
Proof. destruct q; simpl; rewrite after_into; reflexivity. Qed.

Lemma estudiante_run (q : Stmt) (s : Store) :
  estudiante (after (run q s))
  = match q with
    | INSERT_estudiante n a c t rut m ai ne =>
      after (insert Estudiante.id_estudiante (estudiante s)
               (fila_estudiante n a c t rut m ai ne) conflicto_estudiante true)
    | _ => estudiante s
    end.
Proof. destruct q; simpl; rewrite after_into; reflexivity. Qed.

Lemma tiempo_run (q : Stmt) (s : Store) :
  tiempo (after (run q s))
  = match q with
    | INSERT_tiempo a m t x f =>
      after (insert Tiempo.id_tiempo (tiempo s) (fila_tiempo a m t x f)
               conflicto_tiempo true)
    | _ => tiempo s
    end.
Proof. destruct q; simpl; rewrite after_into; reflexivity. Qed.

Lemma evaluacion_run (q : Stmt) (s : Store) :
  evaluacion_empresa (after (run q s))
  = match q with
    | INSERT_evaluacion_empresa c =>
      after (insert Evaluacion.id_evaluacionempresa (evaluacion_empresa s)
               (fila_evaluacion c) (@no_conflict _) true)
    | _ => evaluacion_empresa s
    end.
Proof. destruct q; simpl; rewrite after_into; reflexivity. Qed.

Lemma hechos_run (q : Stmt) (s : Store) :
  hechos (after (run q s))
  = match q with
    | INSERT_hechos es pr em ti ev ro =>
      after (insert Hechos.id_hechos (hechos s) (fila_hechos es pr em ti ev ro)
               (@no_conflict _)
               (references Estudiante.id_estudiante (estudiante s) es
                && references Practica.id_practica (practica s) pr
                && references Empresa.id_empresa (empresa s) em
                && references Tiempo.id_tiempo (tiempo s) ti
                && references Evaluacion.id_evaluacionempresa
                     (evaluacion_empresa s) ev))
    | _ => hechos s
    end.
Proof. destruct q; simpl; rewrite after_into; reflexivity. Qed.

(** A rejected statement changes no row of any table. *)
Lemma burnt_rows (q : Stmt) (s : Store) :
  rows (rubro (burnt q s)) = rows (rubro s)
  /\ rows (carrera (burnt q s)) = rows (carrera s)
  /\ rows (estudiante (burnt q s)) = rows (estudiante s)
  /\ rows (tiempo (burnt q s)) = rows (tiempo s)
  /\ rows (evaluacion_empresa (burnt q s)) = rows (evaluacion_empresa s)
  /\ rows (hechos (burnt q s)) = rows (hechos s).
Proof. destruct q; repeat split; reflexivity. Qed.

Lemma burnt_serial (q : Stmt) (s : Store) :
  (serial (rubro s) <= serial (rubro (burnt q s)) <= serial (rubro s) + 1
   /\ serial (carrera s) <= serial (carrera (burnt q s))
      <= serial (carrera s) + 1
   /\ serial (estudiante s) <= serial (estudiante (burnt q s))
      <= serial (estudiante s) + 1
   /\ serial (tiempo s) <= serial (tiempo (burnt q s)) <= serial (tiempo s) + 1
   /\ serial (evaluacion_empresa s) <= serial (evaluacion_empresa (burnt q s))
      <= serial (evaluacion_empresa s) + 1)%Z.
Proof. destruct q; simpl; lia. Qed.

Lemma existsb_igual (A : Type) (f g : A -> bool) (l : list A) :
  (forall x, f x = g x) -> existsb f l = existsb g l.
Proof.
  intros H. induction l as [|x r IH]; simpl; [reflexivity|].
  now rewrite H, IH.
Qed.

Section TableFacts.
Context {R : Type} (id_of : R -> Z) (t : Table R)
  (checked : option (Z -> R)) (conflict : R -> R -> bool) (fk : bool).

Lemma prefijo_refl (A : Type) (l : list A) : prefijo l l.
Proof. exists []. now rewrite app_nil_r. Qed.

Lemma prefijo_trans (A : Type) (l1 l2 l3 : list A) :
  prefijo l1 l2 -> prefijo l2 l3 -> prefijo l1 l3.
Proof.
  intros [a ->] [b ->]. exists (a ++ b). now rewrite app_assoc.
Qed.

Lemma insert_prefijo :
  prefijo (rows t) (rows (after (insert id_of t checked conflict fk))).
Proof.
  destruct (insert_rows id_of t checked conflict fk)
    as [[-> _] | [mk [_ [-> _]]]].
  - apply prefijo_refl.
  - now exists [mk (serial t)].
Qed.

(** A property of the rows holds after an [INSERT] when the new row has
    it. *)
Lemma insert_Forall (P : R -> Prop) :
  Forall P (rows t) ->
  (forall mk, checked = Some mk -> P (mk (serial t))) ->
  Forall P (rows (after (insert id_of t checked conflict fk))).
Proof.
  intros H Hn.
  destruct (insert_rows id_of t checked conflict fk)
    as [[-> _] | [mk [Hc [-> _]]]]; [assumption|].
  simpl. apply Forall_app. split; [assumption|]. constructor; auto.
Qed.

(** The sequence stays ahead of the keys. *)
Lemma insert_fresco :
  Forall (fun r => (id_of r < serial t)%Z) (rows t) ->
  (forall mk id, checked = Some mk -> id_of (mk id) = id) ->
  Forall (fun r => (id_of r
                    < serial (after (insert id_of t checked conflict fk)))%Z)
    (rows (after (insert id_of t checked conflict fk))).
Proof.
  intros H Hid. rewrite insert_serial.
  apply insert_Forall.
  - eapply Forall_impl; [|exact H]. simpl. intros; lia.
  - intros mk Hmk. rewrite (Hid _ _ Hmk). lia.
Qed.

Lemma fresco_sin_clave :
  Forall (fun r => (id_of r < serial t)%Z) (rows t) ->
  has_key id_of t (serial t) = false.
Proof.
  intros H. unfold has_key. apply not_true_iff_false. intros He.
  apply existsb_exists in He. destruct He as [r [Hr He]].
  rewrite Forall_forall in H. specialize (H _ Hr).
  apply Z.eqb_eq in He. lia.
Qed.

(** With the sequence ahead of the keys, an accepted row is in conflict
    with a row of the table after its [INSERT]. *)
Lemma insert_presente (mk : Z -> R) (id : Z) :
  checked = Some mk -> fk = true ->
  Forall (fun r => (id_of r < serial t)%Z) (rows t) ->
  (forall a b x, conflict (mk a) x = conflict (mk b) x) ->
  (forall a b, conflict (mk a) (mk b) = true) ->
  existsb (conflict (mk id))
    (rows (after (insert id_of t checked conflict fk))) = true.
Proof.
  intros -> -> Hf Hk Hr. unfold insert.
  destruct (existsb (conflict (mk (serial t))) (rows t)) eqn:He.
  - simpl. rewrite <- He. apply existsb_igual. intros x. apply Hk.
  - rewrite (fresco_sin_clave Hf). simpl.
    rewrite existsb_app. simpl. rewrite Hr. now rewrite orb_true_r.
Qed.

(** A row in conflict with the table leaves the rows as they are. *)
Lemma insert_sin_efecto :
  (forall mk, checked = Some mk ->
     existsb (conflict (mk (serial t))) (rows t) = true) ->
  rows (after (insert id_of t checked conflict fk)) = rows t.
Proof.
  intros H. unfold insert. destruct checked as [mk|]; [|reflexivity].
  now rewrite (H mk eq_refl).
Qed.

End TableFacts.

(** ** Natural keys *)

Lemma date_eqb_eq (a b : date) : date_eqb a b = true <-> a = b.
Proof.
  unfold date_eqb. rewrite !andb_true_iff, !Z.eqb_eq.
  destruct a, b; simpl. split.
  - intros [[-> ->] ->]. reflexivity.
  - intros H. inversion H. auto.
Qed.

Lemma NoDup_snoc (A : Type) (l : list A) (x : A) :
  NoDup l -> ~ In x l -> NoDup (l ++ [x]).
Proof.
  intros Hn Hx. apply NoDup_app; [assumption | repeat constructor; auto |].
  intros y Hy [<- | []]. contradiction.
Qed.

Lemma fila_rubro_mk (n : str) (mk : Z -> Rubro.row) :
  fila_rubro n = Some mk ->
  exists n', mk = fun id => {| Rubro.id_rubro := id; Rubro.nombrerubro := n' |}.
Proof. unfold fila_rubro. intros H. binds H. eauto. Qed.

Lemma fila_carrera_mk (n e : str) (mk : Z -> Carrera.row) :
  fila_carrera n e = Some mk ->
  exists n' e', mk = fun id => {| Carrera.id_carrera := id;
                                  Carrera.nombrecarrera := n';
                                  Carrera.escuela := e' |}.
Proof. unfold fila_carrera. intros H. binds H. eauto. Qed.

Lemma fila_estudiante_mk (n a c t : option str) (rut : str) (m : option str)
  (ai : option Z) (ne : option str) (mk : Z -> Estudiante.row) :
  fila_estudiante n a c t rut m ai ne = Some mk ->
  exists rut', (forall id, Estudiante.rut_alumno (mk id) = Some rut')
               /\ (forall id, Estudiante.id_estudiante (mk id) = id).
Proof.
  unfold fila_estudiante. intros H. binds H.
  eexists. split; intros; reflexivity.
Qed.

Lemma fila_tiempo_mk (a m t x : Z) (f : date) (mk : Z -> Tiempo.row) :
  fila_tiempo a m t x f = Some mk ->
  (forall id, Tiempo.fechacompleta (mk id) = Some f)
  /\ (forall id, Tiempo.id_tiempo (mk id) = id).
Proof.
  unfold fila_tiempo. intros H. binds H. split; intros; reflexivity.
Qed.

Lemma sin_conflicto_rubro (r : Rubro.row) (l : list Rubro.row) :
  existsb (conflicto_rubro r) l = false ->
  ~ In (Rubro.nombrerubro r) (map Rubro.nombrerubro l).
Proof.
  intros H Hin. apply in_map_iff in Hin. destruct Hin as [x [Hx Hin]].
  apply not_true_iff_false in H. apply H. apply existsb_exists.
  exists x. split; [assumption|]. unfold conflicto_rubro.
  rewrite Hx. apply eqb_refl.
Qed.

Lemma sin_conflicto_carrera (r : Carrera.row) (l : list Carrera.row) :
  existsb (conflicto_carrera r) l = false ->
  ~ In (Carrera.nombrecarrera r) (map Carrera.nombrecarrera l).
Proof.
  intros H Hin. apply in_map_iff in Hin. destruct Hin as [x [Hx Hin]].
  apply not_true_iff_false in H. apply H. apply existsb_exists.
  exists x. split; [assumption|]. unfold conflicto_carrera.
  rewrite Hx. apply eqb_refl.
Qed.

Lemma ruts_In (k : str) (l : list Estudiante.row) :
  In k (ruts l) <-> exists x, In x l /\ Estudiante.rut_alumno x = Some k.
Proof.
  unfold ruts. rewrite in_flat_map. split; intros [x [Hx H]]; exists x;
    (split; [assumption|]).
  - destruct (Estudiante.rut_alumno x); [|contradiction].
    destruct H as [-> | []]. reflexivity.
  - rewrite H. now left.
Qed.

Lemma fechas_In (k : date) (l : list Tiempo.row) :
  In k (fechas l) <-> exists x, In x l /\ Tiempo.fechacompleta x = Some k.
Proof.
  unfold fechas. rewrite in_flat_map. split; intros [x [Hx H]]; exists x;
    (split; [assumption|]).
  - destruct (Tiempo.fechacompleta x); [|contradiction].
    destruct H as [-> | []]. reflexivity.
  - rewrite H. now left.
Qed.

Lemma sin_conflicto_estudiante (r : Estudiante.row) (k : str)
  (l : list Estudiante.row) :
  Estudiante.rut_alumno r = Some k ->
  existsb (conflicto_estudiante r) l = false -> ~ In k (ruts l).
Proof.
  intros Hk H Hin. apply ruts_In in Hin. destruct Hin as [x [Hx Hin]].
  apply not_true_iff_false in H. apply H. apply existsb_exists.
  exists x. split; [assumption|]. unfold conflicto_estudiante.
  rewrite Hk, Hin. apply eqb_refl.
Qed.

Lemma sin_conflicto_tiempo (r : Tiempo.row) (k : date) (l : list Tiempo.row) :
  Tiempo.fechacompleta r = Some k ->
  existsb (conflicto_tiempo r) l = false -> ~ In k (fechas l).
Proof.
  intros Hk H Hin. apply fechas_In in Hin. destruct Hin as [x [Hx Hin]].
  apply not_true_iff_false in H. apply H. apply existsb_exists.
  exists x. split; [assumption|]. unfold conflicto_tiempo.
  rewrite Hk, Hin. simpl. now apply date_eqb_eq.
Qed.

(** The keys stay distinct through an [INSERT] with [ON CONFLICT]. *)
Lemma insert_claves (R K : Type) (keys : list R -> list K) (id_of : R -> Z)
  (t : Table R) (checked : option (Z -> R)) (conflict : R -> R -> bool)
  (fk : bool) :
  NoDup (keys (rows t)) ->
  (forall mk, checked = Some mk ->
     existsb (conflict (mk (serial t))) (rows t) = false ->
     NoDup (keys (rows t ++ [mk (serial t)]))) ->
  NoDup (keys (rows (after (insert id_of t checked conflict fk)))).
Proof.
  intros H Hn.
  destruct (insert_rows id_of t checked conflict fk)
    as [[-> _] | [mk [Hc [-> [He _]]]]]; [assumption|].
  simpl. now apply Hn.
Qed.

Section Pasos.
Variable E : Env.

Lemma execute_query_claves (q : Stmt) (st : DataLoader) :
  claves_unicas (db st) ->
  claves_unicas (db (state (execute_query E q st))).
Proof.
  intros [H1 [H2 [H3 H4]]].
  destruct (execute_query_db E q st) as [[_ [-> | ->]] | [_ ->]].
  - repeat split; assumption.
  - destruct (burnt_rows q (db st)) as [B1 [B2 [B3 [B4 _]]]].
    unfold claves_unicas. rewrite B1, B2, B3, B4. repeat split; assumption.
  - unfold claves_unicas.
    rewrite rubro_run, carrera_run, estudiante_run, tiempo_run.
    destruct q; repeat split; try assumption.
    + apply insert_claves; [assumption|]. intros mk Hmk He.
      rewrite map_app. simpl. apply NoDup_snoc; [assumption|].
      now apply sin_conflicto_rubro.
    + apply insert_claves; [assumption|]. intros mk Hmk He.
      rewrite map_app. simpl. apply NoDup_snoc; [assumption|].
      now apply sin_conflicto_carrera.
    + apply (insert_claves _ _ ruts); [assumption|]. intros mk Hmk He.
      destruct (fila_estudiante_mk _ _ _ _ _ _ _ _ _ Hmk) as [k [Hk _]].
      unfold ruts. rewrite flat_map_app. simpl. rewrite Hk, app_nil_r.
      apply NoDup_snoc; [assumption|].
      eapply sin_conflicto_estudiante; [apply Hk | exact He].
    + apply (insert_claves _ _ fechas); [assumption|]. intros mk Hmk He.
      destruct (fila_tiempo_mk _ _ _ _ _ _ Hmk) as [Hk _].
      unfold fechas. rewrite flat_map_app. simpl. rewrite Hk, app_nil_r.
      apply NoDup_snoc; [assumption|].
      eapply sin_conflicto_tiempo; [apply Hk | exact He].
Qed.

Lemma execute_query_conserva (q : Stmt) (st : DataLoader) :
  conserva (db st) (db (state (execute_query E q st))).
Proof.
  destruct (execute_query_db E q st) as [[_ [-> | ->]] | [_ ->]].
  - repeat split; apply prefijo_refl.
  - destruct (burnt_rows q (db st)) as [B1 [B2 [B3 [B4 _]]]].
    unfold conserva. rewrite B1, B2, B3, B4. repeat split; apply prefijo_refl.
  - unfold conserva.
    rewrite rubro_run, carrera_run, estudiante_run, tiempo_run.
    destruct q; repeat split;
      first [apply prefijo_refl | apply insert_prefijo].
Qed.

Lemma execute_query_frescos (q : Stmt) (st : DataLoader) :
  seriales_frescos (db st) ->
  seriales_frescos (db (state (execute_query E q st))).
Proof.
  intros [H1 [H2 [H3 H4]]].
  destruct (execute_query_db E q st) as [[_ [-> | ->]] | [_ ->]].
  - repeat split; assumption.
  - destruct (burnt_rows q (db st)) as [B1 [B2 [B3 [B4 _]]]].
    destruct (burnt_serial q (db st)) as [S1 [S2 [S3 [S4 _]]]].
    unfold seriales_frescos. rewrite B1, B2, B3, B4.
    repeat split; (eapply Forall_impl; [|eassumption]); simpl; intros; lia.
  - unfold seriales_frescos.
    rewrite rubro_run, carrera_run, estudiante_run, tiempo_run.
    destruct q; repeat split; try assumption.
    + apply insert_fresco; [assumption|]. intros mk id Hmk.
      destruct (fila_rubro_mk _ _ Hmk) as [n' ->]. reflexivity.
    + apply insert_fresco; [assumption|]. intros mk id Hmk.
      destruct (fila_carrera_mk _ _ _ Hmk) as [n' [e' ->]]. reflexivity.
    + apply insert_fresco; [assumption|]. intros mk id Hmk.
      destruct (fila_estudiante_mk _ _ _ _ _ _ _ _ _ Hmk) as [k [_ Hk]].
      apply Hk.
    + apply insert_fresco; [assumption|]. intros mk id Hmk.
      destruct (fila_tiempo_mk _ _ _ _ _ _ Hmk) as [_ Hk]. apply Hk.
Qed.

End Pasos.

(** ** Statements whose key is in the table *)

Section Presencia.
Variable E : Env.

Lemma execute_query_accept (q : Stmt) (st : DataLoader) :
  verdict E (clock st) = Accept ->
  db (state (execute_query E q st)) = after (run q (db st)).
Proof.
  intros H. unfold execute_query. rewrite H.
  destruct (run q (db st)); reflexivity.
Qed.

Lemma conserva_refl (s : Store) : conserva s s.
Proof. repeat split; apply prefijo_refl. Qed.

Lemma conserva_trans (s1 s2 s3 : Store) :
  conserva s1 s2 -> conserva s2 s3 -> conserva s1 s3.
Proof.
  intros [A1 [A2 [A3 A4]]] [B1 [B2 [B3 B4]]].
  repeat split; eapply prefijo_trans; eassumption.
Qed.

Lemma existsb_prefijo (A : Type) (f : A -> bool) (l l' : list A) :
  prefijo l l' -> existsb f l = true -> existsb f l' = true.
Proof. intros [r ->] H. rewrite existsb_app, H. reflexivity. Qed.

(** Once in the table, always in the table. *)
Lemma presente_conserva (s s' : Store) (q : Stmt) :
  conserva s s' -> presente s q -> presente s' q.
Proof.
  intros [A1 [A2 [A3 A4]]]. destruct q; simpl; auto;
    intros H mk id Hmk; eapply existsb_prefijo; eauto.
Qed.

(** An accepted statement on a dimension leaves its key in the table. *)
Lemma execute_query_presente (q : Stmt) (st : DataLoader) :
  verdict E (clock st) = Accept -> seriales_frescos (db st) ->
  presente (db (state (execute_query E q st))) q.
Proof.
  intros Hv [F1 [F2 [F3 F4]]]. rewrite (execute_query_accept _ _ Hv).
  destruct q; try exact I; intros mk id Hmk.
  - rewrite rubro_run. apply insert_presente; auto.
    + destruct (fila_rubro_mk _ _ Hmk) as [n' ->]. reflexivity.
    + destruct (fila_rubro_mk _ _ Hmk) as [n' ->]. intros a b.
      apply eqb_refl.
  - rewrite carrera_run. apply insert_presente; auto.
    + destruct (fila_carrera_mk _ _ _ Hmk) as [n' [e' ->]]. reflexivity.
    + destruct (fila_carrera_mk _ _ _ Hmk) as [n' [e' ->]]. intros a b.
      apply eqb_refl.
  - rewrite estudiante_run. apply insert_presente; auto.
    + destruct (fila_estudiante_mk _ _ _ _ _ _ _ _ _ Hmk) as [k [Hk _]].
      intros a b x. unfold conflicto_estudiante. now rewrite !Hk.
    + destruct (fila_estudiante_mk _ _ _ _ _ _ _ _ _ Hmk) as [k [Hk _]].
      intros a b. unfold conflicto_estudiante. rewrite !Hk. apply eqb_refl.
  - rewrite tiempo_run. apply insert_presente; auto.
    + destruct (fila_tiempo_mk _ _ _ _ _ _ Hmk) as [Hk _].
      intros a b x. unfold conflicto_tiempo. now rewrite !Hk.
    + destruct (fila_tiempo_mk _ _ _ _ _ _ Hmk) as [Hk _].
      intros a b. unfold conflicto_tiempo. rewrite !Hk. simpl.
      now apply date_eqb_eq.
Qed.

(** A statement whose key is in the table changes no row of the four
    dimensions, whatever the server answers: a conflicting insert is
    ignored. *)
Lemma execute_query_sin_efecto (q : Stmt) (st : DataLoader) :
  presente (db st) q ->
  dimensiones (db (state (execute_query E q st))) = dimensiones (db st).
Proof.
  intros Hp. unfold dimensiones.
  destruct (execute_query_db E q st) as [[_ [-> | ->]] | [_ ->]].
  - reflexivity.
  - destruct (burnt_rows q (db st)) as [B1 [B2 [B3 [B4 _]]]].
    now rewrite B1, B2, B3, B4.
  - rewrite rubro_run, carrera_run, estudiante_run, tiempo_run.
    destruct q; simpl in Hp; try reflexivity;
      rewrite insert_sin_efecto; auto.
Qed.

Lemma traza_app (st : DataLoader) (tr1 : list Stmt) (st1 : DataLoader)
  (tr2 : list Stmt) (st2 : DataLoader) :
  Traza E st tr1 st1 -> Traza E st1 tr2 st2 -> Traza E st (tr1 ++ tr2) st2.
Proof.
  induction 1; simpl; intros H2.
  - assumption.
  - apply traza_query. auto.
  - eapply traza_silencio; eauto.
Qed.

Lemma traza_conserva (st : DataLoader) (tr : list Stmt) (st' : DataLoader) :
  Traza E st tr st' -> conserva (db st) (db st').
Proof.
  induction 1.
  - apply conserva_refl.
  - eapply conserva_trans; [apply execute_query_conserva | eassumption].
  - now rewrite <- H.
Qed.

Lemma traza_claves (st : DataLoader) (tr : list Stmt) (st' : DataLoader) :
  Traza E st tr st' -> claves_unicas (db st) -> claves_unicas (db st').
Proof.
  induction 1; intros Hc.
  - assumption.
  - apply IHTraza. now apply execute_query_claves.
  - apply IHTraza. now rewrite H.
Qed.

Lemma traza_frescos (st : DataLoader) (tr : list Stmt) (st' : DataLoader) :
  Traza E st tr st' -> seriales_frescos (db st) -> seriales_frescos (db st').
Proof.
  induction 1; intros Hc.
  - assumption.
  - apply IHTraza. now apply execute_query_frescos.
  - apply IHTraza. now rewrite H.
Qed.

(** When the server accepts every statement, the key of every statement
    sent is in its table at the end. *)
Lemma traza_presente (st : DataLoader) (tr : list Stmt) (st' : DataLoader) :
  Traza E st tr st' -> (forall n, verdict E n = Accept) ->
  seriales_frescos (db st) -> Forall (presente (db st')) tr.
Proof.
  induction 1; intros Hv Hf.
  - constructor.
  - constructor.
    + eapply presente_conserva; [eapply traza_conserva; eassumption|].
      now apply execute_query_presente.
    + apply IHTraza; [assumption|]. now apply execute_query_frescos.
  - apply IHTraza; [assumption|]. now rewrite H.
Qed.

(** Statements whose keys are all in the tables change no row of the four
    dimensions. *)
Lemma traza_sin_efecto (st : DataLoader) (tr : list Stmt) (st' : DataLoader) :
  Traza E st tr st' -> Forall (presente (db st)) tr ->
  dimensiones (db st') = dimensiones (db st).
Proof.
  induction 1; intros Hp.
  - reflexivity.
  - inversion Hp as [|? ? Hq Htr]; subst.
    rewrite IHTraza.
    + now apply execute_query_sin_efecto.
    + eapply Forall_impl; [|exact Htr]. intros x.
      apply presente_conserva, execute_query_conserva.
  - rewrite IHTraza; [now rewrite H|]. now rewrite H.
Qed.

End Presencia.

(** ** The statements of the dimension loaders *)

Section TrazasCarga.
Variable E : Env.

Lemma traza_logged (e : Evento) (st : DataLoader) :
  Traza E st [] (logged e st).
Proof.
  apply traza_silencio with (st2 := logged e st); try reflexivity.
  apply traza_fin.
Qed.

Lemma traza_fold (A : Type) (f : A -> Stmt) (l : list A) (st : DataLoader) :
  Traza E st (map f l)
    (fold_left (fun st x => state (execute_query E (f x) st)) l st).
Proof.
  revert st. induction l as [|x r IH]; intros st; simpl.
  - apply traza_fin.
  - apply traza_query, IH.
Qed.

Lemma traza_extraer (files : Files) (st : DataLoader) :
  Traza E st [] (extraer_comentarios_reales E files st).
Proof.
  unfold extraer_comentarios_reales.
  destruct (alumn_pract_eva_jef files); try apply traza_logged.
  eapply traza_silencio; [| |apply traza_fin]; reflexivity.
Qed.

Lemma traza_load_rubro (files : Files) (st : DataLoader) :
  Traza E st
    match ALUMN_PRACT files with
    | Leido df => map (insert_rubro E) (rubros_de E df)
    | _ => []
    end
    (_load_rubro E files st).
Proof.
  unfold _load_rubro. destruct (ALUMN_PRACT files); try apply traza_logged.
  apply traza_fold.
Qed.

Lemma traza_load_carrera (st : DataLoader) :
  Traza E st (map insert_carrera carreras_oficiales) (_load_carrera E st).
Proof. apply traza_fold. Qed.

Lemma traza_load_estudiante (files : Files) (st : DataLoader) :
  Traza E st
    match ALUMN_PRACT files with
    | Leido df =>
      map (insert_estudiante E)
        (filter (fun row => notna (get row (col "rut_alum"))) (iterrows df))
    | _ => []
    end
    (_load_estudiante E files st).
Proof.
  unfold _load_estudiante.
  destruct (ALUMN_PRACT files); try apply traza_logged.
  generalize (iterrows df). intros l. revert st.
  induction l as [|row r IH]; intros st.
  - apply traza_fin.
  - cbn [fold_left filter].
    replace (estudiante_paso E st row)
      with (if notna (get row (col "rut_alum"))
            then state (execute_query E (insert_estudiante E row) st)
            else st) by reflexivity.
    destruct (notna (get row (col "rut_alum"))).
    + cbn [map]. apply traza_query, IH.
    + apply IH.
Qed.

Lemma traza_load_tiempo (files : Files) (st : DataLoader) :
  Traza E st
    match ALUMN_PRACT files with
    | Leido df => map insert_tiempo (fechas_unicas E df)
    | _ => []
    end
    (_load_tiempo E files st).
Proof.
  unfold _load_tiempo. destruct (ALUMN_PRACT files); try apply traza_logged.
  apply traza_fold.
Qed.

Lemma traza_load_empresa (files : Files) (st : DataLoader) :
  exists tr, Traza E st tr (_load_empresa E files st)
             /\ Forall (fun q => dimensional q = false) tr.
Proof.
  unfold _load_empresa.
  destruct (ALUMN_PRACT files);
    try (exists []; split; [apply traza_logged | constructor]).
  generalize (iterrows df). intros l.
  generalize (@nil str). revert st.
  induction l as [|row r IH]; intros st vistos.
  - exists []. split; [apply traza_fin | constructor].
  - cbn [fold_left]. unfold empresa_paso at 2.
    destruct (notna (get row (col "nomb_empr_prac"))); [|apply IH].
    destruct (mem _ vistos); [apply IH|].
    match goal with
    | |- context [fold_left _ r (state (execute_query E ?q st), ?v)] =>
      destruct (IH (state (execute_query E q st)) v) as [tr [Ht Hd]];
      exists (q :: tr)
    end.
    split; [now apply traza_query | constructor; [reflexivity | assumption]].
Qed.

Lemma traza_load_practica (files : Files) (st : DataLoader) :
  exists tr, Traza E st tr (_load_practica E files st)
             /\ Forall (fun q => dimensional q = false) tr.
Proof.
  unfold _load_practica.
  destruct (ALUMN_PRACT files);
    try (exists []; split; [apply traza_logged | constructor]).
  generalize (iterrows df). intros l. revert st.
  induction l as [|row r IH]; intros st.
  - exists []. split; [apply traza_fin | constructor].
  - cbn [fold_left]. unfold practica_paso at 2.
    match goal with
    | |- context [fold_left _ r (state (execute_query E ?q st))] =>
      destruct (IH (state (execute_query E q st))) as [tr [Ht Hd]];
      exists (q :: tr)
    end.
    split; [now apply traza_query | constructor; [reflexivity | assumption]].
Qed.

(** [load_dimension_tables] sends the statements of [sentencias] and, on
    the four dimensions, no other. *)
Lemma traza_load_dimension_tables (files : Files) (st : DataLoader) :
  exists tr,
    Traza E st tr (load_dimension_tables E files st)
    /\ (forall q, In q (sentencias E files) -> In q tr)
    /\ (forall q, In q tr -> dimensional q = true ->
          In q (sentencias E files)).
Proof.
  unfold load_dimension_tables.
  remember (match df_comentarios st with
            | Some _ => st
            | None => extraer_comentarios_reales E files st
            end) as st0 eqn:E0.
  assert (H0 : Traza E st [] st0).
  { subst st0. destruct (df_comentarios st);
      [apply traza_fin | apply traza_extraer]. }
  clear E0.
  pose proof (traza_load_rubro files st0) as H1.
  remember (_load_rubro E files st0) as st1 eqn:E1. clear E1.
  destruct (traza_load_empresa files st1) as [te [H2 He]].
  remember (_load_empresa E files st1) as st2 eqn:E2. clear E2.
  pose proof (traza_load_carrera st2) as H3.
  remember (_load_carrera E st2) as st3 eqn:E3. clear E3.
  pose proof (traza_load_estudiante files st3) as H4.
  remember (_load_estudiante E files st3) as st4 eqn:E4. clear E4.
  pose proof (traza_load_tiempo files st4) as H5.
  remember (_load_tiempo E files st4) as st5 eqn:E5. clear E5.
  destruct (traza_load_practica files st5) as [tp [H6 Hp]].
  remember (_load_practica E files st5) as st6 eqn:E6. clear E6.
  assert (Hne : forall q, dimensional q = true -> ~ In q te /\ ~ In q tp).
  { rewrite Forall_forall in He, Hp. intros q Hd. split; intros Hx;
      [rewrite (He _ Hx) in Hd | rewrite (Hp _ Hx) in Hd]; discriminate. }
  clear He Hp. unfold sentencias.
  revert H3. generalize (map insert_carrera carreras_oficiales). intros t2 H3.
  destruct (ALUMN_PRACT files).
  - exists ([] ++ [] ++ te ++ t2 ++ [] ++ [] ++ tp). split.
    + repeat (eapply traza_app; [eassumption|]). assumption.
    + split; intros q Hq; [|intros Hd; destruct (Hne q Hd)];
        repeat rewrite in_app_iff in *; simpl In in *; tauto.
  - exists ([] ++ [] ++ te ++ t2 ++ [] ++ [] ++ tp). split.
    + repeat (eapply traza_app; [eassumption|]). assumption.
    + split; intros q Hq; [|intros Hd; destruct (Hne q Hd)];
        repeat rewrite in_app_iff in *; simpl In in *; tauto.
  - revert H1 H4 H5.
    generalize (map (insert_rubro E) (rubros_de E df)).
    generalize (map (insert_estudiante E)
                  (filter (fun row => notna (get row (col "rut_alum")))
                     (iterrows df))).
    generalize (map insert_tiempo (fechas_unicas E df)).
    intros t4 t3 t1 H1 H4 H5.
    exists ([] ++ t1 ++ te ++ t2 ++ t3 ++ t4 ++ tp). split.
    + repeat (eapply traza_app; [eassumption|]). assumption.
    + split; intros q Hq; [|intros Hd; destruct (Hne q Hd)];
        repeat rewrite in_app_iff in *; simpl In in *; tauto.
Qed.

End TrazasCarga.

(** ** Idempotence of the dimension load *)

(** An accepted insert whose key is in the table is ignored in silence:
    [execute_query] returns [True], logs nothing and returns no key. *)
Lemma conflicto_ignorado (E : Env) (q : Stmt) (st : DataLoader) :
  dimensional q = true -> valores_aceptados q = true ->
  presente (db st) q -> verdict E (clock st) = Accept ->
  success (execute_query E q st) = true
  /\ fetchone (execute_query E q st) = None
  /\ log (state (execute_query E q st)) = log st.
Proof.
  intros Hd Ha Hp Hv. unfold execute_query. rewrite Hv.
  destruct q; try discriminate; simpl in Ha; simpl run.
  - destruct (fila_rubro nombrerubro) as [mk|] eqn:Hf; [|discriminate].
    rewrite (insert_conflict _ _ _ _ _ mk eq_refl (Hp mk _ Hf)).
    repeat split.
  - destruct (fila_carrera nombrecarrera escuela) as [mk|] eqn:Hf;
      [|discriminate].
    rewrite (insert_conflict _ _ _ _ _ mk eq_refl (Hp mk _ Hf)).
    repeat split.
  - destruct (fila_estudiante nombre apellido correo telefono rut_alumno
                matricula anoingreso nivelestudio) as [mk|] eqn:Hf;
      [|discriminate].
    rewrite (insert_conflict _ _ _ _ _ mk eq_refl (Hp mk _ Hf)).
    repeat split.
  - destruct (fila_tiempo anno mes trimestre semestre fechacompleta)
      as [mk|] eqn:Hf; [|discriminate].
    rewrite (insert_conflict _ _ _ _ _ mk eq_refl (Hp mk _ Hf)).
    repeat split.
Qed.

Lemma presente_otro (s : Store) (q : Stmt) :
  dimensional q = false -> presente s q.
Proof. destruct q; intros H; try discriminate; exact I. Qed.

(** C4.  From tables in which no two rows of Rubro, Carrera, Estudiante or
    Tiempo share a natural key, a dimension load and a second one over the
    same snapshot, with no wipe between them, leave tables with that
    property; the rows of these four tables that the first pass leaves stand
    unchanged after the second.  An insert whose key is in its table changes
    no row of the four tables, and when its values are accepted and the
    server runs it, it is ignored in silence.  When the sequences are ahead
    of the keys and the server accepts every statement, the second pass
    changes nothing in the four tables. *)
Theorem C4_carga_idempotente (E : Env) (files : Files) (st : DataLoader) :
  claves_unicas (db st) ->
  claves_unicas (db (load_dimension_tables E files st))
  /\ claves_unicas
       (db (load_dimension_tables E files
              (load_dimension_tables E files st)))
  /\ conserva (db st) (db (load_dimension_tables E files st))
  /\ conserva (db (load_dimension_tables E files st))
       (db (load_dimension_tables E files
              (load_dimension_tables E files st)))
  /\ (forall q st0, presente (db st0) q ->
        dimensiones (db (state (execute_query E q st0)))
        = dimensiones (db st0))
  /\ (forall q st0,
        dimensional q = true -> valores_aceptados q = true ->
        presente (db st0) q -> verdict E (clock st0) = Accept ->
        success (execute_query E q st0) = true
        /\ fetchone (execute_query E q st0) = None
        /\ log (state (execute_query E q st0)) = log st0)
  /\ (seriales_frescos (db st) -> (forall n, verdict E n = Accept) ->
      dimensiones (db (load_dimension_tables E files
                         (load_dimension_tables E files st)))
      = dimensiones (db (load_dimension_tables E files st))).
Proof.
  intros Hc.
  destruct (traza_load_dimension_tables E files st) as [tr1 [T1 [S1 D1]]].
  destruct (traza_load_dimension_tables E files
              (load_dimension_tables E files st)) as [tr2 [T2 [S2 D2]]].
  pose proof (traza_claves _ _ _ _ T1 Hc) as Hc1.
  split; [exact Hc1|].
  split; [exact (traza_claves _ _ _ _ T2 Hc1)|].
  split; [exact (traza_conserva _ _ _ _ T1)|].
  split; [exact (traza_conserva _ _ _ _ T2)|].
  split; [intros q st0; apply execute_query_sin_efecto|].
  split; [intros q st0; apply conflicto_ignorado|].
  intros Hf Hv. apply (traza_sin_efecto _ _ _ _ T2).
  pose proof (traza_presente _ _ _ _ T1 Hv Hf) as Hp.
  rewrite Forall_forall in Hp. apply Forall_forall. intros q Hq.
  destruct (dimensional q) eqn:Hd.
  - apply Hp, S1, D2; assumption.
  - now apply presente_otro.
Qed.

Lemma tablas_creadas_claves : claves_unicas tablas_creadas.
Proof. repeat split; constructor. Qed.

Lemma tablas_creadas_frescas : seriales_frescos tablas_creadas.
Proof. repeat split; constructor. Qed.

(** C4 at the snapshot [archivos], from the tables that [create_tables]
    leaves. *)
Lemma C4_archivos :
  claves_unicas
    (db (load_dimension_tables E0 archivos
           (load_dimension_tables E0 archivos
              (DataLoader_init tablas_creadas))))
  /\ dimensiones
       (db (load_dimension_tables E0 archivos
              (load_dimension_tables E0 archivos
                 (DataLoader_init tablas_creadas))))
     = dimensiones
         (db (load_dimension_tables E0 archivos
                (DataLoader_init tablas_creadas))).
Proof.
  destruct (C4_carga_idempotente E0 archivos (DataLoader_init tablas_creadas)
              tablas_creadas_claves) as [_ [H2 [_ [_ [_ [_ H7]]]]]].
  split; [exact H2|].
  apply H7; [exact tablas_creadas_frescas | intros n; reflexivity].
Defined.

(** ** The fact loader *)

Lemma nullable_integer (o o' : option Z) :
  nullable integer o = Some o' -> o' = o.
Proof.
  destruct o as [z|]; simpl.
  - destruct (integer z) as [z'|] eqn:Hz; simpl; intros H; inversion H.
    apply integer_Some in Hz. now subst.
  - intros H. now inversion H.
Qed.

Lemma fila_hechos_mk (es pr em ti ev ro : option Z) (mk : Z -> Hechos.row) :
  fila_hechos es pr em ti ev ro = Some mk ->
  mk = fun id => {| Hechos.id_hechos := id; Hechos.id_estudiante := es;
                    Hechos.id_practica := pr; Hechos.id_empresa := em;
                    Hechos.id_tiempo := ti;
                    Hechos.id_evaluacionempresa := ev;
                    Hechos.id_rotacionempresa := ro |}.
Proof.
  unfold fila_hechos. intros H.
  repeat (let a := fresh "a" in
          let Ha := fresh "Ha" in
          apply bind_Some in H; destruct H as [a [Ha H]];
          apply nullable_integer in Ha; subst a).
  now inversion H.
Qed.

Lemma truthy_Some (k : option Z) : truthy k = true -> exists z, k = Some z.
Proof. destruct k; [eauto | discriminate]. Qed.

Section Hechos.
Variable E : Env.

(** A statement adds at most one row to [hechos], and only an accepted
    [INSERT_hechos] whose evaluation key is the key of a row does. *)
Lemma execute_query_hechos (q : Stmt) (st : DataLoader) :
  rows (hechos (db (state (execute_query E q st)))) = rows (hechos (db st))
  \/ exists es pr em ti ev ro,
       q = INSERT_hechos es pr em ti ev ro
       /\ rows (hechos (db (state (execute_query E q st))))
          = rows (hechos (db st))
              ++ [{| Hechos.id_hechos := serial (hechos (db st));
                     Hechos.id_estudiante := es; Hechos.id_practica := pr;
                     Hechos.id_empresa := em; Hechos.id_tiempo := ti;
                     Hechos.id_evaluacionempresa := ev;
                     Hechos.id_rotacionempresa := ro |}]
       /\ references Evaluacion.id_evaluacionempresa
            (evaluacion_empresa (db st)) ev = true.
Proof.
  destruct (execute_query_db E q st) as [[_ [-> | ->]] | [_ ->]].
  - now left.
  - left. apply burnt_rows.
  - rewrite hechos_run. destruct q; try (now left).
    match goal with
    | |- context [insert ?i ?t ?c ?k ?f] =>
      destruct (insert_rows i t c k f)
        as [[-> _] | [mk [Hmk [-> [_ [_ Hfk]]]]]]
    end; [now left|].
    right. do 6 eexists. split; [reflexivity|].
    apply fila_hechos_mk in Hmk. subst mk. split; [reflexivity|].
    repeat (apply andb_true_iff in Hfk; destruct Hfk as [Hfk ?]).
    assumption.
Qed.

(** The row at [index] when its [rut_alum] is missing: nothing happens. *)
Lemma hechos_paso_sin_rut (st : DataLoader) (index : nat) (row : fila) :
  rut_presente row = false -> hechos_paso E st (index, row) = st.
Proof. unfold rut_presente, hechos_paso. now intros ->. Qed.

Lemma hechos_paso_con_rut (st : DataLoader) (index : nat) (row : fila) :
  rut_presente row = true ->
  hechos_paso E st (index, row)
  = let r := execute_query E (insert_evaluacion st index) st in
    if claves_resueltas E st index row
    then state (execute_query E
                  (INSERT_hechos (clave_estudiante E st row)
                     (clave_practica st index)
                     (if notna (get row (col "nomb_empr_prac"))
                      then _get_id_empresa_por_nombre (db st)
                             (strip (ucd E)
                                (cell_str (get row (col "nomb_empr_prac"))))
                      else None)
                     (_get_id_tiempo_por_fecha (db st)
                        (_parse_fecha E (get row (col "fech_ini_prac"))))
                     (clave_evaluacion E st index) (Some 1%Z))
                  (state r))
    else logged (WARNING_hecho index) (state r).
Proof. unfold rut_presente, hechos_paso. intros ->. reflexivity. Qed.

Lemma execute_query_hechos_otro (q : Stmt) (st : DataLoader) :
  (forall es pr em ti ev ro, q <> INSERT_hechos es pr em ti ev ro) ->
  rows (hechos (db (state (execute_query E q st)))) = rows (hechos (db st)).
Proof.
  intros Hq. destruct (execute_query_hechos q st)
    as [H | [es [pr [em [ti [ev [ro [H _]]]]]]]]; [assumption|].
  exfalso. eapply Hq, H.
Qed.

(** The row at [index] when a key is not resolved: no fact row and one
    warning. *)
Lemma hechos_paso_sin_claves (st : DataLoader) (index : nat) (row : fila) :
  rut_presente row = true -> claves_resueltas E st index row = false ->
  rows (hechos (db (hechos_paso E st (index, row)))) = rows (hechos (db st))
  /\ advertencias (hechos_paso E st (index, row))
     = WARNING_hecho index :: advertencias st.
Proof.
  intros Hr Hk. rewrite (hechos_paso_con_rut _ _ _ Hr). cbv zeta.
  rewrite Hk. unfold advertencias. simpl.
  rewrite execute_query_warnings. split; [|reflexivity].
  apply execute_query_hechos_otro. discriminate.
Qed.

(** The row at [index] when the three keys are resolved: no warning, and
    at most one fact row, with these keys. *)
Lemma hechos_paso_con_claves (st : DataLoader) (index : nat) (row : fila) :
  rut_presente row = true -> claves_resueltas E st index row = true ->
  advertencias (hechos_paso E st (index, row)) = advertencias st
  /\ (rows (hechos (db (hechos_paso E st (index, row))))
      = rows (hechos (db st))
      \/ exists h,
           rows (hechos (db (hechos_paso E st (index, row))))
           = rows (hechos (db st)) ++ [h]
           /\ Hechos.id_estudiante h = clave_estudiante E st row
           /\ Hechos.id_practica h = clave_practica st index
           /\ Hechos.id_evaluacionempresa h = clave_evaluacion E st index
           /\ con_claves h).
Proof.
  intros Hr Hk. rewrite (hechos_paso_con_rut _ _ _ Hr). cbv zeta.
  rewrite Hk. unfold advertencias. rewrite !execute_query_warnings.
  split; [reflexivity|].
  assert (H0 : rows (hechos (db (state (execute_query E
                                          (insert_evaluacion st index) st))))
               = rows (hechos (db st))).
  { apply execute_query_hechos_otro. discriminate. }
  match goal with
  | |- context [execute_query E ?q ?s] =>
    lazymatch q with
    | INSERT_hechos _ _ _ _ _ _ =>
      destruct (execute_query_hechos q s)
        as [H | [es [pr [em [ti [ev [ro [Hq [H _]]]]]]]]]
    end
  end.
  - left. now rewrite H.
  - right. inversion Hq; subst. rewrite H, H0. eexists.
    split; [reflexivity|]. simpl. repeat split.
    unfold claves_resueltas in Hk.
    apply andb_true_iff in Hk. destruct Hk as [Hk H3].
    apply andb_true_iff in Hk. destruct Hk as [H1 H2].
    apply truthy_Some in H1, H2, H3.
    destruct H1 as [a H1], H2 as [b H2], H3 as [c H3].
    exists a, b, c. simpl. auto.
Qed.

End Hechos.

Lemma enumerate_desde_cons (A : Type) (k : nat) (x : A) (l : list A) :
  enumerate_desde k (x :: l) = (k, x) :: enumerate_desde (S k) l.
Proof. reflexivity. Qed.

Lemma enumerate_desde_app (A : Type) (l1 l2 : list A) (k : nat) :
  enumerate_desde k (l1 ++ l2)
  = enumerate_desde k l1 ++ enumerate_desde (k + length l1) l2.
Proof.
  revert k. induction l1 as [|x r IH]; intros k.
  - simpl. now rewrite Nat.add_0_r.
  - simpl app. rewrite !enumerate_desde_cons, IH. simpl.
    now rewrite Nat.add_succ_r.
Qed.

Section Lote.
Variable E : Env.

(** The loop of [_load_hechos] over the rows [l], labelled from [k]: the
    fact rows it adds have their three keys, and each warning it logs
    carries the label of a row with [rut_alum]. *)
Lemma hechos_bucle (l : list fila) :
  forall (k : nat) (st : DataLoader),
    (exists nuevos,
       rows (hechos (db (fold_left (hechos_paso E) (enumerate_desde k l) st)))
       = rows (hechos (db st)) ++ nuevos
       /\ Forall con_claves nuevos)
    /\ (exists indices,
          advertencias (fold_left (hechos_paso E) (enumerate_desde k l) st)
          = map WARNING_hecho indices ++ advertencias st
          /\ Forall (fun i => exists row,
                         k <= i /\ nth_error l (i - k) = Some row
                         /\ rut_presente row = true) indices).
Proof.
  induction l as [|row r IH]; intros k st.
  - split; [exists [] | exists []]; split; try constructor.
    simpl. now rewrite app_nil_r.
  - rewrite enumerate_desde_cons. cbn [fold_left].
    destruct (IH (S k) (hechos_paso E st (k, row)))
      as [[nuevos [Hn Hc]] [indices [Ha Hi]]].
    assert (Hi' : Forall (fun i => exists row0,
                              k <= i /\ nth_error (row :: r) (i - k) = Some row0
                              /\ rut_presente row0 = true) indices).
    { eapply Forall_impl; [|exact Hi]. intros i [row0 [H1 [H2 H3]]].
      exists row0. split; [lia|]. split; [|assumption].
      replace (i - k) with (S (i - S k)) by lia. exact H2. }
    destruct (rut_presente row) eqn:Hr.
    + destruct (claves_resueltas E st k row) eqn:Hk.
      * destruct (hechos_paso_con_claves E st k row Hr Hk)
          as [Hw [Hh | [h [Hh [_ [_ [_ Hcc]]]]]]].
        -- split.
           ++ exists nuevos. rewrite Hn, Hh. auto.
           ++ exists indices. rewrite Ha, Hw. auto.
        -- split.
           ++ exists (h :: nuevos). rewrite Hn, Hh, <- app_assoc. auto.
           ++ exists indices. rewrite Ha, Hw. auto.
      * destruct (hechos_paso_sin_claves E st k row Hr Hk) as [Hh Hw].
        split.
        -- exists nuevos. rewrite Hn, Hh. auto.
        -- exists (indices ++ [k]). rewrite Ha, Hw, map_app, <- app_assoc.
           split; [reflexivity|]. apply Forall_app. split; [assumption|].
           constructor; [|constructor]. exists row.
           rewrite Nat.sub_diag. auto.
    + rewrite (hechos_paso_sin_rut E st k row Hr) in *.
      split; [exists nuevos | exists indices]; auto.
Qed.

(** Every row goes through the loop, on the state that the rows before it
    left. *)
Lemma hechos_bucle_sigue (l1 : list fila) (row : fila) (l2 : list fila)
  (st : DataLoader) :
  fold_left (hechos_paso E) (enumerate (l1 ++ row :: l2)) st
  = fold_left (hechos_paso E) (enumerate_desde (S (length l1)) l2)
      (hechos_paso E (fold_left (hechos_paso E) (enumerate l1) st)
         (length l1, row)).
Proof.
  unfold enumerate. rewrite enumerate_desde_app, fold_left_app.
  rewrite enumerate_desde_cons. reflexivity.
Qed.

End Lote.

(** C1, counterexample.  The snapshot holds one record, without
    [rut_alum]: the load leaves no fact row and logs no warning. *)
Lemma C1_sin_rut_sin_advertencia :
  map rut_presente
    (match ALUMN_PRACT archivos_sin_rut with
     | Leido df => iterrows df
     | _ => []
     end) = [false]
  /\ rows (hechos (db (main E0 archivos_sin_rut))) = []
  /\ advertencias (main E0 archivos_sin_rut) = []
  /\ length (advertencias (main E0 archivos_sin_rut)) <> 1.
Proof.
  repeat split; try (vm_compute; reflexivity).
  vm_compute. discriminate.
Qed.

(** C1, amended.  For a snapshot that is read: every fact row that
    [_load_hechos] adds has a Person, a Practice and an Evaluation key that
    are not null; each warning it logs is for a record that has [rut_alum];
    every record goes through the loop on the state that the records before
    it left, whatever happened to them.  A record without [rut_alum] is
    skipped in silence: the state does not change (no fact row, no
    evaluation row, no warning).  A record with [rut_alum] for which one of
    the three keys is null or zero adds no fact row and logs one warning.  A
    record with [rut_alum] and the three keys logs no warning and adds at
    most one fact row, with these keys. *)
Theorem C1_carga_de_hechos (E : Env) (files : Files) (df : Frame)
  (st : DataLoader) :
  ALUMN_PRACT files = Leido df ->
  (exists nuevos,
     rows (hechos (db (_load_hechos E files st)))
     = rows (hechos (db st)) ++ nuevos
     /\ Forall con_claves nuevos)
  /\ (exists indices,
        advertencias (_load_hechos E files st)
        = map WARNING_hecho indices ++ advertencias st
        /\ Forall (fun i => exists row,
                       nth_error (iterrows df) i = Some row
                       /\ rut_presente row = true) indices)
  /\ (forall l1 row l2,
        iterrows df = l1 ++ row :: l2 ->
        _load_hechos E files st
        = fold_left (hechos_paso E) (enumerate_desde (S (length l1)) l2)
            (hechos_paso E (fold_left (hechos_paso E) (enumerate l1) st)
               (length l1, row)))
  /\ (forall st0 index row,
        rut_presente row = false -> hechos_paso E st0 (index, row) = st0)
  /\ (forall st0 index row,
        rut_presente row = true -> claves_resueltas E st0 index row = false ->
        rows (hechos (db (hechos_paso E st0 (index, row))))
        = rows (hechos (db st0))
        /\ advertencias (hechos_paso E st0 (index, row))
           = WARNING_hecho index :: advertencias st0)
  /\ (forall st0 index row,
        rut_presente row = true -> claves_resueltas E st0 index row = true ->
        advertencias (hechos_paso E st0 (index, row)) = advertencias st0
        /\ (rows (hechos (db (hechos_paso E st0 (index, row))))
            = rows (hechos (db st0))
            \/ exists h,
                 rows (hechos (db (hechos_paso E st0 (index, row))))
                 = rows (hechos (db st0)) ++ [h]
                 /\ Hechos.id_estudiante h = clave_estudiante E st0 row
                 /\ Hechos.id_practica h = clave_practica st0 index
                 /\ Hechos.id_evaluacionempresa h
                    = clave_evaluacion E st0 index
                 /\ con_claves h)).
Proof.
  intros Hf. unfold _load_hechos. rewrite Hf.
  destruct (hechos_bucle E (iterrows df) 0 st) as [Hn [indices [Ha Hi]]].
  split; [exact Hn|].
  split.
  { exists indices. split; [exact Ha|].
    eapply Forall_impl; [|exact Hi]. intros i [row [_ [H1 H2]]].
    exists row. rewrite Nat.sub_0_r in H1. auto. }
  split.
  { intros l1 row l2 Hl. rewrite Hl. apply hechos_bucle_sigue. }
  split; [apply hechos_paso_sin_rut|].
  split; [apply hechos_paso_sin_claves | apply hechos_paso_con_claves].
Qed.

(** C1 at the snapshot [archivos]: one fact row, for the first record, and
    one warning, for the third. *)
Lemma C1_archivos :
  (exists nuevos,
     rows (hechos (db (_load_hechos E0 archivos
                         (load_dimension_tables E0 archivos
                            (DataLoader_init tablas_creadas)))))
     = [] ++ nuevos
     /\ Forall con_claves nuevos)
  /\ advertencias (_load_hechos E0 archivos
                     (load_dimension_tables E0 archivos
                        (DataLoader_init tablas_creadas)))
     = [WARNING_hecho 2].
Proof.
  destruct (C1_carga_de_hechos E0 archivos practicas
              (load_dimension_tables E0 archivos
                 (DataLoader_init tablas_creadas)) eq_refl)
    as [H1 _].
  split; [exact H1|]. vm_compute. reflexivity.
Defined.

(** ** One evaluation per fact *)

Lemma existsb_no_conflict (R : Type) (r : R) (l : list R) :
  existsb (no_conflict r) l = false.
Proof. induction l; simpl; auto. Qed.

Section Evaluaciones.
Variable E : Env.

(** The insert of the comment, with the sequence ahead of the keys: it
    adds the row of the comment under the next key and returns that key, or
    it fails and adds nothing. *)
Lemma execute_query_evaluacion (c : str) (st : DataLoader) :
  Forall (fun v => (Evaluacion.id_evaluacionempresa v
                    < serial (evaluacion_empresa (db st)))%Z)
    (rows (evaluacion_empresa (db st))) ->
  (success (execute_query E (INSERT_evaluacion_empresa c) st) = true
   /\ fetchone (execute_query E (INSERT_evaluacion_empresa c) st)
      = Some (serial (evaluacion_empresa (db st)))
   /\ rows (evaluacion_empresa
              (db (state (execute_query E (INSERT_evaluacion_empresa c) st))))
      = rows (evaluacion_empresa (db st))
          ++ [{| Evaluacion.id_evaluacionempresa :=
                   serial (evaluacion_empresa (db st));
                 Evaluacion.comentario := Some c |}]
   /\ serial (evaluacion_empresa
                (db (state (execute_query E (INSERT_evaluacion_empresa c) st))))
      = (serial (evaluacion_empresa (db st)) + 1)%Z)
  \/ (success (execute_query E (INSERT_evaluacion_empresa c) st) = false
      /\ rows (evaluacion_empresa
                 (db (state (execute_query E (INSERT_evaluacion_empresa c)
                               st))))
         = rows (evaluacion_empresa (db st))
      /\ (serial (evaluacion_empresa (db st))
          <= serial (evaluacion_empresa
                       (db (state (execute_query E
                                     (INSERT_evaluacion_empresa c) st))))
          <= serial (evaluacion_empresa (db st)) + 1)%Z).
Proof.
  intros Hf. unfold execute_query.
  destruct (verdict E (clock st)) as [|[|]].
  - left. simpl run. unfold insert, fila_evaluacion.
    rewrite (fresco_sin_clave _ _ Hf), existsb_no_conflict. simpl. auto.
  - right. simpl. repeat split; lia.
  - right. simpl. repeat split; lia.
Qed.

Lemma execute_query_evaluacion_hechos (c : str) (st : DataLoader) :
  hechos (db (state (execute_query E (INSERT_evaluacion_empresa c) st)))
  = hechos (db st).
Proof.
  match goal with
  | |- context [execute_query E ?q st] =>
    destruct (execute_query_db E q st) as [[_ [-> | ->]] | [_ ->]]
  end; try reflexivity.
  now rewrite hechos_run.
Qed.

Lemma execute_query_hechos_evaluacion (es pr em ti ev ro : option Z)
  (st : DataLoader) :
  evaluacion_empresa
    (db (state (execute_query E (INSERT_hechos es pr em ti ev ro) st)))
  = evaluacion_empresa (db st).
Proof.
  match goal with
  | |- context [execute_query E ?q st] =>
    destruct (execute_query_db E q st) as [[_ [-> | ->]] | [_ ->]]
  end; try reflexivity.
  now rewrite evaluacion_run.
Qed.

Lemma obtener_comentario_df (st st0 : DataLoader) (index : nat) :
  df_comentarios st = df_comentarios st0 ->
  _obtener_comentario_por_indice st index
  = _obtener_comentario_por_indice st0 index.
Proof. unfold _obtener_comentario_por_indice. now intros ->. Qed.

Lemma evaluacion_propia_mono (st0 : DataLoader) (filas : list fila)
  (n m : nat) (s s' : Store) (h : Hechos.row) :
  n <= m ->
  prefijo (rows (evaluacion_empresa s)) (rows (evaluacion_empresa s')) ->
  evaluacion_propia st0 filas n s h -> evaluacion_propia st0 filas m s' h.
Proof.
  intros Hn [r Hr] [index [row [v [H1 [H2 [H3 [H4 [H5 H6]]]]]]]].
  exists index, row, v. repeat split; try assumption; [lia|].
  rewrite Hr. apply in_or_app. now left.
Qed.

Lemma hechos_paso_df (st : DataLoader) (ir : nat * fila) :
  df_comentarios (hechos_paso E st ir) = df_comentarios st.
Proof.
  destruct ir as [index row]. unfold hechos_paso.
  destruct (notna _); [|reflexivity].
  destruct (_ && _); simpl; now rewrite ?execute_query_df.
Qed.

End Evaluaciones.

Section UnaPorHecho.
Variable E : Env.
Variable st0 : DataLoader.
Variable filas : list fila.

Lemma inv_hechos_sube (n : nat) (st st' : DataLoader) :
  inv_hechos st0 filas n st ->
  df_comentarios st' = df_comentarios st ->
  hechos (db st') = hechos (db st) ->
  rows (evaluacion_empresa (db st')) = rows (evaluacion_empresa (db st)) ->
  (serial (evaluacion_empresa (db st)) <= serial (evaluacion_empresa (db st'))
   <= serial (evaluacion_empresa (db st)) + 1)%Z ->
  inv_hechos st0 filas (S n) st'.
Proof.
  intros [Hdf [Hs [Hfr [Hnv [Hnh Hpr]]]]] Hd Hh Hr Hse.
  unfold inv_hechos. rewrite Hd, Hh, Hr.
  repeat split; try assumption.
  - lia.
  - eapply Forall_impl; [|exact Hfr]. simpl. intros; lia.
  - eapply Forall_impl; [|exact Hpr]. intros h.
    apply evaluacion_propia_mono; [lia|]. rewrite Hr. apply prefijo_refl.
Qed.

Lemma has_key_In (R : Type) (id_of : R -> Z) (t : Table R) (k : Z) :
  has_key id_of t k = true -> exists r, In r (rows t) /\ id_of r = k.
Proof.
  unfold has_key. intros H. apply existsb_exists in H.
  destruct H as [r [Hr He]]. apply Z.eqb_eq in He. eauto.
Qed.

(** The state after the record at [n] keeps what held after the records
    before it. *)
Lemma hechos_paso_inv (n : nat) (st : DataLoader) (row : fila) :
  inv_hechos st0 filas n st -> nth_error filas n = Some row ->
  inv_hechos st0 filas (S n) (hechos_paso E st (n, row)).
Proof.
  intros Hinv Hrow.
  destruct (rut_presente row) eqn:Hr.
  2:{ rewrite (hechos_paso_sin_rut E st n row Hr).
      apply (inv_hechos_sube n st st Hinv); try reflexivity. lia. }
  rewrite (hechos_paso_con_rut E st n row Hr). cbv zeta.
  pose proof Hinv as [Hdf [Hs [Hfr [Hnv [Hnh Hpr]]]]].
  pose proof (execute_query_evaluacion E
                (_obtener_comentario_por_indice st n) st Hfr) as Hev.
  pose proof (execute_query_evaluacion_hechos E
                (_obtener_comentario_por_indice st n) st) as Hhe.
  pose proof (execute_query_df E (insert_evaluacion st n) st) as Hd1.
  unfold clave_evaluacion. cbv zeta.
  change (INSERT_evaluacion_empresa (_obtener_comentario_por_indice st n))
    with (insert_evaluacion st n) in *.
  remember (execute_query E (insert_evaluacion st n) st) as r eqn:Er.
  remember (state r) as st1 eqn:E1.
  (* what holds after the insert of the comment *)
  assert (H1 : df_comentarios st1 = df_comentarios st0
               /\ (serial (evaluacion_empresa (db st1))
                   <= Z.of_nat (S n) + 1)%Z
               /\ Forall (fun v => (Evaluacion.id_evaluacionempresa v
                                    < serial (evaluacion_empresa (db st1)))%Z)
                    (rows (evaluacion_empresa (db st1)))
               /\ NoDup (map Evaluacion.id_evaluacionempresa
                           (rows (evaluacion_empresa (db st1))))
               /\ prefijo (rows (evaluacion_empresa (db st)))
                    (rows (evaluacion_empresa (db st1)))).
  { split; [congruence|].
    destruct Hev as [[_ [_ [Hrw Hse]]] | [_ [Hrw Hse]]]; rewrite Hrw.
    - rewrite Hse. split; [lia|]. split; [|split].
      + apply Forall_app. split.
        * eapply Forall_impl; [|exact Hfr]. simpl. intros; lia.
        * constructor; [simpl; lia | constructor].
      + rewrite map_app. simpl. apply NoDup_snoc; [assumption|].
        intros Hin. apply in_map_iff in Hin. destruct Hin as [v [Hv Hin]].
        rewrite Forall_forall in Hfr. specialize (Hfr _ Hin). lia.
      + now eexists.
    - split; [lia|]. split; [|split].
      + eapply Forall_impl; [|exact Hfr]. simpl. intros; lia.
      + assumption.
      + apply prefijo_refl. }
  destruct H1 as [Hdf1 [Hs1 [Hfr1 [Hnv1 Hpre]]]].
  assert (Hpr1 : Forall (evaluacion_propia st0 filas (S n) (db st1))
                   (rows (hechos (db st)))).
  { eapply Forall_impl; [|exact Hpr]. intros h.
    apply evaluacion_propia_mono; [lia | assumption]. }
  destruct (claves_resueltas E st n row) eqn:Hk.
  2:{ (* a key is missing: a warning *)
      unfold inv_hechos. simpl. rewrite Hhe. auto 10. }
  (* the three keys: the insert of the fact *)
  match goal with
  | |- inv_hechos _ _ _ (state (execute_query E ?q st1)) =>
    pose proof (execute_query_hechos E q st1) as Hh;
    pose proof (execute_query_df E q st1) as Hd2;
    remember (state (execute_query E q st1)) as st2 eqn:E2
  end.
  assert (He2 : evaluacion_empresa (db st2) = evaluacion_empresa (db st1)).
  { subst st2. apply execute_query_hechos_evaluacion. }
  unfold inv_hechos. rewrite He2.
  split; [congruence|]. split; [assumption|]. split; [assumption|].
  split; [assumption|].
  rewrite Hhe in Hh.
  assert (Hpr2 : Forall (evaluacion_propia st0 filas (S n) (db st2))
                   (rows (hechos (db st)))).
  { eapply Forall_impl; [|exact Hpr1]. intros h.
    apply evaluacion_propia_mono; [lia | rewrite He2; apply prefijo_refl]. }
  destruct Hh as [Hh | [es [pr [em [ti [ev [ro [Hq [Hh Hfk]]]]]]]]].
  - rewrite Hh. split; assumption.
  - inversion Hq; subst ev. clear Hq. rewrite Hh.
    destruct Hev as [[Hsu [Hfe [Hrw Hse]]] | [Hsu [Hrw Hse]]].
    + (* the comment was inserted: the fact has the new key *)
      rewrite Hsu, Hfe in *. split.
      * rewrite map_app. simpl. apply NoDup_snoc; [assumption|].
        intros Hin. apply in_map_iff in Hin. destruct Hin as [h [Hv Hin]].
        rewrite Forall_forall in Hpr. specialize (Hpr _ Hin).
        destruct Hpr as [i [rw [v [_ [_ [_ [Hvin [Hid _]]]]]]]].
        rewrite Hid in Hv. inversion Hv as [Hv'].
        rewrite Forall_forall in Hfr. specialize (Hfr _ Hvin). lia.
      * apply Forall_app. split; [assumption|].
        constructor; [|constructor].
        exists n, row,
          {| Evaluacion.id_evaluacionempresa :=
               serial (evaluacion_empresa (db st));
             Evaluacion.comentario :=
               Some (_obtener_comentario_por_indice st n) |}.
        split; [lia|]. split; [assumption|]. split; [assumption|].
        split; [rewrite He2, Hrw; apply in_or_app; right; now left|].
        split; [reflexivity|]. simpl.
        now rewrite (obtener_comentario_df st st0 n Hdf).
    + (* the comment was not inserted: no row has the key index + 1 *)
      exfalso. rewrite Hsu in Hfk. simpl in Hfk.
      apply has_key_In in Hfk. destruct Hfk as [v [Hvin Hid]].
      rewrite Hrw in Hvin.
      rewrite Forall_forall in Hfr. specialize (Hfr _ Hvin). lia.
Qed.

(** The loop over the rows from [k] on. *)
Lemma hechos_bucle_inv (l : list fila) :
  forall (k : nat) (st : DataLoader),
    inv_hechos st0 filas k st ->
    (forall j, j < length l -> nth_error filas (k + j) = nth_error l j) ->
    inv_hechos st0 filas (k + length l)
      (fold_left (hechos_paso E) (enumerate_desde k l) st).
Proof.
  induction l as [|row r IH]; intros k st Hinv Hl.
  - simpl. now rewrite Nat.add_0_r.
  - rewrite enumerate_desde_cons. cbn [fold_left length].
    rewrite Nat.add_succ_r, <- Nat.add_succ_l. apply IH.
    + apply hechos_paso_inv; [assumption|].
      specialize (Hl 0). simpl in Hl. rewrite Nat.add_0_r in Hl.
      apply Hl. lia.
    + intros j Hj. specialize (Hl (S j)). simpl in Hl.
      rewrite Nat.add_succ_r in Hl. apply Hl. lia.
Qed.

End UnaPorHecho.

Section Cuenta.
Variable E : Env.

(** An accepted insert of a comment, with the sequence ahead of the keys,
    succeeds. *)
Lemma execute_query_evaluacion_acepta (c : str) (st : DataLoader) :
  verdict E (clock st) = Accept -> fresca st ->
  success (execute_query E (INSERT_evaluacion_empresa c) st) = true.
Proof.
  intros Hv Hf. unfold execute_query. rewrite Hv.
  simpl run. unfold insert, fila_evaluacion.
  rewrite (fresco_sin_clave _ _ Hf), existsb_no_conflict. reflexivity.
Qed.

(** The evaluation rows that one record adds: none without [rut_alum], one
    at most with it, and the row of its text when the server accepts. *)
Lemma hechos_paso_evaluaciones (st0 st : DataLoader) (ir : nat * fila) :
  df_comentarios st = df_comentarios st0 ->
  fresca st ->
  exists nuevas,
    rows (evaluacion_empresa (db (hechos_paso E st ir)))
    = rows (evaluacion_empresa (db st)) ++ nuevas
    /\ fresca (hechos_paso E st ir)
    /\ length nuevas <= length (con_rut [ir])
    /\ ((forall n, verdict E n = Accept) ->
        map Evaluacion.comentario nuevas = map (texto_de st0) (con_rut [ir])).
Proof.
  intros Hdf Hfr. destruct ir as [n row]. unfold con_rut. simpl filter.
  destruct (rut_presente row) eqn:Hr.
  2:{ rewrite (hechos_paso_sin_rut E st n row Hr). exists [].
      rewrite app_nil_r. repeat split; auto. }
  rewrite (hechos_paso_con_rut E st n row Hr). cbv zeta.
  pose proof (execute_query_evaluacion E
                (_obtener_comentario_por_indice st n) st Hfr) as Hev.
  pose proof (fun Hv => execute_query_evaluacion_acepta
                (_obtener_comentario_por_indice st n) st Hv Hfr) as Hac.
  change (INSERT_evaluacion_empresa (_obtener_comentario_por_indice st n))
    with (insert_evaluacion st n) in *.
  remember (state (execute_query E (insert_evaluacion st n) st)) as st1 eqn:E1.
  assert (H1 : forall st2,
             evaluacion_empresa (db st2) = evaluacion_empresa (db st1) ->
             exists nuevas,
               rows (evaluacion_empresa (db st2))
               = rows (evaluacion_empresa (db st)) ++ nuevas
               /\ fresca st2
               /\ length nuevas <= 1
               /\ ((forall k, verdict E k = Accept) ->
                   map Evaluacion.comentario nuevas
                   = [texto_de st0 (n, row)])).
  { intros st2 H2. unfold fresca. rewrite H2.
    destruct Hev as [[_ [_ [Hrw Hse]]] | [Hsu [Hrw Hse]]]; rewrite Hrw.
    - eexists. split; [reflexivity|]. split; [|split].
      + rewrite Hse. apply Forall_app. split.
        * eapply Forall_impl; [|exact Hfr]. simpl. intros; lia.
        * constructor; [simpl; lia | constructor].
      + simpl. lia.
      + intros _. unfold texto_de. simpl.
        now rewrite (obtener_comentario_df st st0 n Hdf).
    - exists []. rewrite app_nil_r. split; [reflexivity|]. split; [|split].
      + eapply Forall_impl; [|exact Hfr]. simpl. intros; lia.
      + simpl. lia.
      + intros Hv. rewrite (Hac (Hv _)) in Hsu. discriminate. }
  destruct (claves_resueltas E st n row).
  - apply H1. apply execute_query_hechos_evaluacion.
  - apply H1. reflexivity.
Qed.

(** The evaluation rows that the loop adds. *)
Lemma hechos_bucle_evaluaciones (st0 : DataLoader) (l : list (nat * fila)) :
  forall st,
    df_comentarios st = df_comentarios st0 ->
    fresca st ->
    exists nuevas,
      rows (evaluacion_empresa (db (fold_left (hechos_paso E) l st)))
      = rows (evaluacion_empresa (db st)) ++ nuevas
      /\ length nuevas <= length (con_rut l)
      /\ ((forall n, verdict E n = Accept) ->
          map Evaluacion.comentario nuevas = map (texto_de st0) (con_rut l)).
Proof.
  induction l as [|ir r IH]; intros st Hdf Hfr.
  - exists []. simpl. rewrite app_nil_r. auto.
  - destruct (hechos_paso_evaluaciones st0 st ir Hdf Hfr)
      as [n1 [Hr1 [Hf1 [Hl1 Hc1]]]].
    destruct (IH (hechos_paso E st ir)) as [n2 [Hr2 [Hl2 Hc2]]].
    + now rewrite hechos_paso_df.
    + exact Hf1.
    + exists (n1 ++ n2). cbn [fold_left]. rewrite Hr2, Hr1, app_assoc.
      split; [reflexivity|].
      change (ir :: r) with ([ir] ++ r). unfold con_rut in *.
      rewrite filter_app, !length_app, !map_app. split; [lia|].
      intros Hv. now rewrite (Hc1 Hv), (Hc2 Hv).
Qed.

End Cuenta.

(** The evaluation keys of the fact rows are keys of evaluation rows. *)
Lemma claves_de_hechos (st0 : DataLoader) (filas : list fila) (n : nat)
  (s : Store) :
  Forall (evaluacion_propia st0 filas n s) (rows (hechos s)) ->
  incl (map Hechos.id_evaluacionempresa (rows (hechos s)))
    (map (fun v => Some (Evaluacion.id_evaluacionempresa v))
       (rows (evaluacion_empresa s))).
Proof.
  intros H k Hk. apply in_map_iff in Hk. destruct Hk as [h [<- Hh]].
  rewrite Forall_forall in H.
  destruct (H _ Hh) as [i [row [v [_ [_ [_ [Hv [-> _]]]]]]]].
  apply in_map_iff. eauto.
Qed.

Lemma obtener_comentario_real (st : DataLoader) (index : nat)
  (comentarios : list str) (c : str) :
  df_comentarios st = Some comentarios ->
  nth_error comentarios index = Some c ->
  c <> [] -> c <> sin_comentarios ->
  _obtener_comentario_por_indice st index
  = lit "Evaluación " ++ of_int (Z.of_nat index + 1) ++ lit ": "
      ++ firstn 200 c.
Proof.
  intros Hd Hn H1 H2. unfold _obtener_comentario_por_indice. rewrite Hd.
  assert (Hlt : index < length comentarios).
  { apply nth_error_Some. congruence. }
  apply Nat.ltb_lt in Hlt. rewrite Hlt.
  rewrite (nth_error_nth _ _ _ Hn). cbv zeta.
  destruct c as [|x c']; [congruence|].
  apply eqb_neq in H2. rewrite H2. reflexivity.
Qed.

Lemma obtener_comentario_generico (st : DataLoader) (index : nat) :
  match df_comentarios st with
  | None => True
  | Some comentarios =>
    nth_error comentarios index = None
    \/ nth_error comentarios index = Some []
    \/ nth_error comentarios index = Some sin_comentarios
  end ->
  _obtener_comentario_por_indice st index
  = lit "Evaluación profesional " ++ of_int (Z.of_nat index + 1)
      ++ lit " - Práctica estudiantil".
Proof.
  unfold _obtener_comentario_por_indice, comentario_generico.
  destruct (df_comentarios st) as [comentarios|]; [|reflexivity].
  intros [H | [H | H]].
  - apply nth_error_None in H. apply Nat.ltb_ge in H. now rewrite H.
  - destruct (Nat.ltb index (length comentarios)); [|reflexivity].
    now rewrite (nth_error_nth _ _ _ H).
  - destruct (Nat.ltb index (length comentarios)); [|reflexivity].
    rewrite (nth_error_nth _ _ _ H). cbv zeta. rewrite eqb_refl.
    now rewrite andb_false_r.
Qed.

(** C3, counterexample.  After a complete run over [archivos]: the
    synthesized comment of the first record is [excelente] and the
    evaluation row of its fact holds another text, and the evaluation row
    made for the third record holds a generic text where the synthesized
    comment is the sentinel; there are two evaluation rows for one fact
    row.  After a second load of the facts on these tables, with the first
    insert of a comment rejected, two fact rows reference the evaluation
    key 1. *)
Lemma C3_comentario_y_reparto :
  df_comentarios cargado = Some [excelente; sin_comentarios; sin_comentarios]
  /\ map Evaluacion.comentario (rows (evaluacion_empresa (db cargado)))
     = [ Some (lit "Evaluación 1: El desempeño fue excelente, muy puntual.");
         Some (lit "Evaluación profesional 3 - Práctica estudiantil") ]
  /\ Some (lit "Evaluación 1: El desempeño fue excelente, muy puntual.")
     <> Some excelente
  /\ map Evaluacion.id_evaluacionempresa
       (rows (evaluacion_empresa (db cargado))) = [1%Z; 2%Z]
  /\ map Hechos.id_evaluacionempresa (rows (hechos (db cargado)))
     = [Some 1%Z]
  /\ map Hechos.id_evaluacionempresa
       (rows (hechos (db (_load_hechos (E_rechaza 17) archivos cargado))))
     = [Some 1%Z; Some 1%Z].
Proof.
  split; [vm_compute; reflexivity|].
  split; [vm_compute; reflexivity|].
  split; [vm_compute; discriminate|].
  split; [vm_compute; reflexivity|].
  split; vm_compute; reflexivity.
Qed.

(** C3, amended.  In a load of the facts that starts with the tables
    [evaluacion_empresa] and [hechos] empty and the sequence of the first
    at its start, as [main] leaves them: no two fact rows have the same
    evaluation key, no two evaluation rows have the same key, and every fact
    row references an evaluation row made for a record of its own load that
    has [rut_alum], holding the text of [_obtener_comentario_por_indice] for
    the index of that record.  There are never more fact rows than
    evaluation rows, nor more evaluation rows than records with [rut_alum];
    when the server accepts every statement, the evaluation rows are, in
    order, one for each record with [rut_alum], holding the text for its
    index, whether or not its fact is inserted.  That text is
    ["Evaluación {index+1}: "] followed by the first 200 characters of the
    synthesized comment at that index of the comments when it is there, not
    empty and not the sentinel, and
    ["Evaluación profesional {index+1} - Práctica estudiantil"] otherwise.
    The comments are those that [extraer_comentarios_reales_fila] gives for
    the rows of the evaluation snapshot. *)
Theorem C3_una_evaluacion_por_hecho (E : Env) (files : Files) (df : Frame)
  (st : DataLoader) :
  ALUMN_PRACT files = Leido df ->
  rows (evaluacion_empresa (db st)) = [] ->
  rows (hechos (db st)) = [] ->
  (serial (evaluacion_empresa (db st)) <= 1)%Z ->
  NoDup (map Hechos.id_evaluacionempresa
           (rows (hechos (db (_load_hechos E files st)))))
  /\ NoDup (map Evaluacion.id_evaluacionempresa
              (rows (evaluacion_empresa (db (_load_hechos E files st)))))
  /\ Forall (evaluacion_propia st (iterrows df) (length (iterrows df))
               (db (_load_hechos E files st)))
       (rows (hechos (db (_load_hechos E files st))))
  /\ length (rows (hechos (db (_load_hechos E files st))))
     <= length (rows (evaluacion_empresa (db (_load_hechos E files st))))
  /\ length (rows (evaluacion_empresa (db (_load_hechos E files st))))
     <= length (con_rut (enumerate (iterrows df)))
  /\ ((forall n, verdict E n = Accept) ->
      map Evaluacion.comentario
        (rows (evaluacion_empresa (db (_load_hechos E files st))))
      = map (texto_de st) (con_rut (enumerate (iterrows df))))
  /\ (forall index comentarios c,
        df_comentarios st = Some comentarios ->
        nth_error comentarios index = Some c ->
        c <> [] -> c <> sin_comentarios ->
        _obtener_comentario_por_indice st index
        = lit "Evaluación " ++ of_int (Z.of_nat index + 1) ++ lit ": "
            ++ firstn 200 c)
  /\ (forall index,
        match df_comentarios st with
        | None => True
        | Some comentarios =>
          nth_error comentarios index = None
          \/ nth_error comentarios index = Some []
          \/ nth_error comentarios index = Some sin_comentarios
        end ->
        _obtener_comentario_por_indice st index
        = lit "Evaluación profesional " ++ of_int (Z.of_nat index + 1)
            ++ lit " - Práctica estudiantil")
  /\ (forall df' st',
        alumn_pract_eva_jef files = Leido df' ->
        df_comentarios (extraer_comentarios_reales E files st')
        = Some (map (extraer_comentarios_reales_fila (ucd E))
                  (iterrows df'))).
Proof.
  intros Hf Hev Hhe Hse.
  assert (H0 : inv_hechos st (iterrows df) 0 st).
  { unfold inv_hechos. rewrite Hev, Hhe. simpl.
    repeat split; try constructor. lia. }
  pose proof (hechos_bucle_inv E st (iterrows df) (iterrows df) 0 st H0
                (fun j _ => eq_refl)) as H.
  assert (Hfr : fresca st).
  { unfold fresca. rewrite Hev. constructor. }
  destruct (hechos_bucle_evaluaciones E st (enumerate (iterrows df)) st
              eq_refl Hfr) as [nuevas [Hrw [Hle Hco]]].
  rewrite Hev in Hrw. simpl in Hrw.
  unfold _load_hechos. rewrite Hf. unfold enumerate in *.
  destruct H as [_ [_ [_ [Hnv [Hnh Hpr]]]]].
  split; [exact Hnh|]. split; [exact Hnv|]. split; [exact Hpr|].
  split.
  { rewrite <- (length_map Hechos.id_evaluacionempresa).
    rewrite <- (length_map (fun v => Some (Evaluacion.id_evaluacionempresa v))
                  (rows (evaluacion_empresa _))).
    apply NoDup_incl_length; [exact Hnh|].
    exact (claves_de_hechos _ _ _ _ Hpr). }
  rewrite Hrw.
  split; [exact Hle|]. split; [exact Hco|].
  split; [exact (obtener_comentario_real st)|].
  split; [exact (obtener_comentario_generico st)|].
  intros df' st' Hj. unfold extraer_comentarios_reales. now rewrite Hj.
Qed.

(** C3 at the snapshot [archivos_pares], after the load of the dimensions
    from the tables that [create_tables] leaves: two fact rows with
    different evaluation keys, each with an evaluation of its own, and three
    evaluation rows, one for each of the three records. *)
Lemma C3_dos_hechos :
  main E0 archivos_pares = _load_hechos E0 archivos_pares dimensiones_pares
  /\ length (rows (hechos (db (_load_hechos E0 archivos_pares
                                 dimensiones_pares)))) = 2
  /\ NoDup (map Hechos.id_evaluacionempresa
              (rows (hechos (db (_load_hechos E0 archivos_pares
                                   dimensiones_pares)))))
  /\ Forall (evaluacion_propia dimensiones_pares (iterrows practicas_pares) 3
               (db (_load_hechos E0 archivos_pares dimensiones_pares)))
       (rows (hechos (db (_load_hechos E0 archivos_pares
                            dimensiones_pares))))
  /\ map Evaluacion.comentario
       (rows (evaluacion_empresa
                (db (_load_hechos E0 archivos_pares dimensiones_pares))))
     = map (texto_de dimensiones_pares)
         (con_rut (enumerate (iterrows practicas_pares)))
  /\ length (con_rut (enumerate (iterrows practicas_pares))) = 3.
Proof.
  split; [cbv delta [main load_fact_table dimensiones_pares] beta zeta;
          reflexivity|].
  split; [vm_compute; reflexivity|].
  assert (Hev : rows (evaluacion_empresa (db dimensiones_pares)) = [])
    by (vm_compute; reflexivity).
  assert (Hhe : rows (hechos (db dimensiones_pares)) = [])
    by (vm_compute; reflexivity).
  assert (Hse : (serial (evaluacion_empresa (db dimensiones_pares)) <= 1)%Z)
    by (vm_compute; discriminate).
  destruct (C3_una_evaluacion_por_hecho E0 archivos_pares practicas_pares
              dimensiones_pares eq_refl Hev Hhe Hse)
    as [H1 [_ [H3 [_ [_ [H6 _]]]]]].
  split; [exact H1|]. split; [exact H3|].
  split; [exact (H6 (fun _ => eq_refl))|].
  vm_compute; reflexivity.
Defined.

(* ===================================================================== *)
(** * Further properties of the extractor and of the loader *)
(* ===================================================================== *)

(** ** The preview of a body *)






Section Paginas.
Variable Rec : Type.
Variable requests_get : str -> Params -> Exn + Response Rec.
Variables api_url token0 tabla0 : str.
Variable limit0 : Z.

#[local] Abbreviation pide k :=
  (get_json requests_get api_url
     {| tabla := tabla0; token := token0; limit := limit0; offset := k |}).
#[local] Abbreviation bucle :=
  (descargar_bucle requests_get).





End Paginas.



Section Termina.
Variable Rec : Type.
Variable requests_get : str -> Params -> Exn + Response Rec.
Variables api_url token0 tabla0 : str.
Variable limit0 : Z.

#[local] Abbreviation pide k :=
  (get_json requests_get api_url
     {| tabla := tabla0; token := token0; limit := limit0; offset := k |}).


Variable Tmax : Z.
Hypothesis limit_pos : (0 < limit0)%Z.
Hypothesis acotado :
  forall k filas total dumps,
    pide k = inr (Dict (Some filas) (TotalInt total) dumps) ->
    (total <= Tmax)%Z.


End Termina.




Section SinFin.
Variable Rec : Type.
Variable requests_get : str -> Params -> Exn + Response Rec.
Variables api_url token0 tabla0 : str.
Variable limit0 : Z.
Hypothesis limit_no_pos : (limit0 <= 0)%Z.
Hypothesis filas_siempre :
  forall k, (k <= 0)%Z ->
    exists filas total dumps,
      get_json requests_get api_url
        {| tabla := tabla0; token := token0; limit := limit0; offset := k |}
      = inr (Dict (Some filas) (TotalInt total) dumps)
      /\ filas <> [] /\ (0 < total)%Z.


End SinFin.



Section StripIdem.
Variable U : UCD.







End StripIdem.

Section Forma.
Variable U : UCD.
Variable Num : Type.
Variable to_datetime_obj : list obj -> obj -> option Timestamp.
Variable to_datetime_num : list Num -> Num -> option Timestamp.

#[local] Abbreviation limpiar :=
  (limpiar_df U to_datetime_obj to_datetime_num).
#[local] Abbreviation columna_limpia c :=
  (normalizar_fecha U to_datetime_obj to_datetime_num (strip_objetos U c)).






End Forma.




(** ** [detectar_columna_rut] *)


Section Deteccion.
Variable U : UCD.
Variable cols : list str.



End Deteccion.


(** ** Effect of a statement on the tables *)

Lemma empresa_run (q : Stmt) (s : Store) :
  empresa (after (run q s))
  = match q with
    | INSERT_empresa n d c t r =>
      after (insert Empresa.id_empresa (empresa s) (fila_empresa n d c t r)
               (@no_conflict _) (references Rubro.id_rubro (rubro s) r))
    | _ => empresa s
    end.
Proof. destruct q; simpl; rewrite after_into; reflexivity. Qed.

Lemma practica_run (q : Stmt) (s : Store) :
  practica (after (run q s))
  = match q with
    | INSERT_practica m c h e ep fi ff =>
      after (insert Practica.id_practica (practica s)
               (fila_practica m c h e ep fi ff) (@no_conflict _)
               (references Carrera.id_carrera (carrera s) c))
    | _ => practica s
    end.
Proof. destruct q; simpl; rewrite after_into; reflexivity. Qed.

Lemma intacta_refl (t : Tabla) (s : Store) : intacta t s s.
Proof. destruct t; reflexivity. Qed.


Lemma burnt_intacta (q : Stmt) (s : Store) (t : Tabla) :
  intacta t s (burnt q s).
Proof. destruct q, t; reflexivity. Qed.

Lemma crece_refl (s : Store) : crece s s.
Proof. repeat split; apply prefijo_refl. Qed.

Lemma crece_trans (s1 s2 s3 : Store) : crece s1 s2 -> crece s2 s3 -> crece s1 s3.
Proof.
  unfold crece. intros H1 H2.
  repeat match goal with H : _ /\ _ |- _ => destruct H end.
  repeat split; eapply prefijo_trans; eassumption.
Qed.

Lemma crece_intacta (s s' : Store) :
  (forall t, intacta t s s') -> crece s s'.
Proof.
  intros H.
  pose proof (H T_rubro) as H1. pose proof (H T_empresa) as H2.
  pose proof (H T_carrera) as H3. pose proof (H T_estudiante) as H4.
  pose proof (H T_tiempo) as H5. pose proof (H T_evaluacion_empresa) as H6.
  pose proof (H T_practica) as H7. pose proof (H T_hechos) as H8.
  simpl in *. unfold crece. rewrite H1, H2, H3, H4, H5, H6, H7, H8.
  repeat split; apply prefijo_refl.
Qed.

Lemma into_no_inserta (T : Type) (set : T -> Store) (o : Outcome T) :
  (forall t id, o <> Inserted t id) ->
  forall s id, into set o <> Inserted s id.
Proof. intros H s id. destruct o; try discriminate. now destruct (H t id0). Qed.

(** A statement leaves the rows of the tables other than its own, and
    those of its own table too when it inserts no row. *)
Lemma run_intacta (q : Stmt) (s0 : Store) (t : Tabla) :
  tabla_de q <> t \/ (forall s id, run q s0 <> Inserted s id) ->
  intacta t s0 (after (run q s0)).
Proof.
  intros H.
  assert (Hq : tabla_de q <> t
               \/ (tabla_de q = t /\ forall s id, run q s0 <> Inserted s id)).
  { destruct H as [H | H]; [now left|].
    destruct q, t; try (left; discriminate); right; (split; [reflexivity|]);
      exact H. }
  clear H. unfold intacta.
  destruct t;
    rewrite ?rubro_run, ?empresa_run, ?carrera_run, ?estudiante_run,
      ?tiempo_run, ?practica_run, ?evaluacion_run, ?hechos_run;
    destruct q; try reflexivity;
    (destruct Hq as [Hq | [_ Hq]]; [now destruct Hq|]);
    cbn [run] in Hq;
    match goal with
    | |- context [insert ?i ?t ?c ?k ?f] =>
      destruct (insert_rows i t c k f) as [[Hr _] | [mk [_ [Hi _]]]]
    end;
    try exact Hr; rewrite Hi in Hq; cbn [into] in Hq;
    now destruct (Hq _ _ eq_refl).
Qed.

Lemma run_crece (q : Stmt) (s : Store) : crece s (after (run q s)).
Proof.
  unfold crece.
  rewrite rubro_run, empresa_run, carrera_run, estudiante_run, tiempo_run,
    practica_run, evaluacion_run, hechos_run.
  destruct q; repeat split; first [apply prefijo_refl | apply insert_prefijo].
Qed.

Section Marco.
Variable E : Env.

(** [execute_query] through its two outcomes. *)
Lemma execute_query_casos (q : Stmt) (st : DataLoader) :
  (success (execute_query E q st) = false
   /\ fetchone (execute_query E q st) = None
   /\ log (state (execute_query E q st)) = ERROR_query :: log st
   /\ forall t, intacta t (db st) (db (state (execute_query E q st))))
  \/ (success (execute_query E q st) = true
      /\ log (state (execute_query E q st)) = log st
      /\ verdict E (clock st) = Accept
      /\ db (state (execute_query E q st)) = after (run q (db st))
      /\ (forall s, run q (db st) <> Violation s)).
Proof.
  unfold execute_query. destruct (verdict E (clock st)) as [|[|]].
  - destruct (run q (db st)) as [s id | s | s] eqn:Hr.
    + right. repeat split; discriminate.
    + right. repeat split; discriminate.
    + left. cbn [state success fetchone log logged with_db db tick].
      split; [reflexivity|]. split; [reflexivity|]. split; [reflexivity|].
      assert (Hs : s = after (run q (db st))) by now rewrite Hr.
      rewrite Hs. intros t. apply run_intacta. right. congruence.
  - left. cbn [state success fetchone log logged with_db db tick].
    repeat split. intros t. apply burnt_intacta.
  - left. cbn [state success fetchone log logged with_db db tick].
    repeat split. intros t. apply intacta_refl.
Qed.

Lemma execute_query_crece (q : Stmt) (st : DataLoader) :
  crece (db st) (db (state (execute_query E q st))).
Proof.
  destruct (execute_query_casos q st) as [[_ [_ [_ H]]] | [_ [_ [_ [-> _]]]]].
  - now apply crece_intacta.
  - apply run_crece.
Qed.


Lemma traza_crece (st : DataLoader) (tr : list Stmt) (st' : DataLoader) :
  Traza E st tr st' -> crece (db st) (db st').
Proof.
  induction 1.
  - apply crece_refl.
  - eapply crece_trans; [apply execute_query_crece | eassumption].
  - now rewrite <- H.
Qed.


End Marco.

(** ** Referential integrity *)







Section Integridad.
Variable E : Env.




End Integridad.

(** ** The statements of each loader *)

Section Clases.
Variable E : Env.
















End Clases.





(** ** The practices *)

Section Practicas.
Variable E : Env.






End Practicas.







(** ** The companies *)

Section Recorte.
Variable U : UCD.



End Recorte.

Section Empresas.
Variable E : Env.
Hypothesis espacio : isspace_c (ucd E) 32 = true.



End Empresas.



(** ** Keys found after the load *)






Section Resueltas.
Variable E : Env.
Variable files : Files.
Variable st : DataLoader.
Hypothesis acepta : forall n, verdict E n = Accept.
Hypothesis frescos : seriales_frescos (db st).



End Resueltas.








Section Encontradas.
Variable E : Env.
Variable files : Files.
Variable df : Frame.
Variable st : DataLoader.
Hypothesis leido : ALUMN_PRACT files = Leido df.
Hypothesis acepta : forall n, verdict E n = Accept.
Hypothesis frescos : seriales_frescos (db st).




End Encontradas.



(** ** The comments *)




(** ** The careers *)

Section Carreras.
Variable E : Env.



End Carreras.




(** ** A data directory without the snapshot of practices *)

Section SinSnapshot.
Variable E : Env.







End SinSnapshot.


